(** * Vehicle rental: reservation and pricing engine

    A shallow embedding of the reservation core of the vehicle rental
    application: [RentalPeriod] (rental_period.py), [Vehicle] and [Car]
    (vehicle.py, car.py, with the cost formulas of motorbike.py and
    truck.py), [Renter] and its three user classes (renter.py,
    individual_user.py, corporate_user.py, staff_user.py), [RentalRecord]
    (rental_record.py) and the engine [VehicleRental] (vehicle_rental.py).

    Conventions of the embedding.
    - Python [str] values are [string]s of Latin-1 code points.
    - Python objects mutated in place become records passed through the
      operations; a method that mutates [self] returns the new [self].
    - A raised exception is the left injection of a sum, see [result].
    - Amounts of money are Python floats in the source.  A float is
      modelled by a rational [Q]: a binary64 number itself, or a decimal
      that stands for the binary64 number nearest to it, as a literal of
      the source and the result of [round(x, 2)] do.  [round(x, 2)] is
      rounding to the nearest hundredth, ties to even.  The pricing
      functions come twice: in [Vehicle] with their arithmetic carried
      out exactly, which is what the order properties are stated on, and
      in [Float] in binary64 arithmetic, each operation rounding to the
      nearest binary64 number, which gives the amounts of the source to
      the cent.  Infinities, NaN and results beyond the range of binary64
      are outside the model.
    - rental_period.py is imported under two module names, and each gives
      a class [RentalPeriod] of its own; a period carries the module of
      its class, see [RentalPeriod.module_name].
    - [datetime.now()] is the explicit argument [now].
    - [print] and the pickle snapshot ([save_data]) do not change the
      in-memory state and are left out. *)

From Stdlib Require Import ZArith QArith Qround Qpower Bool List Lia Lqa.
From Stdlib Require Import Ascii String DecimalString.
From Stdlib Require DecimalN.
Import ListNotations.

Local Open Scope string_scope.
Local Open Scope Z_scope.

(* ================================================================= *)
(** ** Exceptions (exceptions.py) *)

Module Exceptions.

Inductive exn : Type :=
| VehicleNotFoundError (vehicle_id : string)
| VehicleNotAvailableError (vehicle_id start_date end_date : string)
| RenterNotFoundError (renter_id : string)
| InvalidRentalPeriodError (start_date end_date : string)
| VehicleAlreadyReturnedError (vehicle_id : string)
| InvalidVehicleDataError (field : string)
| DuplicateVehicleError (vehicle_id : string)
| DuplicateRenterError (renter_id : string)
| ValueError (message : string)
| TypeError (message : string).

(** The outcome of a call that may raise. *)
Definition result (A : Type) : Type := (exn + A)%type.

Definition ok {A : Type} (a : A) : result A := inr a.
Definition raise {A : Type} (e : exn) : result A := inl e.

Definition bind {A B : Type} (m : result A) (k : A -> result B) : result B :=
  match m with
  | inl e => inl e
  | inr a => k a
  end.

End Exceptions.
Import Exceptions.

Declare Scope py_scope.
Delimit Scope py_scope with py.
Notation "x <- m ;; k" := (bind m (fun x => k))
  (at level 100, m at next level, right associativity) : py_scope.

(* ================================================================= *)
(** ** The pieces of the Python runtime the code relies on *)

Module Py.

(** [str.isspace] on one code point below 256. *)
Definition isspace (c : ascii) : bool :=
  let n := Z.of_N (N_of_ascii c) in
  ((9 <=? n) && (n <=? 13)) || ((28 <=? n) && (n <=? 32))
  || (n =? 133) || (n =? 160).

Fixpoint lstrip (s : string) : string :=
  match s with
  | EmptyString => EmptyString
  | String c s' => if isspace c then lstrip s' else s
  end.

Fixpoint rstrip (s : string) : string :=
  match s with
  | EmptyString => EmptyString
  | String c s' =>
      match rstrip s' with
      | EmptyString => if isspace c then EmptyString else String c EmptyString
      | r => String c r
      end
  end.

(** [s.strip()] *)
Definition strip (s : string) : string := rstrip (lstrip s).

(** [str.lower] on one code point below 256. *)
Definition lower_char (c : ascii) : ascii :=
  let n := Z.of_N (N_of_ascii c) in
  if ((65 <=? n) && (n <=? 90))
     || ((192 <=? n) && (n <=? 222) && negb (n =? 215))
  then ascii_of_N (Z.to_N (n + 32))
  else c.

Fixpoint lower (s : string) : string :=
  match s with
  | EmptyString => EmptyString
  | String c s' => String (lower_char c) (lower s')
  end.

(** [x in l] for a list of strings. *)
Definition str_in (x : string) (l : list string) : bool :=
  existsb (String.eqb x) l.

(** Truth value of an optional string argument: [None] and the empty
    string are false. *)
Definition truthy (o : option string) : bool :=
  match o with
  | Some s => negb (String.eqb s "")
  | None => false
  end.

(** [f"{n:05d}"]: at least five characters, zero-filled after the sign. *)
Fixpoint zfill_aux (fuel width : nat) (digits : string) : string :=
  match fuel with
  | O => digits
  | S fuel' =>
      if Nat.ltb (String.length digits) width
      then zfill_aux fuel' width (String "0" digits) else digits
  end.

Definition zfill (width : nat) (digits : string) : string :=
  zfill_aux width width digits.

Definition format_05d (n : Z) : string :=
  let digits := NilZero.string_of_uint (N.to_uint (Z.to_N (Z.abs n))) in
  if n <? 0 then String "-" (zfill 4 digits) else zfill 5 digits.

(** *** Decimal digits *)

Definition is_digit (c : ascii) : bool :=
  let n := Z.of_N (N_of_ascii c) in (48 <=? n) && (n <=? 57).

Definition digit (c : ascii) : Z := Z.of_N (N_of_ascii c) - 48.

Definition in_range (lo hi : Z) (c : ascii) : bool :=
  is_digit c && (lo <=? digit c) && (digit c <=? hi).

(** *** Money *)

(** Nearest integer to [x], ties to even. *)
Definition round_half_even (x : Q) : Z :=
  let f := Qfloor x in
  match Qcompare (x - inject_Z f) (1 # 2) with
  | Lt => f
  | Gt => f + 1
  | Eq => if Z.even f then f else f + 1
  end.

(** [round(x, 2)] *)
Definition round2 (x : Q) : Q := round_half_even (x * 100) # 100.

(** [max] and [min] of two numbers. *)
Definition qmax (a b : Q) : Q := if Qle_bool a b then b else a.
Definition qmin (a b : Q) : Q := if Qle_bool a b then a else b.

(** *** Binary64 arithmetic *)

(** [2 ** k] for an integer [k] of either sign. *)
Definition pow2 (k : Z) : Q := (2 ^ k)%Q.

(** [floor(log2(x))] for a positive [x]: the difference of the bit
    lengths of numerator and denominator, or one less. *)
Definition ilog2 (x : Q) : Z :=
  let k := Z.log2 (Qnum x) - Z.log2 (Zpos (Qden x)) in
  if Qle_bool (pow2 k) x then k else k - 1.

(** The exponent of the unit in the last place of the binary64 numbers
    around a positive [x]: 53 significant bits, and never below -1074,
    the exponent of the subnormal numbers. *)
Definition ulp_exponent (x : Q) : Z := Z.max (ilog2 x - 52) (-1074).

Definition nearest_pos (x : Q) : Q :=
  let e := ulp_exponent x in
  (inject_Z (round_half_even (x / pow2 e)) * pow2 e)%Q.

(** The binary64 number nearest to [x], ties to even: the float a decimal
    literal denotes, and the rounding every float operation ends with. *)
Definition binary64 (x : Q) : Q :=
  match Qcompare x 0 with
  | Eq => 0%Q
  | Gt => nearest_pos x
  | Lt => (- nearest_pos (- x))%Q
  end.

(** [x * y], [x - y] and [x + y] on floats: the exact result of the
    operation on the two binary64 operands, rounded to binary64. *)
Definition fmul (x y : Q) : Q := binary64 (binary64 x * binary64 y).
Definition fsub (x y : Q) : Q := binary64 (binary64 x - binary64 y).
Definition fadd (x y : Q) : Q := binary64 (binary64 x + binary64 y).

(** [x <= y] and [x < y] on floats. *)
Definition fle (x y : Q) : bool := Qle_bool (binary64 x) (binary64 y).
Definition flt (x y : Q) : bool := negb (fle y x).

(** [max(a, b)] and [min(a, b)] on floats: the first argument unless the
    second is greater, respectively smaller. *)
Definition fmax (a b : Q) : Q := if flt a b then b else a.
Definition fmin (a b : Q) : Q := if flt b a then b else a.

(** *** datetime *)

(** A [datetime] built by [strptime] from a date-only format: the time of
    day is midnight, so the value is its calendar date. *)
Record datetime : Type := mk_datetime { year : Z; month : Z; day : Z }.

Definition is_leap (y : Z) : bool :=
  (y mod 4 =? 0) && (negb (y mod 100 =? 0) || (y mod 400 =? 0)).

Definition days_in_month (y m : Z) : Z :=
  if m =? 2 then (if is_leap y then 29 else 28)
  else if (m =? 4) || (m =? 6) || (m =? 9) || (m =? 11) then 30
  else 31.

Definition days_before_year (y : Z) : Z :=
  let p := y - 1 in p * 365 + p / 4 - p / 100 + p / 400.

Fixpoint days_before_month_aux (y : Z) (k : nat) : Z :=
  match k with
  | O => 0
  | S k' => days_before_month_aux y k' + days_in_month y (Z.of_nat k)
  end.

Definition days_before_month (y m : Z) : Z :=
  days_before_month_aux y (Z.to_nat (m - 1)).

(** [d.toordinal()]: day 1 is 01-01-0001. *)
Definition toordinal (d : datetime) : Z :=
  days_before_year (year d) + days_before_month (year d) (month d) + day d.

(** [a < b], [a > b] and [(a - b).days] on midnight datetimes. *)
Definition dt_lt (a b : datetime) : bool := toordinal a <? toordinal b.
Definition dt_gt (a b : datetime) : bool := dt_lt b a.
Definition days_between (a b : datetime) : Z := toordinal a - toordinal b.

(** The prefix of [s] before its first ["-"] and what follows it. *)
Fixpoint split_dash (s : string) : option (string * string) :=
  match s with
  | EmptyString => None
  | String c s' =>
      if Ascii.eqb c "-"%char then Some (EmptyString, s')
      else match split_dash s' with
           | Some (a, b) => Some (String c a, b)
           | None => None
           end
  end.

(** Directive [%d]: [3[0-1]|[1-2]\d|0[1-9]|[1-9]| [1-9]], the last
    alternative being a blank followed by a digit. *)
Definition match_d (tok : string) : option Z :=
  match tok with
  | String a (String b EmptyString) =>
      if (in_range 3 3 a && in_range 0 1 b)
         || (in_range 1 2 a && is_digit b)
         || (in_range 0 0 a && in_range 1 9 b)
      then Some (10 * digit a + digit b)
      else if Ascii.eqb a " " && in_range 1 9 b then Some (digit b)
      else None
  | String a EmptyString => if in_range 1 9 a then Some (digit a) else None
  | _ => None
  end.

(** Directive [%m]: [1[0-2]|0[1-9]|[1-9]]. *)
Definition match_m (tok : string) : option Z :=
  match tok with
  | String a (String b EmptyString) =>
      if (in_range 1 1 a && in_range 0 2 b)
         || (in_range 0 0 a && in_range 1 9 b)
      then Some (10 * digit a + digit b) else None
  | String a EmptyString => if in_range 1 9 a then Some (digit a) else None
  | _ => None
  end.

(** Directive [%Y]: four digits, up to the end of the string. *)
Definition match_Y (tok : string) : option Z :=
  match tok with
  | String a (String b (String c (String d EmptyString))) =>
      if is_digit a && is_digit b && is_digit c && is_digit d
      then Some (1000 * digit a + 100 * digit b + 10 * digit c + digit d)
      else None
  | _ => None
  end.

(** [datetime.strptime(s, "%d-%m-%Y")]; [None] stands for [ValueError]
    (no match, text left over, year 0 or a day the month does not have).
    The pattern of the format is the three directives joined by ["-"] and
    must match the whole of [s]; no directive matches a ["-"], so the
    day is what precedes the first ["-"] and the month what precedes the
    second. *)
Definition strptime (s : string) : option datetime :=
  match split_dash s with
  | None => None
  | Some (dtok, rest) =>
      match split_dash rest with
      | None => None
      | Some (mtok, ytok) =>
          match match_d dtok, match_m mtok, match_Y ytok with
          | Some d, Some m, Some y =>
              if (1 <=? y) && (d <=? days_in_month y m)
              then Some (mk_datetime y m d) else None
          | _, _, _ => None
          end
      end
  end.

(** The two ways of writing a date for [strptime] to take it as it
    stands: with nothing around it, or with one blank before a day of one
    digit, the last alternative of [%d]. *)
Definition written_for_strptime (s : string) : Prop :=
  s = strip s
  \/ (s = String " " (strip s)
      /\ exists (b : ascii) (rest : string),
           strip s = String b (String "-" rest)).

(** [s.endswith(suffix)] *)
Definition endswith (s suffix : string) : bool :=
  let n := String.length s in
  let k := String.length suffix in
  if Nat.ltb n k then false
  else String.eqb (substring (Nat.sub n k) k s) suffix.

(** Every character of [s] satisfies [f]. *)
Fixpoint all_chars (f : ascii -> bool) (s : string) : bool :=
  match s with
  | EmptyString => true
  | String c s' => f c && all_chars f s'
  end.

(** [len(s)] *)
Definition len (s : string) : Z := Z.of_nat (String.length s).

End Py.

Import Py.

(* ================================================================= *)
(** ** RentalPeriod (rental_period.py) *)

Module RentalPeriod.

Definition MIN_YEAR : Z := 2000.
Definition MAX_YEAR : Z := 2100.

(** The module names under which rental_period.py is imported: vehicle.py,
    renter.py, vehicle_rental.py and test_models.py import [rental_period]
    (the directory of the models is on [sys.path]); routes.py and
    test_integration.py import [models.rental_period].  Python loads the
    file once for each name, and each load makes a class [RentalPeriod]
    of its own: an instance of the one is not an instance of the other. *)
Inductive module_name : Type :=
| rental_period
| models_rental_period.

Definition module_eqb (a b : module_name) : bool :=
  match a, b with
  | rental_period, rental_period => true
  | models_rental_period, models_rental_period => true
  | _, _ => false
  end.

(** A period, with the module its class [RentalPeriod] comes from. *)
Record t : Type := mk {
  cls : module_name;
  start_date : string;
  end_date : string;
  start_date_obj : datetime;
  end_date_obj : datetime
}.

Section Clock.

(** The value of [datetime.now()] with the time of day set to midnight. *)
Variable now : datetime.

(** [_validate_and_parse_date]: every failure surfaces as
    [InvalidRentalPeriodError]. *)
Definition _validate_and_parse_date
    (date_str : string) (allow_past_dates : bool) : result datetime :=
  match strptime (strip date_str) with
  | None => raise (InvalidRentalPeriodError date_str "")
  | Some date_obj =>
      if (year date_obj <? MIN_YEAR) || (year date_obj >? MAX_YEAR)
      then raise (InvalidRentalPeriodError date_str "")
      else if negb allow_past_dates && dt_lt date_obj now
      then raise (InvalidRentalPeriodError date_str "")
      else ok date_obj
  end.

(** [RentalPeriod(start_date, end_date, allow_past_dates)], the name
    [RentalPeriod] being the class of the module [m]. *)
Definition init_in (m : module_name) (start_date end_date : string)
    (allow_past_dates : bool) : result t :=
  (s_obj <- _validate_and_parse_date start_date allow_past_dates ;;
   e_obj <- _validate_and_parse_date end_date allow_past_dates ;;
   if dt_gt s_obj e_obj
   then raise (InvalidRentalPeriodError start_date end_date)
   else ok (mk m start_date end_date s_obj e_obj))%py.

(** [RentalPeriod(start_date, end_date, allow_past_dates)] after
    [from rental_period import RentalPeriod], as vehicle.py writes it. *)
Definition init (start_date end_date : string) (allow_past_dates : bool)
  : result t :=
  init_in rental_period start_date end_date allow_past_dates.

(** [set_start_date] and [set_end_date] *)
Definition set_start_date (self : t) (start_date : string)
    (allow_past_dates : bool) : result t :=
  (new_start_obj <- _validate_and_parse_date start_date allow_past_dates ;;
   if dt_gt new_start_obj (end_date_obj self)
   then raise (InvalidRentalPeriodError start_date (end_date self))
   else ok (mk (cls self) start_date (end_date self) new_start_obj
               (end_date_obj self)))%py.

Definition set_end_date (self : t) (end_date : string)
    (allow_past_dates : bool) : result t :=
  (new_end_obj <- _validate_and_parse_date end_date allow_past_dates ;;
   if dt_gt (start_date_obj self) new_end_obj
   then raise (InvalidRentalPeriodError (start_date self) end_date)
   else ok (mk (cls self) (start_date self) end_date (start_date_obj self)
               new_end_obj))%py.

End Clock.

Definition get_start_date (self : t) : string := start_date self.
Definition get_end_date (self : t) : string := end_date self.
Definition get_start_date_obj (self : t) : datetime := start_date_obj self.
Definition get_end_date_obj (self : t) : datetime := end_date_obj self.

(** [calculate_duration] *)
Definition calculate_duration (self : t) : Z :=
  days_between (end_date_obj self) (start_date_obj self) + 1.

(** [overlaps_with], past its [isinstance] check: the comparison of the
    dates of two periods. *)
Definition overlaps_with (self other : t) : bool :=
  negb (dt_lt (end_date_obj self) (get_start_date_obj other)
        || dt_lt (get_end_date_obj other) (start_date_obj self)).

(** [isinstance(other, RentalPeriod)] in a method of [self]: the name
    [RentalPeriod] is there the class [self] was made from. *)
Definition isinstance (other self : t) : bool :=
  module_eqb (cls other) (cls self).

(** The call [self.overlaps_with(other)]: [TypeError] unless [other] is
    an instance of the class of [self], the comparison otherwise. *)
Definition call_overlaps_with (self other : t) : result bool :=
  if negb (isinstance other self)
  then raise (TypeError "Can only check overlap with another RentalPeriod object")
  else ok (overlaps_with self other).

(** The state every constructed period is in, and that the setters keep:
    the two strings parse to the two stored dates, the years are in range
    and the start is not after the end. *)
Definition parses_to (s : string) (d : datetime) : Prop :=
  strptime (strip s) = Some d /\ MIN_YEAR <= year d <= MAX_YEAR.

Definition valid (p : t) : Prop :=
  parses_to (start_date p) (start_date_obj p)
  /\ parses_to (end_date p) (end_date_obj p)
  /\ toordinal (start_date_obj p) <= toordinal (end_date_obj p).

End RentalPeriod.

(* ================================================================= *)
(** ** Vehicle, Car, Motorbike, Truck (vehicle.py, car.py, motorbike.py,
       truck.py) *)

Module Vehicle.

(** One entry of [__rental_periods] or [__rental_history]: a dict with the
    keys below, the key ['actual_end_date'] being present or not. *)
Record rental_dict : Type := mk_rental {
  start_date : string;
  end_date : string;
  duration : Z;
  renter_id : string;
  status : string;
  actual_end_date : option string
}.

(** The attributes the subclasses add. *)
Inductive kind : Type :=
| Car (num_doors : Z) (fuel_type transmission : string)
| Motorbike (engine_capacity : Z) (bike_type : string) (has_abs : bool)
| Truck (load_capacity : Q) (truck_type : string) (has_hydraulic_lift : bool).

(** A constructed vehicle.  The identification fields hold what their
    validators returned; the validator of the daily rate, the one the
    costs depend on, is [_validate_daily_rate]. *)
Record t : Type := mk {
  vehicle_id : string;
  make : string;
  model : string;
  year : Z;
  daily_rate : Q;
  image_filename : string;
  rental_periods : list rental_dict;
  rental_history : list rental_dict;
  variant : kind
}.

Definition with_ledger (self : t) (periods history : list rental_dict) : t :=
  mk (vehicle_id self) (make self) (model self) (year self) (daily_rate self)
     (image_filename self) periods history (variant self).

Definition get_vehicle_id (self : t) : string := vehicle_id self.
Definition get_daily_rate (self : t) : Q := daily_rate self.
Definition get_rental_periods (self : t) : list rental_dict := rental_periods self.
Definition get_rental_history (self : t) : list rental_dict := rental_history self.

(** [_validate_daily_rate] *)
Definition _validate_daily_rate (daily_rate : Q) : result Q :=
  if Qle_bool daily_rate 0
  then raise (InvalidVehicleDataError "daily_rate")
  else ok (round2 daily_rate).

(** [_validate_vehicle_year_vs_rate], [current_year] being the year of
    [datetime.now()]. *)
Definition _validate_vehicle_year_vs_rate
    (current_year year : Z) (daily_rate : Q) : result unit :=
  if (year >? current_year) && negb (Qle_bool 50 daily_rate)
  then raise (InvalidVehicleDataError "daily_rate")
  else if (year <? 2000) && negb (Qle_bool daily_rate 200)
  then raise (InvalidVehicleDataError "daily_rate")
  else if (year >=? current_year - 2) && negb (Qle_bool daily_rate 500)
  then raise (InvalidVehicleDataError "daily_rate")
  else if (year <? current_year - 10) && negb (Qle_bool 20 daily_rate)
  then raise (InvalidVehicleDataError "daily_rate")
  else ok tt.

(** [set_daily_rate] *)
Definition set_daily_rate (current_year : Z) (self : t) (rate : Q) : result t :=
  (validated_rate <- _validate_daily_rate rate ;;
   _ <- _validate_vehicle_year_vs_rate current_year (year self) validated_rate ;;
   ok (mk (vehicle_id self) (make self) (model self) (year self)
          validated_rate (image_filename self) (rental_periods self)
          (rental_history self) (variant self)))%py.

Section Clock.

Variable now : datetime.

(** The loop of [is_available] over [__rental_periods].  The body is
    inside [try]: an entry whose period cannot be built, or for which
    [overlaps_with] raises, is skipped by [except Exception: continue]. *)
Fixpoint is_available_loop (rental_period : RentalPeriod.t)
    (periods : list rental_dict) : bool :=
  match periods with
  | [] => true
  | existing_period_dict :: rest =>
      let end_date :=
        match actual_end_date existing_period_dict with
        | Some actual =>
            if String.eqb (status existing_period_dict) "completed"
            then actual else end_date existing_period_dict
        | None => end_date existing_period_dict
        end in
      match RentalPeriod.init now (start_date existing_period_dict)
                              end_date true with
      | inr existing_period =>
          match RentalPeriod.call_overlaps_with rental_period
                                                existing_period with
          | inr true => false
          | inr false => is_available_loop rental_period rest
          | inl _ => is_available_loop rental_period rest
          end
      | inl _ => is_available_loop rental_period rest
      end
  end.

(** [is_available] *)
Definition is_available (self : t) (rental_period : RentalPeriod.t) : bool :=
  is_available_loop rental_period (rental_periods self).

(** [add_rental] *)
Definition add_rental (self : t) (rental_period : RentalPeriod.t)
    (renter_id : string) : result t :=
  if negb (is_available self rental_period)
  then raise (VehicleNotAvailableError (vehicle_id self)
                (RentalPeriod.get_start_date rental_period)
                (RentalPeriod.get_end_date rental_period))
  else
    let rental_dict :=
      mk_rental (RentalPeriod.get_start_date rental_period)
                (RentalPeriod.get_end_date rental_period)
                (RentalPeriod.calculate_duration rental_period)
                renter_id "active" None in
    ok (with_ledger self (rental_periods self ++ [rental_dict])
                         (rental_history self ++ [rental_dict])).

End Clock.

(** The test both [remove_rental] and [restore_active_rental] apply to an
    entry: same start, same end, and the given status. *)
Definition entry_matches (rental_period : RentalPeriod.t) (st : string)
    (d : rental_dict) : bool :=
  String.eqb (start_date d) (RentalPeriod.get_start_date rental_period)
  && String.eqb (end_date d) (RentalPeriod.get_end_date rental_period)
  && String.eqb (status d) st.

(** Apply [g] to the first entry that satisfies [f]; [None] when the loop
    finds no such entry. *)
Fixpoint update_first (f : rental_dict -> bool)
    (g : rental_dict -> rental_dict) (l : list rental_dict)
  : option (list rental_dict) :=
  match l with
  | [] => None
  | d :: rest =>
      if f d then Some (g d :: rest)
      else option_map (cons d) (update_first f g rest)
  end.

(** What [remove_rental] writes into the matching entry. *)
Definition mark_completed (rental_period : RentalPeriod.t)
    (actual_return_date : option string) (d : rental_dict) : rental_dict :=
  mk_rental (start_date d) (end_date d) (duration d) (renter_id d)
    "completed"
    (Some (match actual_return_date with
           | Some a => if truthy actual_return_date then a
                       else RentalPeriod.get_end_date rental_period
           | None => RentalPeriod.get_end_date rental_period
           end)).

(** [remove_rental] *)
Definition remove_rental (self : t) (rental_period : RentalPeriod.t)
    (actual_return_date : option string) : t * bool :=
  match update_first (entry_matches rental_period "active")
          (mark_completed rental_period actual_return_date)
          (rental_periods self) with
  | Some periods =>
      let history :=
        match update_first (entry_matches rental_period "active")
                (mark_completed rental_period actual_return_date)
                (rental_history self) with
        | Some h => h
        | None => rental_history self
        end in
      (with_ledger self periods history, true)
  | None => (self, false)
  end.

(** What [restore_active_rental] writes into the matching entry. *)
Definition mark_active (d : rental_dict) : rental_dict :=
  mk_rental (start_date d) (end_date d) (duration d) (renter_id d)
    "active" None.

(** [restore_active_rental] *)
Definition restore_active_rental (self : t) (rental_period : RentalPeriod.t)
  : t * bool :=
  match update_first (entry_matches rental_period "completed") mark_active
          (rental_periods self) with
  | Some periods =>
      let history :=
        match update_first (entry_matches rental_period "completed")
                mark_active (rental_history self) with
        | Some h => h
        | None => rental_history self
        end in
      (with_ledger self periods history, true)
  | None => (self, false)
  end.

(** An entry that keeps the whole of the period [p] booked: it has the
    start and the end of [p] and either no actual return date or the
    scheduled end as actual return date. *)
Definition covers (p : RentalPeriod.t) (d : rental_dict) : Prop :=
  start_date d = RentalPeriod.start_date p
  /\ end_date d = RentalPeriod.end_date p
  /\ (actual_end_date d = None
      \/ actual_end_date d = Some (RentalPeriod.end_date p)).

(** [is_currently_rented] *)
Definition is_currently_rented (self : t) : bool :=
  existsb (fun period => String.eqb (status period) "active")
          (rental_periods self).

(** [get_base_rental_cost], [apply_discount] and [calculate_rental_cost]
    with their arithmetic carried out exactly; [Float] has them in the
    arithmetic of the source. *)
Definition get_base_rental_cost (self : t) (rental_period : RentalPeriod.t) : Q :=
  let duration := RentalPeriod.calculate_duration rental_period in
  round2 (inject_Z duration * daily_rate self)%Q.

(** [apply_discount] *)
Definition apply_discount (base_cost discount_percentage : Q) : Q :=
  let discount_percentage :=
    if negb (Qle_bool 0 discount_percentage && Qle_bool discount_percentage 1)
    then qmax 0 (qmin 1 discount_percentage)
    else discount_percentage in
  let discount_amount := (base_cost * discount_percentage)%Q in
  let final_cost := (base_cost - discount_amount)%Q in
  round2 final_cost.

(** The value of [discount_percentage] once the guard of [apply_discount]
    has run. *)
Definition effective_discount (d : Q) : Q :=
  if negb (Qle_bool 0 d && Qle_bool d 1) then qmax 0 (qmin 1 d) else d.

(** [Motorbike.calculate_rental_cost]: the premium multiplier. *)
Definition premium_multiplier (engine_capacity : Z) (bike_type : string)
    (has_abs : bool) : Q :=
  let m : Q := 1%Q in
  let m :=
    if engine_capacity >=? 1000 then (m + 0.25)%Q
    else if engine_capacity >=? 600 then (m + 0.15)%Q
    else if engine_capacity >=? 300 then (m + 0.05)%Q
    else m in
  let m :=
    if String.eqb bike_type "Sport" then (m + 0.20)%Q
    else if String.eqb bike_type "Adventure" then (m + 0.15)%Q
    else if String.eqb bike_type "Touring" then (m + 0.10)%Q
    else m in
  if has_abs then (m + 0.05)%Q else m.

(** [calculate_rental_cost], as each subclass overrides it. *)
Definition calculate_rental_cost (self : t) (rental_period : RentalPeriod.t)
    (user_discount : Q) : Q :=
  let base_cost := get_base_rental_cost self rental_period in
  match variant self with
  | Car _ _ _ | Truck _ _ _ =>
      let final_cost := apply_discount base_cost user_discount in
      round2 final_cost
  | Motorbike engine_capacity bike_type has_abs =>
      let adjusted_cost :=
        (base_cost * premium_multiplier engine_capacity bike_type has_abs)%Q in
      let final_cost := apply_discount adjusted_cost user_discount in
      round2 final_cost
  end.

(** The period [is_available] builds for a ledger entry; [None] when the
    construction raises and the entry is skipped. *)
Definition booked_period (now : datetime) (d : rental_dict)
  : option RentalPeriod.t :=
  let end_date :=
    match actual_end_date d with
    | Some actual =>
        if String.eqb (status d) "completed" then actual else end_date d
    | None => end_date d
    end in
  match RentalPeriod.init now (start_date d) end_date true with
  | inr existing_period => Some existing_period
  | inl _ => None
  end.

(** No two entries of a ledger keep overlapping periods booked. *)
Definition ledger_disjoint (now : datetime) (l : list rental_dict) : Prop :=
  ForallOrdPairs
    (fun d1 d2 =>
       forall p1 p2 : RentalPeriod.t,
         booked_period now d1 = Some p1 ->
         booked_period now d2 = Some p2 ->
         RentalPeriod.overlaps_with p1 p2 = false)
    l.

(** What [remove_rental] and [restore_active_rental] never write: the
    scheduled interval, the duration and the renter of an entry. *)
Definition booking_of (d : rental_dict) : string * string * Z * string :=
  (start_date d, end_date d, duration d, renter_id d).

(** The character class [[A-Za-z0-9_-]]. *)
Definition is_id_char (c : ascii) : bool :=
  let n := Z.of_N (N_of_ascii c) in
  ((65 <=? n) && (n <=? 90)) || ((97 <=? n) && (n <=? 122))
  || ((48 <=? n) && (n <=? 57)) || (n =? 95) || (n =? 45).

(** [_validate_vehicle_id]; the pattern is [^[A-Za-z0-9_-]+$], applied to
    the stripped string. *)
Definition _validate_vehicle_id (vehicle_id : string) : result string :=
  if String.eqb (strip vehicle_id) ""
  then raise (InvalidVehicleDataError "vehicle_id")
  else
    let vehicle_id := strip vehicle_id in
    if (len vehicle_id <? 2) || (len vehicle_id >? 20)
    then raise (InvalidVehicleDataError "vehicle_id")
    else if negb (all_chars is_id_char vehicle_id)
    then raise (InvalidVehicleDataError "vehicle_id")
    else ok vehicle_id.

(** [_validate_make] *)
Definition _validate_make (make : string) : result string :=
  if String.eqb (strip make) ""
  then raise (InvalidVehicleDataError "make")
  else
    let make := strip make in
    if (len make <? 2) || (len make >? 50)
    then raise (InvalidVehicleDataError "make")
    else ok make.

(** [_validate_model] *)
Definition _validate_model (model : string) : result string :=
  if String.eqb (strip model) ""
  then raise (InvalidVehicleDataError "model")
  else
    let model := strip model in
    if len model >? 50
    then raise (InvalidVehicleDataError "model")
    else ok model.

(** [_validate_year] *)
Definition _validate_year (year : Z) : result Z :=
  if (year <? 1990) || (year >? 2030)
  then raise (InvalidVehicleDataError "year")
  else ok year.

(** [_validate_image_filename] *)
Definition _validate_image_filename (image_filename : string) : string :=
  if String.eqb (strip image_filename) "" then "default.jpg"
  else
    let image_filename := strip image_filename in
    let valid_extensions := [".jpg"; ".jpeg"; ".png"; ".gif"] in
    if negb (existsb (fun ext => endswith (lower image_filename) ext)
                     valid_extensions)
    then "default.jpg"
    else image_filename.

(** [Vehicle.__init__], as a subclass runs it before validating its own
    attributes, here given validated as [variant]; [current_year] is the
    year of [datetime.now()]. *)
Definition init (current_year : Z) (vehicle_id make model : string)
    (year : Z) (daily_rate : Q) (image_filename : string) (variant : kind)
  : result t :=
  (vehicle_id <- _validate_vehicle_id vehicle_id ;;
   make <- _validate_make make ;;
   model <- _validate_model model ;;
   year <- _validate_year year ;;
   daily_rate <- _validate_daily_rate daily_rate ;;
   let image_filename := _validate_image_filename image_filename in
   _ <- _validate_vehicle_year_vs_rate current_year year daily_rate ;;
   ok (mk vehicle_id make model year daily_rate image_filename [] []
          variant))%py.

End Vehicle.

(* ================================================================= *)
(** ** The pricing functions in the arithmetic of the source *)

(** The functions of [Vehicle] that compute amounts, with every
    operation on floats carried out in binary64. *)
Module Float.

(** [get_base_rental_cost]: the integer duration times the float rate. *)
Definition get_base_rental_cost (self : Vehicle.t)
    (rental_period : RentalPeriod.t) : Q :=
  let duration := RentalPeriod.calculate_duration rental_period in
  round2 (fmul (inject_Z duration) (Vehicle.daily_rate self)).

(** The value of [discount_percentage] once the guard of [apply_discount]
    has run. *)
Definition effective_discount (d : Q) : Q :=
  if negb (fle 0 d && fle d 1) then fmax 0 (fmin 1 d) else d.

(** [apply_discount] *)
Definition apply_discount (base_cost discount_percentage : Q) : Q :=
  let discount_percentage := effective_discount discount_percentage in
  let discount_amount := fmul base_cost discount_percentage in
  let final_cost := fsub base_cost discount_amount in
  round2 final_cost.

(** [Motorbike.calculate_rental_cost]: the premium multiplier. *)
Definition premium_multiplier (engine_capacity : Z) (bike_type : string)
    (has_abs : bool) : Q :=
  let m : Q := 1%Q in
  let m :=
    if engine_capacity >=? 1000 then fadd m 0.25
    else if engine_capacity >=? 600 then fadd m 0.15
    else if engine_capacity >=? 300 then fadd m 0.05
    else m in
  let m :=
    if String.eqb bike_type "Sport" then fadd m 0.20
    else if String.eqb bike_type "Adventure" then fadd m 0.15
    else if String.eqb bike_type "Touring" then fadd m 0.10
    else m in
  if has_abs then fadd m 0.05 else m.

(** [calculate_rental_cost], as each subclass overrides it. *)
Definition calculate_rental_cost (self : Vehicle.t)
    (rental_period : RentalPeriod.t) (user_discount : Q) : Q :=
  let base_cost := get_base_rental_cost self rental_period in
  match Vehicle.variant self with
  | Vehicle.Car _ _ _ | Vehicle.Truck _ _ _ =>
      let final_cost := apply_discount base_cost user_discount in
      round2 final_cost
  | Vehicle.Motorbike engine_capacity bike_type has_abs =>
      let adjusted_cost :=
        fmul base_cost (premium_multiplier engine_capacity bike_type has_abs) in
      let final_cost := apply_discount adjusted_cost user_discount in
      round2 final_cost
  end.

End Float.

(* ================================================================= *)
(** ** Renter and the three user classes (renter.py, individual_user.py,
       corporate_user.py, staff_user.py) *)

Module Renter.

(** One entry of [__current_rentals] or [__rental_history]. *)
Record rental_dict : Type := mk_rental {
  vehicle_id : string;
  start_date : string;
  end_date : string;
  duration : Z;
  cost : Q;
  status : string
}.

(** The concrete class of a renter. *)
Inductive user_type : Type := Individual | Corporate | Staff.

Record t : Type := mk {
  renter_id : string;
  name : string;
  contact_info : string;
  password : string;
  current_rentals : list rental_dict;
  rental_history : list rental_dict;
  class : user_type
}.

Definition with_rentals (self : t) (current history : list rental_dict) : t :=
  mk (renter_id self) (name self) (contact_info self) (password self)
     current history (class self).

Definition get_renter_id (self : t) : string := renter_id self.
Definition get_current_rentals (self : t) : list rental_dict :=
  current_rentals self.
Definition get_rental_history (self : t) : list rental_dict :=
  rental_history self.

(** [verify_password] *)
Definition verify_password (self : t) (pw : string) : bool :=
  String.eqb (password self) pw.

(** [add_rental] *)
Definition add_rental (self : t) (vehicle_id : string)
    (rental_period : RentalPeriod.t) (rental_cost : Q) : t :=
  let rental_record :=
    mk_rental vehicle_id
              (RentalPeriod.get_start_date rental_period)
              (RentalPeriod.get_end_date rental_period)
              (RentalPeriod.calculate_duration rental_period)
              rental_cost "active" in
  with_rentals self (current_rentals self ++ [rental_record])
                    (rental_history self ++ [rental_record]).

(** The test [complete_rental] applies to a current rental. *)
Definition rental_matches (vid : string) (rental_period : RentalPeriod.t)
    (rental : rental_dict) : bool :=
  String.eqb (vehicle_id rental) vid
  && String.eqb (start_date rental) (RentalPeriod.get_start_date rental_period)
  && String.eqb (end_date rental) (RentalPeriod.get_end_date rental_period).

(** [self.__current_rentals.pop(i)] for the first matching [i]; [None]
    when no current rental matches. *)
Fixpoint pop_first (f : rental_dict -> bool) (l : list rental_dict)
  : option (list rental_dict) :=
  match l with
  | [] => None
  | rental :: rest =>
      if f rental then Some rest
      else option_map (cons rental) (pop_first f rest)
  end.

(** The inner loop of [complete_rental]: the first history entry that
    matches and is active becomes completed. *)
Fixpoint complete_in_history (vid : string) (rental_period : RentalPeriod.t)
    (l : list rental_dict) : list rental_dict :=
  match l with
  | [] => []
  | h :: rest =>
      if rental_matches vid rental_period h && String.eqb (status h) "active"
      then mk_rental (vehicle_id h) (start_date h) (end_date h) (duration h)
                     (cost h) "completed" :: rest
      else h :: complete_in_history vid rental_period rest
  end.

(** [complete_rental] *)
Definition complete_rental (self : t) (vid : string)
    (rental_period : RentalPeriod.t) : t * bool :=
  match pop_first (rental_matches vid rental_period) (current_rentals self) with
  | Some current =>
      (with_rentals self current
         (complete_in_history vid rental_period (rental_history self)), true)
  | None => (self, false)
  end.

(** [has_active_rentals] *)
Definition has_active_rentals (self : t) : bool :=
  Z.of_nat (List.length (current_rentals self)) >? 0.

(** [can_rent_vehicle]; the default of [max_concurrent_rentals] is 5. *)
Definition can_rent_vehicle (self : t) (max_concurrent_rentals : Z) : bool :=
  Z.of_nat (List.length (current_rentals self)) <? max_concurrent_rentals.

Definition default_max_concurrent_rentals : Z := 5.

(** [calculate_discount], as each user class overrides it. *)
Definition calculate_discount (self : t) (rental_period : RentalPeriod.t) : Q :=
  match class self with
  | Individual =>
      let duration := RentalPeriod.calculate_duration rental_period in
      if duration >=? 7 then 0.10%Q else 0.0%Q
  | Corporate => 0.15%Q
  | Staff => 0.0%Q
  end.

(** [get_user_type] *)
Definition get_user_type (self : t) : string :=
  match class self with
  | Individual => "Individual"
  | Corporate => "Corporate"
  | Staff => "Staff"
  end.



End Renter.

(* ================================================================= *)
(** ** RentalRecord (rental_record.py) *)

Module RentalRecord.

Definition VALID_STATUSES : list string :=
  ["pending"; "active"; "completed"; "cancelled"; "overdue"].

Record t : Type := mk {
  record_id : string;
  vehicle_id : string;
  renter_id : string;
  start_date : string;
  end_date : string;
  rental_cost : Q;
  status : string;
  discount_applied : Q;
  created_at : string;
  updated_at : string
}.

(** [_validate_status] *)
Definition _validate_status (status : string) : result string :=
  let status := strip (lower status) in
  if negb (str_in status VALID_STATUSES)
  then raise (ValueError "Invalid status")
  else ok status.

(** [RentalRecord(...)]; [timestamp] is the formatted [datetime.now()].
    The default of [status] is ['pending'], of [discount_applied] 0.0. *)
Definition init (timestamp : string)
    (record_id vehicle_id renter_id start_date end_date : string)
    (rental_cost : Q) (status : string) (discount_applied : Q) : result t :=
  (st <- _validate_status status ;;
   ok (mk record_id vehicle_id renter_id start_date end_date rental_cost st
          discount_applied timestamp timestamp))%py.

Definition get_record_id (self : t) : string := record_id self.
Definition get_vehicle_id (self : t) : string := vehicle_id self.
Definition get_renter_id (self : t) : string := renter_id self.
Definition get_rental_cost (self : t) : Q := rental_cost self.
Definition get_status (self : t) : string := status self.

(** [set_status] *)
Definition set_status (timestamp : string) (self : t) (new_status : string)
  : result t :=
  (st <- _validate_status new_status ;;
   ok (mk (record_id self) (vehicle_id self) (renter_id self)
          (start_date self) (end_date self) (rental_cost self) st
          (discount_applied self) (created_at self) timestamp))%py.

(** [set_rental_cost] *)
Definition set_rental_cost (timestamp : string) (self : t) (cost : Q)
  : result t :=
  if negb (Qle_bool 0 cost)
  then raise (ValueError "Rental cost cannot be negative")
  else ok (mk (record_id self) (vehicle_id self) (renter_id self)
              (start_date self) (end_date self) (round2 cost) (status self)
              (discount_applied self) (created_at self) timestamp).

Definition is_active (self : t) : bool := String.eqb (status self) "active".
Definition is_completed (self : t) : bool := String.eqb (status self) "completed".
Definition is_overdue (self : t) : bool := String.eqb (status self) "overdue".
Definition is_pending (self : t) : bool := String.eqb (status self) "pending".

Definition mark_as_active (timestamp : string) (self : t) : result t :=
  set_status timestamp self "active".
Definition mark_as_completed (timestamp : string) (self : t) : result t :=
  set_status timestamp self "completed".
Definition mark_as_overdue (timestamp : string) (self : t) : result t :=
  set_status timestamp self "overdue".
Definition mark_as_cancelled (timestamp : string) (self : t) : result t :=
  set_status timestamp self "cancelled".

(** [check_if_overdue]: the record after the call and the value returned.
    [current_date] is [datetime.now()] at midnight. *)
Definition check_if_overdue (current_date : datetime) (timestamp : string)
    (self : t) : t * bool :=
  if negb (String.eqb (status self) "active") then (self, false)
  else match strptime (end_date self) with
       | Some end_date =>
           if dt_gt current_date end_date
           then match mark_as_overdue timestamp self with
                | inr self' => (self', true)
                | inl _ => (self, false)
                end
           else (self, false)
       | None => (self, false)
       end.

(** [calculate_duration]: 0 when one of the two dates does not parse. *)
Definition calculate_duration (self : t) : Z :=
  match strptime (start_date self) with
  | None => 0
  | Some start =>
      match strptime (end_date self) with
      | None => 0
      | Some e => days_between e start + 1
      end
  end.

End RentalRecord.

(* ================================================================= *)
(** ** VehicleRental (vehicle_rental.py) *)

Module VehicleRental.

Record t : Type := mk {
  vehicles : list Vehicle.t;
  renters : list Renter.t;
  rental_records : list RentalRecord.t;
  data_file : string;
  next_record_id : Z
}.

(** [VehicleRental(data_file)] when no snapshot exists. *)
Definition init (data_file : string) : t := mk [] [] [] data_file 1.

(** [_find_vehicle_by_id] and [_find_renter_by_id] *)
Definition _find_vehicle_by_id (self : t) (vehicle_id : string)
  : option Vehicle.t :=
  find (fun vehicle => String.eqb (Vehicle.get_vehicle_id vehicle) vehicle_id)
       (vehicles self).

Definition _find_renter_by_id (self : t) (renter_id : string)
  : option Renter.t :=
  find (fun renter => String.eqb (Renter.get_renter_id renter) renter_id)
       (renters self).

(** The objects returned by the two functions above are the ones stored
    in the lists: a method called on one changes the list element in
    place.  [replace_first f x l] is [l] after the first element that
    satisfies [f] has reached the state [x]. *)
Fixpoint replace_first {A : Type} (f : A -> bool) (x : A) (l : list A)
  : list A :=
  match l with
  | [] => []
  | y :: rest => if f y then x :: rest else y :: replace_first f x rest
  end.

Definition store_vehicle (self : t) (vehicle_id : string)
    (vehicle : Vehicle.t) : t :=
  mk (replace_first
        (fun v => String.eqb (Vehicle.get_vehicle_id v) vehicle_id)
        vehicle (vehicles self))
     (renters self) (rental_records self) (data_file self)
     (next_record_id self).

Definition store_renter (self : t) (renter_id : string)
    (renter : Renter.t) : t :=
  mk (vehicles self)
     (replace_first
        (fun r => String.eqb (Renter.get_renter_id r) renter_id)
        renter (renters self))
     (rental_records self) (data_file self) (next_record_id self).

(** [add_vehicles] and [add_users] *)
Definition add_vehicles (self : t) (vehicle : Vehicle.t) : result t :=
  let vehicle_id := Vehicle.get_vehicle_id vehicle in
  match _find_vehicle_by_id self vehicle_id with
  | Some _ => raise (DuplicateVehicleError vehicle_id)
  | None =>
      ok (mk (vehicles self ++ [vehicle]) (renters self)
             (rental_records self) (data_file self) (next_record_id self))
  end.

Definition add_users (self : t) (renter : Renter.t) : result t :=
  let renter_id := Renter.get_renter_id renter in
  match _find_renter_by_id self renter_id with
  | Some _ => raise (DuplicateRenterError renter_id)
  | None =>
      ok (mk (vehicles self) (renters self ++ [renter])
             (rental_records self) (data_file self) (next_record_id self))
  end.

Section Clock.

Variable now : datetime.

(** [rent_vehicles]: the engine after the call and the value returned.
    Every exception raised in the body is caught by one of the two
    [except] clauses, which return [False]. *)
Definition rent_vehicles (self : t) (vehicle_id renter_id : string)
    (rental_period : RentalPeriod.t) : t * bool :=
  match _find_vehicle_by_id self vehicle_id with
  | None => (self, false)                     (* VehicleNotFoundError *)
  | Some vehicle =>
      match _find_renter_by_id self renter_id with
      | None => (self, false)                 (* RenterNotFoundError *)
      | Some renter =>
          if negb (Renter.can_rent_vehicle renter
                     Renter.default_max_concurrent_rentals)
          then (self, false)
          else if negb (Vehicle.is_available now vehicle rental_period)
          then (self, false)                  (* VehicleNotAvailableError *)
          else
            let user_discount :=
              Renter.calculate_discount renter rental_period in
            let rental_cost :=
              Float.calculate_rental_cost vehicle rental_period
                                          user_discount in
            match Vehicle.add_rental now vehicle rental_period renter_id with
            | inl _ => (self, false)          (* VehicleNotAvailableError *)
            | inr vehicle' =>
                let self := store_vehicle self vehicle_id vehicle' in
                let renter' :=
                  Renter.add_rental renter vehicle_id rental_period
                                    rental_cost in
                let self := store_renter self renter_id renter' in
                (self, true)
            end
      end
  end.

(** [return_vehicles]: the engine after the call and the value returned. *)
Definition return_vehicles (self : t) (vehicle_id renter_id : string)
    (rental_period : RentalPeriod.t) : t * bool :=
  match _find_vehicle_by_id self vehicle_id with
  | None => (self, false)                     (* VehicleNotFoundError *)
  | Some vehicle =>
      match _find_renter_by_id self renter_id with
      | None => (self, false)                 (* RenterNotFoundError *)
      | Some renter =>
          if negb (Vehicle.is_currently_rented vehicle)
          then (self, false)                  (* VehicleAlreadyReturnedError *)
          else
            match Vehicle.remove_rental vehicle rental_period None with
            | (_, false) => (self, false)
            | (vehicle', true) =>
                let self := store_vehicle self vehicle_id vehicle' in
                match Renter.complete_rental renter vehicle_id
                                             rental_period with
                | (_, false) =>
                    (* Try to restore vehicle rental state *)
                    match Vehicle.add_rental now vehicle' rental_period
                                             renter_id with
                    | inr vehicle'' =>
                        (store_vehicle self vehicle_id vehicle'', false)
                    | inl _ => (self, false)  (* except Exception *)
                    end
                | (renter', true) =>
                    (store_renter self renter_id renter', true)
                end
            end
      end
  end.

End Clock.

Definition get_vehicles (self : t) : list Vehicle.t := vehicles self.
Definition get_renters (self : t) : list Renter.t := renters self.
Definition get_rental_records (self : t) : list RentalRecord.t :=
  rental_records self.

(** [add_rental_record]: the engine after the call and the record
    returned; [timestamp] is the formatted [datetime.now()]. *)
Definition add_rental_record (timestamp : string) (self : t)
    (vehicle_id renter_id start_date end_date : string)
    (rental_cost discount_applied : Q) : result (t * RentalRecord.t) :=
  let record_id := String "R" (format_05d (next_record_id self)) in
  let next := next_record_id self + 1 in
  match RentalRecord.init timestamp record_id vehicle_id renter_id
          start_date end_date rental_cost "active" discount_applied with
  | inl e =>
      inl e
  | inr rental_record =>
      ok (mk (vehicles self) (renters self)
             (rental_records self ++ [rental_record])
             (data_file self) next,
          rental_record)
  end.

(** [get_rental_records_by_vehicle] and [get_rental_records_by_renter] *)
Definition get_rental_records_by_vehicle (self : t) (vehicle_id : string)
  : list RentalRecord.t :=
  filter (fun r => String.eqb (RentalRecord.get_vehicle_id r) vehicle_id)
         (rental_records self).

Definition get_rental_records_by_renter (self : t) (renter_id : string)
  : list RentalRecord.t :=
  filter (fun r => String.eqb (RentalRecord.get_renter_id r) renter_id)
         (rental_records self).

(** [get_active_rental_records] *)
Definition get_active_rental_records (self : t) : list RentalRecord.t :=
  filter RentalRecord.is_active (rental_records self).

(** [find_rental_record_by_id] *)
Definition find_rental_record_by_id (self : t) (record_id : string)
  : option RentalRecord.t :=
  find (fun record => String.eqb (RentalRecord.get_record_id record) record_id)
       (rental_records self).

(** [authenticate_user]; [Renter.password] is the password that
    [verify_password] of the renter's class compares with. *)
Definition authenticate_user (self : t) (renter_id password : string)
  : option Renter.t :=
  match _find_renter_by_id self renter_id with
  | Some renter =>
      if Renter.verify_password renter password then Some renter else None
  | None => None
  end.

(** The engine [e1] differs from [e] at most in the state of the vehicle
    [vehicle_id] and of the renter [renter_id]: same identifiers in the
    same order, same lookup results for every other identifier, same
    records, file and counter. *)
Definition touches_only (vehicle_id renter_id : string) (e e1 : t) : Prop :=
  map Vehicle.vehicle_id (vehicles e1) = map Vehicle.vehicle_id (vehicles e)
  /\ map Renter.renter_id (renters e1) = map Renter.renter_id (renters e)
  /\ (forall vid : string,
        vid <> vehicle_id ->
        _find_vehicle_by_id e1 vid = _find_vehicle_by_id e vid)
  /\ (forall rid : string,
        rid <> renter_id ->
        _find_renter_by_id e1 rid = _find_renter_by_id e rid)
  /\ rental_records e1 = rental_records e
  /\ data_file e1 = data_file e
  /\ next_record_id e1 = next_record_id e.

(** No renter holds more than the default number of concurrent rentals. *)
Definition within_capacity (self : t) : Prop :=
  Forall (fun r => Z.of_nat (List.length (Renter.current_rentals r))
                   <= Renter.default_max_concurrent_rentals)
         (renters self).

(** Every record carries the identifier the counter gave it, and the
    counter is ahead of all of them. *)
Definition well_numbered (self : t) : Prop :=
  0 <= next_record_id self
  /\ Forall (fun r => exists k : Z,
                0 <= k < next_record_id self
                /\ RentalRecord.record_id r = String "R" (format_05d k))
            (rental_records self).

End VehicleRental.

(* ================================================================= *)
(** ** IndividualUser: the date of birth (individual_user.py) *)

Module IndividualUser.

(** [InvalidRenterDataError] with its field and its reason. *)
Inductive data_error : Type :=
| InvalidRenterDataError (field reason : string).

(** The pattern [^\d{2}-\d{2}-\d{4}$]. *)
Definition dob_format (s : string) : bool :=
  match s with
  | String d1 (String d2 (String h1 (String m1 (String m2 (String h2
      (String y1 (String y2 (String y3 (String y4 EmptyString))))))))) =>
      is_digit d1 && is_digit d2 && Ascii.eqb h1 "-"
      && is_digit m1 && is_digit m2 && Ascii.eqb h2 "-"
      && is_digit y1 && is_digit y2 && is_digit y3 && is_digit y4
  | _ => false
  end.

(** [_validate_date_of_birth]; [current_date] is the calendar date of
    [datetime.now()], whose time of day changes neither the comparison
    with a midnight nor the [days] of the difference. *)
Definition _validate_date_of_birth (current_date : datetime)
    (date_of_birth : string) : data_error + string :=
  if String.eqb (strip date_of_birth) ""
  then inl (InvalidRenterDataError "date_of_birth"
              "must be a non-empty string")
  else
    let date_of_birth := strip date_of_birth in
    if negb (dob_format date_of_birth)
    then inl (InvalidRenterDataError "date_of_birth"
                "must be in DD-MM-YYYY format")
    else
      match strptime date_of_birth with
      | None =>
          inl (InvalidRenterDataError "date_of_birth" "invalid date format")
      | Some birth_date =>
          if dt_gt birth_date current_date
          then inl (InvalidRenterDataError "date_of_birth"
                      "cannot be in the future")
          else
            let age :=
              (inject_Z (days_between current_date birth_date) / 365.25)%Q in
            if negb (Qle_bool 18 age)
            then inl (InvalidRenterDataError "date_of_birth"
                        "user must be at least 18 years old")
            else if negb (Qle_bool age 120)
            then inl (InvalidRenterDataError "date_of_birth"
                        "invalid birth date")
            else inr date_of_birth
      end.

End IndividualUser.

(* ================================================================= *)
(** ** The reference policies of the specification *)

Module Reference.

(** The discount policy in the words of the specification: Individual
    returns 0.10 for a duration of at least 7 days and 0 otherwise,
    Corporate a flat 0.15, Staff 0. *)
Definition discount_policy (c : Renter.user_type) (duration_days : Z) : Q :=
  match c with
  | Renter.Individual => if 7 <=? duration_days then 0.10%Q else 0%Q
  | Renter.Corporate => 0.15%Q
  | Renter.Staff => 0%Q
  end.

(** [clamp(d, 0, 1)], written [min(1.0, max(0.0, d))]. *)
Definition clamp01 (d : Q) : Q := qmin 1 (qmax 0 d).

(** The same on floats. *)
Definition fclamp01 (d : Q) : Q := fmin 1 (fmax 0 d).

(** The cost of a rental without variant premium,
    [round(duration_days * daily_rate * (1 - d), 2)], in exact
    arithmetic and as Python evaluates the expression. *)
Definition pass_through_cost (duration_days : Z) (daily_rate d : Q) : Q :=
  round2 (inject_Z duration_days * daily_rate * (1 - d))%Q.

Definition pass_through_cost_float (duration_days : Z) (daily_rate d : Q)
  : Q :=
  round2 (fmul (fmul (inject_Z duration_days) daily_rate) (fsub 1 d)).

(** The discounted cost, [round(c * (1 - clamp(d, 0, 1)), 2)], in exact
    arithmetic and as Python evaluates the expression. *)
Definition discounted_cost (c d : Q) : Q :=
  round2 (c * (1 - clamp01 d))%Q.

Definition discounted_cost_float (c d : Q) : Q :=
  round2 (fmul c (fsub 1 (fclamp01 d))).

(** What the specification says of [apply_discount] at a base cost [c]
    and a discount [d]: the result is the discounted cost and lies
    between 0 and [c]. *)
Definition discount_bound_as_specified (c d : Q) : Prop :=
  (Float.apply_discount c d == discounted_cost_float c d
   /\ 0 <= binary64 (Float.apply_discount c d) <= binary64 c)%Q.

(** What the specification says of the cost of a car. *)
Definition car_cost_as_specified (v : Vehicle.t) (p : RentalPeriod.t)
    (d : Q) : Prop :=
  (Float.calculate_rental_cost v p d
   == pass_through_cost_float (RentalPeriod.calculate_duration p)
                              (Vehicle.daily_rate v) d)%Q.

(** The order pending -> active -> {completed | cancelled | overdue}. *)
Definition terminal (status : string) : bool :=
  str_in status ["completed"; "cancelled"; "overdue"].

Definition rank (status : string) : Z :=
  if String.eqb status "pending" then 0
  else if String.eqb status "active" then 1
  else 2.

End Reference.

(* ================================================================= *)
(** ** Sequences of status updates on a rental record *)

Module StatusUpdates.

(** One call of the status interface of [RentalRecord]. *)
Inductive update : Type :=
| SetStatus (status : string)
| MarkActive
| MarkCompleted
| MarkOverdue
| MarkCancelled.

Definition apply_update (timestamp : string) (r : RentalRecord.t)
    (u : update) : result RentalRecord.t :=
  match u with
  | SetStatus s => RentalRecord.set_status timestamp r s
  | MarkActive => RentalRecord.mark_as_active timestamp r
  | MarkCompleted => RentalRecord.mark_as_completed timestamp r
  | MarkOverdue => RentalRecord.mark_as_overdue timestamp r
  | MarkCancelled => RentalRecord.mark_as_cancelled timestamp r
  end.

(** The record after a sequence of calls; a call that raises leaves the
    record as it was. *)
Fixpoint run (timestamp : string) (us : list update) (r : RentalRecord.t)
  : RentalRecord.t :=
  match us with
  | [] => r
  | u :: rest =>
      match apply_update timestamp r u with
      | inr r' => run timestamp rest r'
      | inl _ => run timestamp rest r
      end
  end.

(** What the specification says of one update that the record accepts:
    the status does not move down the order, and a terminal status stays
    terminal. *)
Definition monotonic_as_specified (timestamp : string)
    (r : RentalRecord.t) (u : update) : Prop :=
  forall r' : RentalRecord.t,
    apply_update timestamp r u = ok r' ->
    Reference.rank (RentalRecord.status r)
    <= Reference.rank (RentalRecord.status r')
    /\ (Reference.terminal (RentalRecord.status r) = true ->
        RentalRecord.status r' <> "pending"
        /\ RentalRecord.status r' <> "active").

End StatusUpdates.

(* ================================================================= *)
(** ** The scenario of the test suite *)

Module Scenario.

(** The clock of the scenario: 1 December 2025. *)
Definition today : datetime := mk_datetime 2025 12 1.
Definition stamp : string := "2025-12-01 09:00:00".

(** [Car("CAR001", "Toyota", "Camry", 2022, 65.0, 4, "Petrol", "Automatic")] *)
Definition CAR001 : Vehicle.t :=
  Vehicle.mk "CAR001" "Toyota" "Camry" 2022 65.00 "default.jpg" [] []
             (Vehicle.Car 4 "Petrol" "Automatic").

(** [Car("CAR002", "Kia", "Rio", 2022, 21.3, 4, "Petrol", "Manual")] *)
Definition CAR002 : Vehicle.t :=
  Vehicle.mk "CAR002" "Kia" "Rio" 2022 21.30 "default.jpg" [] []
             (Vehicle.Car 4 "Petrol" "Manual").

(** [Motorbike("BIKE001", "Honda", "CBR600", 2022, 65.0, 600, "Sport",
    True)] *)
Definition BIKE001 : Vehicle.t :=
  Vehicle.mk "BIKE001" "Honda" "CBR600" 2022 65.00 "default.jpg" [] []
             (Vehicle.Motorbike 600 "Sport" true).

(** [IndividualUser("I001", "John", ...)] and [CorporateUser("C001",
    "Alice", ...)] *)
Definition I001 : Renter.t :=
  Renter.mk "I001" "John" "john@test.com" "pass123" [] [] Renter.Individual.

Definition C001 : Renter.t :=
  Renter.mk "C001" "Alice" "alice@corp.com" "pass123" [] [] Renter.Corporate.

Definition S001 : Renter.t :=
  Renter.mk "S001" "Admin" "admin@test.com" "pass123" [] [] Renter.Staff.

(** The engine with that car and those users. *)
Definition system : VehicleRental.t :=
  VehicleRental.mk [CAR001] [I001; C001; S001] [] "integration_test.pkl" 1.

Definition period (s e : string) (sd ed : Z) : RentalPeriod.t :=
  RentalPeriod.mk RentalPeriod.rental_period s e
                  (mk_datetime 2026 1 sd) (mk_datetime 2026 1 ed).

(** [RentalPeriod("01-01-2026", "05-01-2026")] and the other periods of
    January 2026 the tests and the specification use. *)
Definition jan_01_05 : RentalPeriod.t := period "01-01-2026" "05-01-2026" 1 5.
Definition jan_03_08 : RentalPeriod.t := period "03-01-2026" "08-01-2026" 3 8.
Definition jan_10_15 : RentalPeriod.t := period "10-01-2026" "15-01-2026" 10 15.
Definition jan_01_01 : RentalPeriod.t := period "01-01-2026" "01-01-2026" 1 1.
Definition jan_01_06 : RentalPeriod.t := period "01-01-2026" "06-01-2026" 1 6.
Definition jan_01_07 : RentalPeriod.t := period "01-01-2026" "07-01-2026" 1 7.
Definition jan_01_14 : RentalPeriod.t := period "01-01-2026" "14-01-2026" 1 14.
Definition jan_01_30 : RentalPeriod.t := period "01-01-2026" "30-01-2026" 1 30.

(** The same periods as routes.py and test_integration.py build them,
    after [from models.rental_period import RentalPeriod]. *)
Definition routes_period (s e : string) (sd ed : Z) : RentalPeriod.t :=
  RentalPeriod.mk RentalPeriod.models_rental_period s e
                  (mk_datetime 2026 1 sd) (mk_datetime 2026 1 ed).

Definition routes_jan_01_05 : RentalPeriod.t :=
  routes_period "01-01-2026" "05-01-2026" 1 5.
Definition routes_jan_03_08 : RentalPeriod.t :=
  routes_period "03-01-2026" "08-01-2026" 3 8.

(** A renter holding five current rentals. *)
Definition five_rentals : list Renter.rental_dict :=
  map (fun vid => Renter.mk_rental vid "01-01-2026" "05-01-2026" 5 325.00
                                   "active")
      ["CAR002"; "CAR003"; "CAR004"; "CAR005"; "CAR006"].

Definition I002 : Renter.t :=
  Renter.mk "I002" "Jane" "jane@test.com" "pass123" five_rentals five_rentals
            Renter.Individual.

Definition busy_system : VehicleRental.t :=
  VehicleRental.mk [CAR001] [I002] [] "integration_test.pkl" 1.

(** A record of a completed rental, as
    [RentalRecord("R00001", "CAR001", "I001", "01-01-2026", "05-01-2026",
    325.0, "completed")] builds it. *)
Definition completed_record : RentalRecord.t :=
  RentalRecord.mk "R00001" "CAR001" "I001" "01-01-2026" "05-01-2026" 325.0
                  "completed" 0.0 stamp stamp.

(** CAR001 after it has been rented for 10-01-2026..15-01-2026 and
    returned with the scheduled end date. *)
Definition CAR001_returned : Vehicle.t :=
  match Vehicle.add_rental today CAR001 jan_10_15 "I001" with
  | inr rented_car => fst (Vehicle.remove_rental rented_car jan_10_15 None)
  | inl _ => CAR001
  end.

(** The engine after [rent_vehicles("CAR001", "I001", jan_01_05)]. *)
Definition rented : VehicleRental.t :=
  fst (VehicleRental.rent_vehicles today system "CAR001" "I001" jan_01_05).

End Scenario.

(* ================================================================= *)
(** * Properties *)

Local Open Scope list_scope.

(** ** Rounding *)

Section Rounding.

Local Open Scope Q_scope.

Lemma round_half_even_comp (x y : Q) :
  x == y -> round_half_even x = round_half_even y.
Proof.
  intros E. unfold round_half_even.
  rewrite (Qfloor_comp _ _ E).
  assert (C : (x - inject_Z (Qfloor y) ?= 1 # 2) = (y - inject_Z (Qfloor y) ?= 1 # 2)).
  { apply Qcompare_comp; [rewrite E|]; reflexivity. }
  now rewrite C.
Qed.

Lemma round2_comp (x y : Q) : x == y -> round2 x = round2 y.
Proof.
  intros E. unfold round2. f_equal. apply round_half_even_comp. now rewrite E.
Qed.

Lemma round_half_even_Z (z : Z) : round_half_even (inject_Z z) = z.
Proof.
  unfold round_half_even. rewrite Qfloor_Z.
  assert (C : (inject_Z z - inject_Z z ?= 1 # 2) = Lt).
  { rewrite <- Qlt_alt. setoid_replace (inject_Z z - inject_Z z) with 0 by ring.
    reflexivity. }
  now rewrite C.
Qed.

(** An amount in whole cents is its own rounding. *)
Lemma round2_cents (z : Z) : round2 (z # 100) = z # 100.
Proof.
  unfold round2. f_equal.
  rewrite (round_half_even_comp _ (inject_Z z)); [apply round_half_even_Z|].
  unfold Qeq, Qmult, inject_Z; simpl. lia.
Qed.

Lemma round2_idem (x : Q) : round2 (round2 x) = round2 x.
Proof. unfold round2 at 2 3. apply round2_cents. Qed.

Lemma round_half_even_bounds (x : Q) :
  (Qfloor x <= round_half_even x <= Qfloor x + 1)%Z.
Proof.
  unfold round_half_even.
  destruct (x - inject_Z (Qfloor x) ?= 1 # 2); [destruct (Z.even _)| |]; lia.
Qed.

Lemma round_half_even_mono (x y : Q) :
  x <= y -> (round_half_even x <= round_half_even y)%Z.
Proof.
  intros L.
  pose proof (Qfloor_resp_le _ _ L) as F.
  pose proof (round_half_even_bounds x) as Bx.
  pose proof (round_half_even_bounds y) as By.
  destruct (Z.eq_dec (Qfloor x) (Qfloor y)) as [E | N]; [|lia].
  unfold round_half_even. rewrite <- E.
  assert (D : x - inject_Z (Qfloor x) <= y - inject_Z (Qfloor x)) by lra.
  destruct (Qcompare_spec (x - inject_Z (Qfloor x)) (1 # 2)) as [Hx | Hx | Hx];
    destruct (Qcompare_spec (y - inject_Z (Qfloor x)) (1 # 2)) as [Hy | Hy | Hy];
    try (destruct (Z.even (Qfloor x))); try lia; exfalso; lra.
Qed.

Lemma round2_mono (x y : Q) : x <= y -> round2 x <= round2 y.
Proof.
  intros L. unfold round2, Qle; simpl.
  apply Z.mul_le_mono_nonneg_r; [lia|].
  apply round_half_even_mono. apply Qmult_le_compat_r; [exact L| discriminate].
Qed.

Lemma round2_nonneg (x : Q) : 0 <= x -> 0 <= round2 x.
Proof.
  intros L. apply Qle_trans with (round2 0); [now vm_compute|].
  now apply round2_mono.
Qed.


Lemma Qle_bool_false (a b : Q) : Qle_bool a b = false -> b < a.
Proof.
  intros H. apply Qnot_le_lt. intros L.
  apply Qle_bool_iff in L. congruence.
Qed.

End Rounding.

(** ** Rounding to binary64 *)

Section Binary64.
Local Open Scope Q_scope.

Lemma pow2_pos (k : Z) : 0 < pow2 k.
Proof. apply Qpower_0_lt. reflexivity. Qed.

Lemma pow2_add (a b : Z) : pow2 (a + b) == pow2 a * pow2 b.
Proof. apply Qpower_plus. discriminate. Qed.

Lemma pow2_le (a b : Z) : (a <= b)%Z -> pow2 a <= pow2 b.
Proof. intros L. apply Qpower_le_compat_l; [exact L | discriminate]. Qed.

Lemma pow2_lt (a b : Z) : (a < b)%Z -> pow2 a < pow2 b.
Proof. intros L. apply Qpower_lt_compat_l; [exact L | reflexivity]. Qed.

Lemma pow2_Z (k : Z) : (0 <= k)%Z -> pow2 k == inject_Z (2 ^ k).
Proof. intros L. unfold pow2. now rewrite Zpower_Qpower. Qed.

Lemma pow2_sub (a b : Z) : pow2 (a - b) == pow2 a / pow2 b.
Proof.
  pose proof (pow2_pos b) as P.
  replace a with ((a - b) + b)%Z at 2 by lia. rewrite pow2_add.
  field. intros E. rewrite E in P. discriminate.
Qed.

Lemma Qdiv_pos (a b : Q) : 0 < a -> 0 < b -> 0 < a / b.
Proof.
  intros A B. apply Qlt_shift_div_l; [exact B|]. now rewrite Qmult_0_l.
Qed.

(** The rough estimate of [ilog2] is off by less than one. *)
Lemma ilog2_estimate (x : Q) :
  0 < x ->
  let k := (Z.log2 (Qnum x) - Z.log2 (Zpos (Qden x)))%Z in
  pow2 (k - 1) <= x /\ x < pow2 (k + 1).
Proof.
  destruct x as [n d]. intros P. cbv beta iota zeta delta [Qnum Qden].
  assert (Pn : (0 < n)%Z) by (unfold Qlt in P; simpl in P; lia).
  set (ln := Z.log2 n). set (ld := Z.log2 (Zpos d)).
  destruct (Z.log2_spec n Pn) as [N1 N2]. fold ln in N1, N2.
  destruct (Z.log2_spec (Zpos d) eq_refl) as [D1 D2]. fold ld in D1, D2.
  assert (Ln : (0 <= ln)%Z) by apply Z.log2_nonneg.
  assert (Ld : (0 <= ld)%Z) by apply Z.log2_nonneg.
  assert (X : n # d == inject_Z n / inject_Z (Zpos d)) by apply Qmake_Qdiv.
  assert (Qd : 0 < inject_Z (Zpos d)) by reflexivity.
  assert (A1 : pow2 ln <= inject_Z n)
    by (rewrite pow2_Z by lia; now rewrite <- Zle_Qle).
  assert (A2 : inject_Z n < pow2 (ln + 1))
    by (rewrite pow2_Z by lia; rewrite <- Zlt_Qlt; unfold Z.succ in N2; lia).
  assert (B1 : pow2 ld <= inject_Z (Zpos d))
    by (rewrite pow2_Z by lia; now rewrite <- Zle_Qle).
  assert (B2 : inject_Z (Zpos d) < pow2 (ld + 1))
    by (rewrite pow2_Z by lia; rewrite <- Zlt_Qlt; unfold Z.succ in D2; lia).
  pose proof (pow2_pos ln) as P1. pose proof (pow2_pos ld) as P2.
  pose proof (pow2_pos (ld + 1)) as P3. pose proof (pow2_pos (ln + 1)) as P4.
  rewrite X. split.
  - replace (ln - ld - 1)%Z with (ln - (ld + 1))%Z by lia. rewrite pow2_sub.
    apply Qle_shift_div_l; [exact Qd|].
    apply Qle_trans with (pow2 ln / pow2 (ld + 1) * pow2 (ld + 1)).
    + apply (proj2 (Qmult_le_l _ _ _ (Qdiv_pos _ _ P1 P3))).
      apply Qlt_le_weak, B2.
    + setoid_replace (pow2 ln / pow2 (ld + 1) * pow2 (ld + 1)) with (pow2 ln);
        [exact A1|].
      field. intros E. rewrite E in P3. discriminate.
  - replace (ln - ld + 1)%Z with ((ln + 1) - ld)%Z by lia. rewrite pow2_sub.
    apply Qlt_shift_div_r; [exact Qd|].
    apply Qlt_le_trans with (pow2 (ln + 1)); [exact A2|].
    apply Qle_trans with (pow2 (ln + 1) / pow2 ld * pow2 ld).
    + setoid_replace (pow2 (ln + 1) / pow2 ld * pow2 ld) with (pow2 (ln + 1));
        [apply Qle_refl|].
      field. intros E. rewrite E in P2. discriminate.
    + apply (proj2 (Qmult_le_l _ _ _ (Qdiv_pos _ _ P4 P2))).
      exact B1.
Qed.

Lemma ilog2_spec (x : Q) :
  0 < x -> pow2 (ilog2 x) <= x /\ x < pow2 (ilog2 x + 1).
Proof.
  intros P. destruct (ilog2_estimate x P) as [L U]. unfold ilog2.
  destruct (Qle_bool _ x) eqn:B.
  - apply Qle_bool_iff in B. split; assumption.
  - apply Qle_bool_false in B. split; [exact L|].
    now replace (Z.log2 (Qnum x) - Z.log2 (Z.pos (Qden x)) - 1 + 1)%Z
      with (Z.log2 (Qnum x) - Z.log2 (Z.pos (Qden x)))%Z by lia.
Qed.

Lemma ilog2_unique (x : Q) (k : Z) :
  pow2 k <= x -> x < pow2 (k + 1) -> ilog2 x = k.
Proof.
  intros L U.
  assert (P : 0 < x) by (eapply Qlt_le_trans; [apply pow2_pos | exact L]).
  destruct (ilog2_spec x P) as [L' U'].
  destruct (Z.lt_trichotomy (ilog2 x) k) as [H | [H | H]]; [|exact H|].
  - exfalso. assert (pow2 (ilog2 x + 1) <= pow2 k) by (apply pow2_le; lia). lra.
  - exfalso. assert (pow2 (k + 1) <= pow2 (ilog2 x)) by (apply pow2_le; lia). lra.
Qed.

Lemma ilog2_comp (x y : Q) : 0 < x -> x == y -> ilog2 x = ilog2 y.
Proof.
  intros P E. destruct (ilog2_spec x P) as [L U].
  symmetry. apply ilog2_unique; rewrite <- E; assumption.
Qed.

Lemma ilog2_mono (x y : Q) : 0 < x -> x <= y -> (ilog2 x <= ilog2 y)%Z.
Proof.
  intros P L.
  assert (Py : 0 < y) by lra.
  destruct (ilog2_spec x P) as [Lx Ux]. destruct (ilog2_spec y Py) as [Ly Uy].
  destruct (Z_le_gt_dec (ilog2 x) (ilog2 y)) as [H | H]; [exact H|].
  exfalso. assert (pow2 (ilog2 y + 1) <= pow2 (ilog2 x)) by (apply pow2_le; lia).
  lra.
Qed.

Lemma ulp_exponent_mono (x y : Q) :
  0 < x -> x <= y -> (ulp_exponent x <= ulp_exponent y)%Z.
Proof.
  intros P L. pose proof (ilog2_mono x y P L). unfold ulp_exponent. lia.
Qed.

(** The significand of the nearest binary64 number has at most 53 bits,
    and exactly 53 unless the number is subnormal. *)
Lemma significand_bounds (x : Q) :
  0 < x ->
  let e := ulp_exponent x in
  let m := round_half_even (x / pow2 e) in
  (0 <= m <= 2 ^ 53)%Z /\ ((-1074 < e)%Z -> (2 ^ 52 <= m)%Z).
Proof.
  intros P e m. destruct (ilog2_spec x P) as [L U].
  pose proof (pow2_pos e) as Pe.
  assert (Ne : ~ pow2 e == 0) by (intros E; rewrite E in Pe; discriminate).
  assert (Q0 : 0 <= x / pow2 e).
  { apply Qle_shift_div_l; [exact Pe|]. rewrite Qmult_0_l. lra. }
  assert (Q1 : x / pow2 e <= inject_Z (2 ^ 53)).
  { apply Qle_shift_div_r; [exact Pe|].
    rewrite <- pow2_Z by lia. rewrite <- pow2_add.
    apply Qle_trans with (pow2 (ilog2 x + 1)); [lra|].
    apply pow2_le. unfold e, ulp_exponent. lia. }
  split; [split|].
  - rewrite <- (round_half_even_Z 0). now apply round_half_even_mono.
  - rewrite <- (round_half_even_Z (2 ^ 53)). now apply round_half_even_mono.
  - intros N. rewrite <- (round_half_even_Z (2 ^ 52)).
    apply round_half_even_mono.
    apply Qle_shift_div_l; [exact Pe|].
    rewrite <- pow2_Z by lia. rewrite <- pow2_add.
    replace (52 + e)%Z with (ilog2 x) by (unfold e, ulp_exponent in *; lia).
    exact L.
Qed.

Lemma nearest_pos_nonneg (x : Q) : 0 < x -> 0 <= nearest_pos x.
Proof.
  intros P. destruct (significand_bounds x P) as [[L _] _].
  unfold nearest_pos. apply Qmult_le_0_compat.
  - now rewrite <- (Zle_Qle 0).
  - apply Qlt_le_weak, pow2_pos.
Qed.

Lemma nearest_pos_comp (x y : Q) :
  0 < x -> x == y -> nearest_pos x == nearest_pos y.
Proof.
  intros P E. unfold nearest_pos, ulp_exponent.
  rewrite (ilog2_comp x y P E).
  rewrite (round_half_even_comp (x / _) (y / pow2 (Z.max (ilog2 y - 52) (-1074)))).
  - reflexivity.
  - now rewrite E.
Qed.

Lemma nearest_pos_mono (x y : Q) :
  0 < x -> x <= y -> nearest_pos x <= nearest_pos y.
Proof.
  intros P L. assert (Py : 0 < y) by lra.
  pose proof (ulp_exponent_mono x y P L) as E.
  destruct (significand_bounds x P) as [[_ Mx] _].
  destruct (significand_bounds y Py) as [[My0 _] My].
  unfold nearest_pos.
  set (ex := ulp_exponent x) in *. set (ey := ulp_exponent y) in *.
  pose proof (pow2_pos ex) as Pex. pose proof (pow2_pos ey) as Pey.
  destruct (Z.eq_dec ex ey) as [Q | N].
  - rewrite Q. apply Qmult_le_compat_r; [|lra].
    rewrite <- Zle_Qle. apply round_half_even_mono.
    rewrite <- Q. apply Qmult_le_compat_r; [exact L|].
    apply Qlt_le_weak, Qinv_lt_0_compat, Pex.
  - assert (S : (ex + 1 <= ey)%Z) by lia.
    assert (Ny : (-1074 < ey)%Z) by (unfold ex, ulp_exponent in S; lia).
    specialize (My Ny).
    apply Qle_trans with (inject_Z (2 ^ 53) * pow2 ex).
    + apply Qmult_le_compat_r; [now rewrite <- Zle_Qle | lra].
    + apply Qle_trans with (inject_Z (2 ^ 52) * pow2 ey).
      * rewrite <- !pow2_Z by lia. rewrite <- !pow2_add. apply pow2_le. lia.
      * apply Qmult_le_compat_r; [now rewrite <- Zle_Qle | lra].
Qed.

(** A number with a significand of at most 53 bits at a legal exponent is
    its own rounding. *)
Lemma nearest_pos_fixed (m e : Z) :
  (0 < m <= 2 ^ 53)%Z -> (-1074 <= e)%Z ->
  ((-1074 < e)%Z -> (2 ^ 52 <= m)%Z) ->
  nearest_pos (inject_Z m * pow2 e) == inject_Z m * pow2 e.
Proof.
  intros [M0 M1] E N.
  pose proof (pow2_pos e) as Pe.
  assert (Ne : ~ pow2 e == 0) by (intros X; rewrite X in Pe; discriminate).
  set (v := inject_Z m * pow2 e).
  destruct (Z.eq_dec m (2 ^ 53)) as [T | T].
  - assert (V : v == pow2 (e + 53)).
    { unfold v. rewrite T, <- pow2_Z by lia. rewrite <- pow2_add.
      now replace (53 + e)%Z with (e + 53)%Z by lia. }
    assert (I : ilog2 v = (e + 53)%Z).
    { apply ilog2_unique; rewrite V; [apply Qle_refl | apply pow2_lt; lia]. }
    unfold nearest_pos, ulp_exponent. rewrite I.
    replace (Z.max (e + 53 - 52) (-1074)) with (e + 1)%Z by lia.
    rewrite (round_half_even_comp _ (inject_Z (2 ^ 52))).
    + rewrite round_half_even_Z, V, <- pow2_Z by lia. rewrite <- pow2_add.
      now replace (52 + (e + 1))%Z with (e + 53)%Z by lia.
    + rewrite V, <- pow2_sub, <- pow2_Z by lia.
      now replace (e + 53 - (e + 1))%Z with 52%Z by lia.
  - assert (X : ulp_exponent v = e).
    { unfold ulp_exponent.
      destruct (Z_le_gt_dec (2 ^ 52) m) as [H | H].
      - assert (I : ilog2 v = (e + 52)%Z).
        { apply ilog2_unique; unfold v.
          - rewrite pow2_add. rewrite Qmult_comm.
            apply Qmult_le_compat_r; [|lra].
            rewrite pow2_Z by lia. now rewrite <- Zle_Qle.
          - replace (e + 52 + 1)%Z with (53 + e)%Z by lia. rewrite pow2_add.
            apply Qmult_lt_compat_r; [exact Pe|].
            rewrite pow2_Z by lia. rewrite <- Zlt_Qlt. lia. }
        rewrite I. lia.
      - assert (e = (-1074)%Z) by (destruct (Z.eq_dec e (-1074)); [assumption|];
                                   assert (-1074 < e)%Z by lia; specialize (N H0); lia).
        subst e.
        assert (Pv : 0 < v).
        { unfold v. apply Qmult_lt_0_compat; [|exact Pe].
          now rewrite <- (Zlt_Qlt 0). }
        destruct (ilog2_spec v Pv) as [Lv _].
        assert (I : (ilog2 v < -1074 + 52)%Z).
        { destruct (Z_lt_ge_dec (ilog2 v) (-1074 + 52)) as [G | G]; [exact G|].
          exfalso.
          assert (pow2 (-1074 + 52) <= pow2 (ilog2 v)) by (apply pow2_le; lia).
          assert (v < pow2 (-1074 + 52)).
          { unfold v. replace (-1074 + 52)%Z with (52 + -1074)%Z by lia.
            rewrite pow2_add. apply Qmult_lt_compat_r; [exact Pe|].
            rewrite pow2_Z by lia. rewrite <- Zlt_Qlt. lia. }
          lra. }
        lia. }
    unfold nearest_pos. rewrite X.
    rewrite (round_half_even_comp _ (inject_Z m)).
    + now rewrite round_half_even_Z.
    + unfold v. field. exact Ne.
Qed.

Lemma nearest_pos_idem (x : Q) :
  0 < x -> 0 < nearest_pos x -> nearest_pos (nearest_pos x) == nearest_pos x.
Proof.
  intros P V. destruct (significand_bounds x P) as [[M0 M1] N].
  unfold nearest_pos at 2 3.
  apply nearest_pos_fixed.
  - split; [|exact M1].
    destruct (Z.eq_dec (round_half_even (x / pow2 (ulp_exponent x))) 0) as [Z | Z];
      [|lia].
    exfalso. unfold nearest_pos in V. rewrite Z in V.
    rewrite Qmult_0_l in V. discriminate.
  - unfold ulp_exponent. lia.
  - exact N.
Qed.

Lemma binary64_comp (x y : Q) : x == y -> binary64 x == binary64 y.
Proof.
  intros E. unfold binary64.
  assert (C : (x ?= 0) = (y ?= 0))
    by (apply Qcompare_comp; [exact E | reflexivity]).
  rewrite <- C.
  destruct (Qcompare_spec x 0) as [H | H | H].
  - reflexivity.
  - apply Qopp_comp, nearest_pos_comp; [lra | now rewrite E].
  - now apply nearest_pos_comp.
Qed.

Lemma binary64_nonneg (x : Q) : 0 <= x -> 0 <= binary64 x.
Proof.
  intros L. unfold binary64.
  destruct (Qcompare_spec x 0) as [H | H | H]; [apply Qle_refl | lra|].
  now apply nearest_pos_nonneg.
Qed.

Lemma binary64_nonpos (x : Q) : x <= 0 -> binary64 x <= 0.
Proof.
  intros L. unfold binary64.
  destruct (Qcompare_spec x 0) as [H | H | H]; [apply Qle_refl | | lra].
  assert (0 <= nearest_pos (- x)) by (apply nearest_pos_nonneg; lra). lra.
Qed.

(** Rounding to binary64 keeps the order. *)
Lemma binary64_mono (x y : Q) : x <= y -> binary64 x <= binary64 y.
Proof.
  intros L.
  destruct (Qlt_le_dec 0 x) as [Px | Nx].
  - unfold binary64.
    destruct (Qcompare_spec x 0) as [H | H | H]; try lra.
    destruct (Qcompare_spec y 0) as [G | G | G]; try lra.
    now apply nearest_pos_mono.
  - destruct (Qlt_le_dec 0 y) as [Py | Ny].
    + apply Qle_trans with 0; [now apply binary64_nonpos|].
      apply binary64_nonneg. lra.
    + unfold binary64.
      destruct (Qcompare_spec y 0) as [G | G | G]; try lra.
      * now apply binary64_nonpos.
      * destruct (Qcompare_spec x 0) as [H | H | H]; try lra.
        apply Qopp_le_compat. apply nearest_pos_mono; lra.
Qed.

(** A binary64 number is its own rounding. *)
Lemma binary64_idem (x : Q) : binary64 (binary64 x) == binary64 x.
Proof.
  unfold binary64 at 2 3.
  destruct (Qcompare_spec x 0) as [H | H | H].
  - reflexivity.
  - assert (P : 0 < - x) by lra.
    pose proof (nearest_pos_nonneg _ P) as N.
    destruct (Qlt_le_dec 0 (nearest_pos (- x))) as [V | V].
    + unfold binary64.
      destruct (Qcompare_spec (- nearest_pos (- x)) 0) as [G | G | G]; try lra.
      apply Qopp_comp.
      rewrite (nearest_pos_comp _ (nearest_pos (- x))); [|lra | ring].
      now apply nearest_pos_idem.
    + assert (Z : nearest_pos (- x) == 0) by lra.
      rewrite (binary64_comp _ 0) by (rewrite Z; reflexivity).
      rewrite Z. reflexivity.
  - pose proof (nearest_pos_nonneg _ H) as N.
    destruct (Qlt_le_dec 0 (nearest_pos x)) as [V | V].
    + unfold binary64.
      destruct (Qcompare_spec (nearest_pos x) 0) as [G | G | G]; try lra.
      now apply nearest_pos_idem.
    + assert (Z : nearest_pos x == 0) by lra.
      rewrite (binary64_comp _ 0) by exact Z.
      rewrite Z. reflexivity.
Qed.

End Binary64.

(** ** Discounts and costs *)

Section Costs.

Local Open Scope Q_scope.

(** Case analysis on every comparison of a goal about clamping. *)
Ltac by_comparisons :=
  repeat match goal with
         | |- context [Qle_bool ?a ?b] => destruct (Qle_bool a b) eqn:?
         end;
  simpl;
  repeat match goal with
         | H : Qle_bool _ _ = true |- _ => apply Qle_bool_iff in H
         | H : Qle_bool _ _ = false |- _ => apply Qle_bool_false in H
         end;
  try lra.


Lemma effective_discount_clamp (d : Q) :
  Vehicle.effective_discount d == Reference.clamp01 d.
Proof.
  unfold Vehicle.effective_discount, Reference.clamp01, qmax, qmin. by_comparisons.
Qed.


Lemma effective_discount_in_range (d : Q) :
  0 <= d <= 1 -> Vehicle.effective_discount d = d.
Proof.
  intros [L U]. unfold Vehicle.effective_discount.
  apply Qle_bool_iff in L, U. now rewrite L, U.
Qed.

Lemma validated_rate_cents (rate0 rate : Q) :
  Vehicle._validate_daily_rate rate0 = ok rate ->
  exists z : Z, rate = z # 100.
Proof.
  unfold Vehicle._validate_daily_rate.
  destruct (Qle_bool rate0 0); [discriminate|].
  intros E. injection E as <-. now eexists.
Qed.

Lemma base_cost_exact (v : Vehicle.t) (p : RentalPeriod.t) (z : Z) :
  Vehicle.daily_rate v = z # 100 ->
  Vehicle.get_base_rental_cost v p
  == inject_Z (RentalPeriod.calculate_duration p) * Vehicle.daily_rate v.
Proof.
  intros E. unfold Vehicle.get_base_rental_cost. rewrite E.
  set (n := RentalPeriod.calculate_duration p).
  rewrite (round2_comp _ ((n * z) # 100)).
  - rewrite round2_cents. unfold Qeq, Qmult, inject_Z; simpl. lia.
  - unfold Qeq, Qmult, inject_Z; simpl. lia.
Qed.

Lemma scenario_periods_constructed :
  RentalPeriod.init Scenario.today "01-01-2026" "05-01-2026" false
    = ok Scenario.jan_01_05
  /\ RentalPeriod.init Scenario.today "03-01-2026" "08-01-2026" false
    = ok Scenario.jan_03_08
  /\ RentalPeriod.init Scenario.today "10-01-2026" "15-01-2026" false
    = ok Scenario.jan_10_15
  /\ RentalPeriod.init Scenario.today "01-01-2026" "01-01-2026" false
    = ok Scenario.jan_01_01
  /\ RentalPeriod.init Scenario.today "01-01-2026" "06-01-2026" false
    = ok Scenario.jan_01_06
  /\ RentalPeriod.init Scenario.today "01-01-2026" "07-01-2026" false
    = ok Scenario.jan_01_07
  /\ RentalPeriod.init Scenario.today "01-01-2026" "14-01-2026" false
    = ok Scenario.jan_01_14
  /\ RentalPeriod.init Scenario.today "01-01-2026" "30-01-2026" false
    = ok Scenario.jan_01_30.
Proof. repeat split; reflexivity. Qed.

Lemma scenario_car_rate :
  Vehicle._validate_daily_rate 65.0
  = ok (Vehicle.daily_rate Scenario.CAR001).
Proof. reflexivity. Qed.

(** C3.  [calculate_discount] is the reference discount policy: for every
    renter and every rental period it returns what the policy gives for
    the renter's class and the duration of the period, that is 0.10 for
    an Individual when the duration is at least 7 days and 0 otherwise,
    0.15 for a Corporate renter whatever the duration, 0 for Staff.  On
    the periods of 6, 7 and 14 days an Individual gets 0, 0.10 and 0.10;
    on the periods of 1 and 30 days a Corporate renter gets 0.15. *)
Theorem calculate_discount_is_reference_policy :
  (forall (r : Renter.t) (p : RentalPeriod.t),
      Renter.calculate_discount r p
      == Reference.discount_policy (Renter.class r)
                                   (RentalPeriod.calculate_duration p))
  /\ (RentalPeriod.calculate_duration Scenario.jan_01_06 = 6%Z
      /\ Renter.calculate_discount Scenario.I001 Scenario.jan_01_06 == 0.0)
  /\ (RentalPeriod.calculate_duration Scenario.jan_01_07 = 7%Z
      /\ Renter.calculate_discount Scenario.I001 Scenario.jan_01_07 == 0.10)
  /\ (RentalPeriod.calculate_duration Scenario.jan_01_14 = 14%Z
      /\ Renter.calculate_discount Scenario.I001 Scenario.jan_01_14 == 0.10)
  /\ (RentalPeriod.calculate_duration Scenario.jan_01_01 = 1%Z
      /\ Renter.calculate_discount Scenario.C001 Scenario.jan_01_01 == 0.15)
  /\ (RentalPeriod.calculate_duration Scenario.jan_01_30 = 30%Z
      /\ Renter.calculate_discount Scenario.C001 Scenario.jan_01_30 == 0.15)
  /\ (forall p : RentalPeriod.t,
        Renter.calculate_discount Scenario.S001 p == 0.0).
Proof.
  split.
  - intros r p. unfold Renter.calculate_discount, Reference.discount_policy.
    destruct (Renter.class r); try reflexivity.
    rewrite Z.geb_leb.
    destruct (7 <=? RentalPeriod.calculate_duration p)%Z; reflexivity.
  - repeat split; reflexivity.
Qed.

(** *** Floats *)

Lemma binary64_0 : binary64 0 = 0.
Proof. reflexivity. Qed.

Lemma binary64_1 : binary64 1 == 1.
Proof. vm_compute. reflexivity. Qed.

Lemma fle_true (x y : Q) : fle x y = true -> binary64 x <= binary64 y.
Proof. unfold fle. apply Qle_bool_iff. Qed.

Lemma fle_false (x y : Q) : fle x y = false -> binary64 y < binary64 x.
Proof. unfold fle. apply Qle_bool_false. Qed.

Lemma fle_of_le (x y : Q) : x <= y -> fle x y = true.
Proof. intros L. unfold fle. apply Qle_bool_iff. now apply binary64_mono. Qed.

(** Case analysis on every comparison of floats in the goal. *)
Ltac compare_floats :=
  unfold flt;
  repeat match goal with
         | |- context [fle ?a ?b] => destruct (fle a b) eqn:?
         end;
  cbn [negb andb] in *;
  repeat match goal with
         | H : fle _ _ = true |- _ => apply fle_true in H
         | H : fle _ _ = false |- _ => apply fle_false in H
         end;
  rewrite ?binary64_0 in *;
  pose proof binary64_1;
  try lra.

Lemma effective_discount_float_range (d : Q) :
  0 <= binary64 (Float.effective_discount d) <= 1.
Proof.
  unfold Float.effective_discount, fmax, fmin. compare_floats.
Qed.

Lemma effective_discount_float_clamp (d : Q) :
  binary64 (Float.effective_discount d) == binary64 (Reference.fclamp01 d).
Proof.
  unfold Float.effective_discount, Reference.fclamp01, fmax, fmin.
  compare_floats.
Qed.

Lemma effective_discount_float_in_range (d : Q) :
  0 <= d <= 1 -> Float.effective_discount d = d.
Proof.
  intros [L U]. unfold Float.effective_discount.
  now rewrite (fle_of_le 0 d L), (fle_of_le d 1 U).
Qed.

Lemma effective_discount_float_low (d : Q) :
  d <= 0 -> binary64 (Float.effective_discount d) == 0.
Proof.
  intros L. pose proof (binary64_nonpos d L).
  unfold Float.effective_discount, fmax, fmin. compare_floats.
Qed.

Lemma effective_discount_float_high (d : Q) :
  1 <= d -> binary64 (Float.effective_discount d) == 1.
Proof.
  intros L. pose proof (binary64_mono 1 d L).
  unfold Float.effective_discount, fmax, fmin. compare_floats.
Qed.

Lemma fmul_comp (x x' y y' : Q) :
  binary64 x == binary64 x' -> binary64 y == binary64 y' ->
  fmul x y == fmul x' y'.
Proof.
  intros X Y. unfold fmul. apply binary64_comp. now rewrite X, Y.
Qed.

Lemma fsub_comp (x x' y y' : Q) :
  binary64 x == binary64 x' -> binary64 y == binary64 y' ->
  fsub x y == fsub x' y'.
Proof.
  intros X Y. unfold fsub. apply binary64_comp. now rewrite X, Y.
Qed.

Lemma apply_discount_float_unfold (c d : Q) :
  Float.apply_discount c d
  = round2 (fsub c (fmul c (Float.effective_discount d))).
Proof. reflexivity. Qed.

(** The discount amount is a float between 0 and the base cost. *)
Lemma discount_amount_range (c e : Q) :
  0 <= c -> 0 <= binary64 e <= 1 ->
  0 <= fmul c e <= binary64 c.
Proof.
  intros Hc [L U]. pose proof (binary64_nonneg c Hc) as C.
  unfold fmul. split.
  - apply binary64_nonneg. now apply Qmult_le_0_compat.
  - apply Qle_trans with (binary64 (binary64 c)).
    + apply binary64_mono. nra.
    + rewrite binary64_idem. apply Qle_refl.
Qed.

(** C4, amended.  A car costs, for every period and every discount [d] in
    [0,1], [round(c - c * d, 2)] with [c = round(duration_days *
    daily_rate, 2)], computed in floats: the base cost goes through
    [apply_discount] and no premium is applied, and the cost is a whole
    number of cents.  The car at 65.00 a day costs 325.00 for the five
    days 01-01-2026..05-01-2026 without discount and 276.25 with 0.15;
    a car at 21.30 a day costs 90.53 for them with 0.15. *)
Theorem car_cost_is_pass_through :
  (forall (v : Vehicle.t) (num_doors : Z) (fuel_type transmission : string)
          (p : RentalPeriod.t) (d : Q),
      Vehicle.variant v = Vehicle.Car num_doors fuel_type transmission ->
      0 <= d <= 1 ->
      let c := round2 (fmul (inject_Z (RentalPeriod.calculate_duration p))
                            (Vehicle.daily_rate v)) in
      Float.get_base_rental_cost v p = c
      /\ Float.calculate_rental_cost v p d = Float.apply_discount c d
      /\ Float.calculate_rental_cost v p d = round2 (fsub c (fmul c d))
      /\ exists z : Z, Float.calculate_rental_cost v p d = z # 100)
  /\ RentalPeriod.calculate_duration Scenario.jan_01_05 = 5%Z
  /\ Vehicle.daily_rate Scenario.CAR001 == 65.00
  /\ Float.calculate_rental_cost Scenario.CAR001 Scenario.jan_01_05 0.0
     == 325.00
  /\ Float.calculate_rental_cost Scenario.CAR001 Scenario.jan_01_05 0.15
     == 276.25
  /\ Vehicle.daily_rate Scenario.CAR002 == 21.30
  /\ Float.calculate_rental_cost Scenario.CAR002 Scenario.jan_01_05 0.15
     == 90.53.
Proof.
  split; [|repeat split; vm_compute; reflexivity].
  intros v nd ft tr p d Hcar Hd c.
  assert (E : Float.calculate_rental_cost v p d = Float.apply_discount c d).
  { unfold Float.calculate_rental_cost. rewrite Hcar. cbv zeta.
    rewrite apply_discount_float_unfold. apply round2_idem. }
  split; [reflexivity|]. split; [exact E|]. split.
  - rewrite E, apply_discount_float_unfold.
    now rewrite (effective_discount_float_in_range d Hd).
  - rewrite E, apply_discount_float_unfold. now eexists.
Qed.

Lemma car_cost_is_pass_through_witness :
  Float.calculate_rental_cost Scenario.CAR001 Scenario.jan_01_05 0.15
  = Float.apply_discount
      (Float.get_base_rental_cost Scenario.CAR001 Scenario.jan_01_05) 0.15.
Proof.
  apply (proj1 car_cost_is_pass_through Scenario.CAR001 4%Z "Petrol"%string
           "Automatic"%string Scenario.jan_01_05 0.15).
  - reflexivity.
  - split; discriminate.
Defined.

(** C4 as written fails.  A car at 21.30 a day, a rate
    [_validate_daily_rate] returns as it is, costs 90.53 for the five
    days 01-01-2026..05-01-2026 with the discount 0.15:
    [106.5 - 106.5 * 0.15] is a float above 90.525.  The formula
    [round(duration_days * daily_rate * (1 - d), 2)] gives 90.52, as
    Python evaluates it and in exact arithmetic. *)
Lemma car_cost_is_not_the_formula :
  Vehicle._validate_daily_rate 21.30 = ok (Vehicle.daily_rate Scenario.CAR002)
  /\ 0 <= 0.15 <= 1
  /\ Float.calculate_rental_cost Scenario.CAR002 Scenario.jan_01_05 0.15
     == 90.53
  /\ Reference.pass_through_cost_float
       (RentalPeriod.calculate_duration Scenario.jan_01_05)
       (Vehicle.daily_rate Scenario.CAR002) 0.15 == 90.52
  /\ Reference.pass_through_cost
       (RentalPeriod.calculate_duration Scenario.jan_01_05)
       (Vehicle.daily_rate Scenario.CAR002) 0.15 == 90.52
  /\ ~ Reference.car_cost_as_specified Scenario.CAR002 Scenario.jan_01_05 0.15.
Proof.
  split; [reflexivity|]. split; [split; discriminate|].
  split; [vm_compute; reflexivity|]. split; [vm_compute; reflexivity|].
  split; [vm_compute; reflexivity|].
  unfold Reference.car_cost_as_specified. now vm_compute.
Qed.

(** C10, amended.  For every base cost [c >= 0] and every discount [d],
    also below 0 or above 1, [apply_discount c d] is
    [round(c - c * min(1, max(0, d)), 2)], computed in floats: the
    discount is clamped, not rejected.  A discount of 0 or less gives
    [round(c, 2)], a discount of 1 or more gives 0, and the result
    always lies between 0 and [round(c, 2)]. *)
Theorem apply_discount_clamps :
  forall c d : Q,
    0 <= c ->
    Float.apply_discount c d
    = round2 (fsub c (fmul c (Reference.fclamp01 d)))
    /\ 0 <= Float.apply_discount c d <= round2 (binary64 c)
    /\ (d <= 0 -> Float.apply_discount c d = round2 (binary64 c))
    /\ (1 <= d -> Float.apply_discount c d = round2 0).
Proof.
  intros c d Hc. rewrite apply_discount_float_unfold.
  pose proof (effective_discount_float_range d) as R.
  pose proof (binary64_nonneg c Hc) as C.
  pose proof (discount_amount_range c _ Hc R) as [A0 A1].
  assert (I : binary64 (fmul c (Float.effective_discount d))
              == fmul c (Float.effective_discount d))
    by (unfold fmul; apply binary64_idem).
  split; [|split; [|split]].
  - apply round2_comp, fsub_comp; [reflexivity|].
    apply binary64_comp, fmul_comp; [reflexivity|].
    apply effective_discount_float_clamp.
  - split.
    + apply round2_nonneg. unfold fsub. apply binary64_nonneg. lra.
    + apply round2_mono. unfold fsub.
      apply Qle_trans with (binary64 (binary64 c)).
      * apply binary64_mono. lra.
      * rewrite binary64_idem. apply Qle_refl.
  - intros L. apply round2_comp. unfold fsub.
    assert (Z0 : fmul c (Float.effective_discount d) == 0).
    { unfold fmul.
      apply Qeq_trans with (binary64 0); [|now rewrite binary64_0].
      apply binary64_comp.
      rewrite (effective_discount_float_low d L). ring. }
    apply Qeq_trans with (binary64 (binary64 c)); [|apply binary64_idem].
    apply binary64_comp. rewrite I, Z0. ring.
  - intros L. apply round2_comp. unfold fsub.
    assert (Z1 : fmul c (Float.effective_discount d) == binary64 c).
    { unfold fmul.
      apply Qeq_trans with (binary64 (binary64 c)); [|apply binary64_idem].
      apply binary64_comp.
      rewrite (effective_discount_float_high d L). ring. }
    apply Qeq_trans with (binary64 0); [|now rewrite binary64_0].
    apply binary64_comp. rewrite I, Z1. ring.
Qed.

Lemma apply_discount_clamps_witness :
  Float.apply_discount 325.00 1.5 = round2 0
  /\ Float.apply_discount 325.00 (-0.5) = round2 (binary64 325.00).
Proof.
  destruct (apply_discount_clamps 325.00 1.5) as (_ & _ & _ & H);
    [discriminate|].
  destruct (apply_discount_clamps 325.00 (-0.5)) as (_ & _ & L & _);
    [discriminate|].
  split; [apply H | apply L]; discriminate.
Defined.

(** C10 as written fails, in its bound and in its equation.  A motorbike
    at 65.15 a day with the premium 1.05 passes the base cost
    [65.15 * 1.05], a float above 68.4075, for one day; with no discount
    it comes back as 68.41, above the base cost.  The base cost 1.5 with
    the discount 0.05 comes back as 1.43: [1.5 - 1.5 * 0.05] is a float
    above 1.425, where [round(1.5 * (1 - 0.05), 2)] is 1.42, as Python
    evaluates it and in exact arithmetic. *)
Lemma apply_discount_not_as_specified :
  Float.apply_discount
    (fmul 65.15 (Float.premium_multiplier 300 "Standard" false)) 0 == 68.41
  /\ ~ Reference.discount_bound_as_specified
         (fmul 65.15 (Float.premium_multiplier 300 "Standard" false)) 0
  /\ Float.apply_discount 68.4075 0 == 68.41
  /\ ~ Reference.discount_bound_as_specified 68.4075 0
  /\ Float.apply_discount 1.5 0.05 == 1.43
  /\ Reference.discounted_cost_float 1.5 0.05 == 1.42
  /\ Reference.discounted_cost 1.5 0.05 == 1.42
  /\ ~ Reference.discount_bound_as_specified 1.5 0.05.
Proof.
  split; [vm_compute; reflexivity|].
  split; [intros (_ & _ & U); revert U; now vm_compute|].
  split; [vm_compute; reflexivity|].
  split; [intros (_ & _ & U); revert U; now vm_compute|].
  split; [vm_compute; reflexivity|].
  split; [vm_compute; reflexivity|].
  split; [vm_compute; reflexivity|].
  intros (E & _). revert E. now vm_compute.
Qed.

End Costs.

(** ** Rental periods *)

Section Periods.

Lemma validate_and_parse_date_ok (now : datetime) (s : string) (a : bool)
    (d : datetime) :
  RentalPeriod._validate_and_parse_date now s a = ok d ->
  RentalPeriod.parses_to s d.
Proof.
  unfold RentalPeriod._validate_and_parse_date, RentalPeriod.parses_to.
  destruct (strptime (strip s)) as [d0|]; [|discriminate].
  destruct ((year d0 <? RentalPeriod.MIN_YEAR)
            || (year d0 >? RentalPeriod.MAX_YEAR)) eqn:Y; [discriminate|].
  destruct (negb a && dt_lt d0 now); [discriminate|].
  intros E. injection E as <-. split; [reflexivity|].
  apply orb_false_iff in Y. destruct Y as [Y1 Y2].
  apply Z.ltb_ge in Y1. rewrite Z.gtb_ltb in Y2. apply Z.ltb_ge in Y2. lia.
Qed.

Lemma validate_and_parse_date_past (now : datetime) (s : string)
    (d : datetime) :
  RentalPeriod.parses_to s d ->
  RentalPeriod._validate_and_parse_date now s true = ok d.
Proof.
  intros [P [Y1 Y2]]. unfold RentalPeriod._validate_and_parse_date.
  rewrite P.
  replace (year d <? RentalPeriod.MIN_YEAR) with false
    by (symmetry; apply Z.ltb_ge; lia).
  replace (year d >? RentalPeriod.MAX_YEAR) with false
    by (symmetry; rewrite Z.gtb_ltb; apply Z.ltb_ge; lia).
  reflexivity.
Qed.

(** The constructor only returns valid periods. *)
Lemma init_valid (now : datetime) (s e : string) (a : bool)
    (p : RentalPeriod.t) :
  RentalPeriod.init now s e a = ok p -> RentalPeriod.valid p.
Proof.
  unfold RentalPeriod.init, RentalPeriod.init_in, bind.
  destruct (RentalPeriod._validate_and_parse_date now s a) as [|sd] eqn:S;
    [discriminate|].
  destruct (RentalPeriod._validate_and_parse_date now e a) as [|ed] eqn:E;
    [discriminate|].
  destruct (dt_gt sd ed) eqn:G; [discriminate|].
  intros H. injection H as <-.
  repeat split; simpl;
    try (eapply validate_and_parse_date_ok; eassumption).
  unfold dt_gt, dt_lt in G. apply Z.ltb_ge in G. exact G.
Qed.

(** Building a period from the strings of a valid period, past dates
    allowed, gives its dates again, whatever the clock says; the class is
    the one of the module that builds. *)
Lemma init_in_of_valid (now : datetime) (m : RentalPeriod.module_name)
    (p : RentalPeriod.t) :
  RentalPeriod.valid p ->
  RentalPeriod.init_in now m (RentalPeriod.start_date p)
                       (RentalPeriod.end_date p) true
  = ok (RentalPeriod.mk m (RentalPeriod.start_date p)
          (RentalPeriod.end_date p) (RentalPeriod.start_date_obj p)
          (RentalPeriod.end_date_obj p)).
Proof.
  intros (S & E & L). unfold RentalPeriod.init_in, bind.
  rewrite (validate_and_parse_date_past now _ _ S).
  rewrite (validate_and_parse_date_past now _ _ E).
  unfold ok, dt_gt, dt_lt. cbv beta iota.
  replace (toordinal (RentalPeriod.end_date_obj p)
           <? toordinal (RentalPeriod.start_date_obj p)) with false
    by (symmetry; apply Z.ltb_ge; exact L).
  reflexivity.
Qed.

(** For a period of the class of [rental_period], that is the period
    itself. *)
Lemma init_of_valid (now : datetime) (p : RentalPeriod.t) :
  RentalPeriod.valid p ->
  RentalPeriod.cls p = RentalPeriod.rental_period ->
  RentalPeriod.init now (RentalPeriod.start_date p) (RentalPeriod.end_date p)
                    true = ok p.
Proof.
  intros V C. unfold RentalPeriod.init.
  rewrite (init_in_of_valid now _ p V). destruct p; simpl in C.
  now rewrite C.
Qed.

Lemma overlaps_with_sym (p q : RentalPeriod.t) :
  RentalPeriod.overlaps_with p q = RentalPeriod.overlaps_with q p.
Proof.
  unfold RentalPeriod.overlaps_with, RentalPeriod.get_start_date_obj,
    RentalPeriod.get_end_date_obj.
  now rewrite orb_comm.
Qed.

Lemma overlaps_with_refl (p : RentalPeriod.t) :
  RentalPeriod.valid p -> RentalPeriod.overlaps_with p p = true.
Proof.
  intros (_ & _ & L).
  unfold RentalPeriod.overlaps_with, RentalPeriod.get_start_date_obj,
    RentalPeriod.get_end_date_obj, dt_lt.
  replace (toordinal (RentalPeriod.end_date_obj p)
           <? toordinal (RentalPeriod.start_date_obj p)) with false
    by (symmetry; apply Z.ltb_ge; exact L).
  reflexivity.
Qed.

Lemma duration_positive (p : RentalPeriod.t) :
  RentalPeriod.valid p -> 1 <= RentalPeriod.calculate_duration p.
Proof.
  intros (_ & _ & L). unfold RentalPeriod.calculate_duration, days_between.
  lia.
Qed.

End Periods.

(** ** The ledger of a vehicle *)

Section Ledger.

Variable now : datetime.

(** [overlaps_with] raises exactly when the two periods are of
    different classes. *)
Lemma call_overlaps_with_same (q ex : RentalPeriod.t) :
  RentalPeriod.cls ex = RentalPeriod.cls q ->
  RentalPeriod.call_overlaps_with q ex = ok (RentalPeriod.overlaps_with q ex).
Proof.
  intros C. unfold RentalPeriod.call_overlaps_with, RentalPeriod.isinstance.
  rewrite C. now destruct (RentalPeriod.cls q).
Qed.

Lemma call_overlaps_with_other (q ex : RentalPeriod.t) :
  RentalPeriod.cls ex <> RentalPeriod.cls q ->
  exists err, RentalPeriod.call_overlaps_with q ex = raise err.
Proof.
  intros C. unfold RentalPeriod.call_overlaps_with, RentalPeriod.isinstance.
  destruct (RentalPeriod.cls ex), (RentalPeriod.cls q); simpl.
  - now contradiction C.
  - exists (TypeError "Can only check overlap with another RentalPeriod object").
    reflexivity.
  - exists (TypeError "Can only check overlap with another RentalPeriod object").
    reflexivity.
  - now contradiction C.
Qed.

Lemma init_cls (s e : string) (a : bool) (p : RentalPeriod.t) :
  RentalPeriod.init now s e a = ok p ->
  RentalPeriod.cls p = RentalPeriod.rental_period.
Proof.
  unfold RentalPeriod.init, RentalPeriod.init_in, bind.
  destruct (RentalPeriod._validate_and_parse_date now s a); [discriminate|].
  destruct (RentalPeriod._validate_and_parse_date now e a); [discriminate|].
  destruct (dt_gt _ _); [discriminate|].
  intros H. now injection H as <-.
Qed.

Lemma is_available_loop_app (q : RentalPeriod.t)
    (l l' : list Vehicle.rental_dict) :
  Vehicle.is_available_loop now q (l ++ l')
  = Vehicle.is_available_loop now q l && Vehicle.is_available_loop now q l'.
Proof.
  induction l as [|d l IH]; [reflexivity|].
  simpl.
  destruct (RentalPeriod.init now _ _ true) as [|ex]; [exact IH|].
  destruct (RentalPeriod.call_overlaps_with q ex) as [|[|]];
    [exact IH | reflexivity | exact IH].
Qed.

(** A period of the other class, the one of [models.rental_period], is
    never found to overlap: every entry is skipped. *)
Lemma is_available_loop_other_class (q : RentalPeriod.t)
    (l : list Vehicle.rental_dict) :
  RentalPeriod.cls q <> RentalPeriod.rental_period ->
  Vehicle.is_available_loop now q l = true.
Proof.
  intros C. induction l as [|d l IH]; [reflexivity|].
  simpl.
  destruct (RentalPeriod.init now _ _ true) as [|ex] eqn:I; [exact IH|].
  destruct (call_overlaps_with_other q ex) as [err ->]; [|exact IH].
  rewrite (init_cls _ _ _ _ I). intros E. apply C. now symmetry.
Qed.

Lemma is_available_loop_covers (p q : RentalPeriod.t)
    (d : Vehicle.rental_dict) (l : list Vehicle.rental_dict) :
  RentalPeriod.valid p -> Vehicle.covers p d ->
  RentalPeriod.cls q = RentalPeriod.rental_period ->
  Vehicle.is_available_loop now q (d :: l)
  = negb (RentalPeriod.overlaps_with q p)
    && Vehicle.is_available_loop now q l.
Proof.
  intros V (S & E & A) C. simpl.
  assert (X : match Vehicle.actual_end_date d with
              | Some actual =>
                  if String.eqb (Vehicle.status d) "completed"
                  then actual else Vehicle.end_date d
              | None => Vehicle.end_date d
              end = RentalPeriod.end_date p).
  { destruct A as [-> | ->]; [exact E|].
    destruct (String.eqb _ _); [reflexivity | exact E]. }
  rewrite X, S. unfold RentalPeriod.init.
  rewrite (init_in_of_valid now _ p V). unfold ok.
  rewrite call_overlaps_with_same by (now rewrite C).
  unfold ok.
  change (RentalPeriod.overlaps_with q
            (RentalPeriod.mk RentalPeriod.rental_period
               (RentalPeriod.start_date p) (RentalPeriod.end_date p)
               (RentalPeriod.start_date_obj p) (RentalPeriod.end_date_obj p)))
    with (RentalPeriod.overlaps_with q p).
  destruct (RentalPeriod.overlaps_with q p); reflexivity.
Qed.

(** Where [q] does not overlap the covering entry, whatever the class of
    [q], the entry does not count. *)
Lemma is_available_loop_covers_free (p q : RentalPeriod.t)
    (d : Vehicle.rental_dict) (l : list Vehicle.rental_dict) :
  RentalPeriod.valid p -> Vehicle.covers p d ->
  RentalPeriod.overlaps_with q p = false ->
  Vehicle.is_available_loop now q (d :: l)
  = Vehicle.is_available_loop now q l.
Proof.
  intros V C O.
  destruct (RentalPeriod.cls q) eqn:K.
  - now rewrite (is_available_loop_covers p q d l V C K), O.
  - rewrite !is_available_loop_other_class; [reflexivity | |];
      rewrite K; discriminate.
Qed.

Lemma add_rental_inv (v v1 : Vehicle.t) (p : RentalPeriod.t) (r : string) :
  Vehicle.add_rental now v p r = ok v1 ->
  Vehicle.is_available now v p = true
  /\ v1 = Vehicle.with_ledger v
            (Vehicle.rental_periods v
             ++ [Vehicle.mk_rental (RentalPeriod.start_date p)
                   (RentalPeriod.end_date p)
                   (RentalPeriod.calculate_duration p) r "active" None])
            (Vehicle.rental_history v
             ++ [Vehicle.mk_rental (RentalPeriod.start_date p)
                   (RentalPeriod.end_date p)
                   (RentalPeriod.calculate_duration p) r "active" None]).
Proof.
  unfold Vehicle.add_rental.
  destruct (Vehicle.is_available now v p); simpl; [|discriminate].
  intros E. injection E as <-. split; reflexivity.
Qed.

Lemma add_rental_available (v : Vehicle.t) (p : RentalPeriod.t) (r : string) :
  Vehicle.is_available now v p = true ->
  exists v1, Vehicle.add_rental now v p r = ok v1.
Proof.
  intros A. unfold Vehicle.add_rental. rewrite A. simpl. now eexists.
Qed.

Lemma add_rental_unavailable (v : Vehicle.t) (p : RentalPeriod.t)
    (r : string) :
  Vehicle.is_available now v p = false ->
  Vehicle.add_rental now v p r
  = raise (VehicleNotAvailableError (Vehicle.vehicle_id v)
             (RentalPeriod.start_date p) (RentalPeriod.end_date p)).
Proof.
  intros A. unfold Vehicle.add_rental. rewrite A. reflexivity.
Qed.

(** A ledger with an entry covering [p] is not available for any period
    of the class of [rental_period] that overlaps [p]. *)
Lemma is_available_loop_blocked (p q : RentalPeriod.t)
    (l1 l2 : list Vehicle.rental_dict) (d : Vehicle.rental_dict) :
  RentalPeriod.valid p -> Vehicle.covers p d ->
  RentalPeriod.cls q = RentalPeriod.rental_period ->
  RentalPeriod.overlaps_with q p = true ->
  Vehicle.is_available_loop now q (l1 ++ d :: l2) = false.
Proof.
  intros V C K O.
  rewrite is_available_loop_app, (is_available_loop_covers p q d l2 V C K), O.
  simpl. apply andb_false_r.
Qed.

End Ledger.

Section UpdateFirst.

Lemma update_first_split (f : Vehicle.rental_dict -> bool)
    (g : Vehicle.rental_dict -> Vehicle.rental_dict)
    (l l' : list Vehicle.rental_dict) :
  Vehicle.update_first f g l = Some l' ->
  exists l1 d l2,
    l = l1 ++ d :: l2 /\ f d = true /\ l' = l1 ++ g d :: l2
    /\ forallb (fun x => negb (f x)) l1 = true.
Proof.
  revert l'. induction l as [|x l IH]; intros l'; simpl; [discriminate|].
  destruct (f x) eqn:F.
  - intros E. injection E as <-. exists [], x, l. auto.
  - destruct (Vehicle.update_first f g l) as [l0|]; simpl; [|discriminate].
    intros E. injection E as <-.
    destruct (IH l0 eq_refl) as (l1 & d & l2 & -> & Fd & -> & N).
    exists (x :: l1), d, l2. simpl. rewrite F. auto.
Qed.

Lemma update_first_app_last (f : Vehicle.rental_dict -> bool)
    (g : Vehicle.rental_dict -> Vehicle.rental_dict)
    (l : list Vehicle.rental_dict) (e : Vehicle.rental_dict) :
  existsb f l = false -> f e = true ->
  Vehicle.update_first f g (l ++ [e]) = Some (l ++ [g e]).
Proof.
  intros N F. induction l as [|x l IH]; simpl.
  - now rewrite F.
  - simpl in N. apply orb_false_iff in N. destruct N as [Nx Nl].
    rewrite Nx, (IH Nl). reflexivity.
Qed.

Lemma entry_matches_active (p : RentalPeriod.t) (d : Vehicle.rental_dict) :
  Vehicle.entry_matches p "active" d = true ->
  Vehicle.start_date d = RentalPeriod.start_date p
  /\ Vehicle.end_date d = RentalPeriod.end_date p
  /\ Vehicle.status d = "active"%string.
Proof.
  unfold Vehicle.entry_matches, RentalPeriod.get_start_date,
    RentalPeriod.get_end_date.
  intros H. apply andb_true_iff in H. destruct H as [H S].
  apply andb_true_iff in H. destruct H as [A B].
  apply String.eqb_eq in A, B, S. auto.
Qed.

Lemma no_active_no_match (p : RentalPeriod.t)
    (l : list Vehicle.rental_dict) :
  existsb (fun d => String.eqb (Vehicle.status d) "active") l = false ->
  existsb (Vehicle.entry_matches p "active") l = false.
Proof.
  induction l as [|x l IH]; simpl; [reflexivity|].
  intros H. apply orb_false_iff in H. destruct H as [Hx Hl].
  unfold Vehicle.entry_matches at 1. rewrite Hx, andb_false_r. simpl. auto.
Qed.

(** What a successful [remove_rental] leaves in the ledger: the first
    active entry for the period, now completed with an actual return
    date, in its place. *)
Lemma remove_rental_inv (v v' : Vehicle.t) (p : RentalPeriod.t)
    (a : option string) :
  Vehicle.remove_rental v p a = (v', true) ->
  exists l1 d l2,
    Vehicle.rental_periods v = l1 ++ d :: l2
    /\ Vehicle.entry_matches p "active" d = true
    /\ Vehicle.rental_periods v'
       = l1 ++ Vehicle.mark_completed p a d :: l2
    /\ Vehicle.vehicle_id v' = Vehicle.vehicle_id v.
Proof.
  unfold Vehicle.remove_rental.
  destruct (Vehicle.update_first _ _ (Vehicle.rental_periods v)) as [l'|] eqn:U;
    [|discriminate].
  intros E. injection E as <-.
  destruct (update_first_split _ _ _ _ U) as (l1 & d & l2 & A & F & B & _).
  exists l1, d, l2. auto.
Qed.

End UpdateFirst.

(** ** Double booking *)

(** After a booking of the valid period [p], the vehicle is taken for
    every period of the class of [rental_period] that overlaps [p]. *)
Lemma booked_then_unavailable (now now' : datetime) (v v1 : Vehicle.t)
    (p q : RentalPeriod.t) (r : string) :
  RentalPeriod.valid p ->
  RentalPeriod.cls q = RentalPeriod.rental_period ->
  RentalPeriod.overlaps_with q p = true ->
  Vehicle.add_rental now v p r = ok v1 ->
  Vehicle.is_available now' v1 q = false.
Proof.
  intros V K O A. destruct (add_rental_inv now v v1 p r A) as [_ ->].
  unfold Vehicle.is_available, Vehicle.with_ledger; simpl.
  apply (is_available_loop_blocked now' p q _ [] _ V); [|exact K | exact O].
  repeat split; auto.
Qed.

(** For a period of the other class every vehicle is available, and
    [add_rental] books it. *)
Lemma other_class_always_available (now : datetime) (v : Vehicle.t)
    (q : RentalPeriod.t) (r : string) :
  RentalPeriod.cls q = RentalPeriod.models_rental_period ->
  Vehicle.is_available now v q = true
  /\ exists v1, Vehicle.add_rental now v q r = ok v1.
Proof.
  intros K.
  assert (A : Vehicle.is_available now v q = true).
  { apply is_available_loop_other_class. rewrite K. discriminate. }
  split; [exact A|]. unfold Vehicle.add_rental. rewrite A. now eexists.
Qed.

Lemma find_replace_first {A : Type} (f : A -> bool) (x y : A) (l : list A) :
  find f l = Some y -> f x = true ->
  find f (VehicleRental.replace_first f x l) = Some x.
Proof.
  intros F X. induction l as [|z l IH]; simpl in *; [discriminate|].
  destruct (f z) eqn:Z; simpl.
  - now rewrite X.
  - rewrite Z. auto.
Qed.

(** What a successful [rent_vehicles] did. *)
Lemma rent_vehicles_success (now : datetime) (e e1 : VehicleRental.t)
    (vid rid : string) (p : RentalPeriod.t) :
  VehicleRental.rent_vehicles now e vid rid p = (e1, true) ->
  exists v r v1,
    VehicleRental._find_vehicle_by_id e vid = Some v
    /\ VehicleRental._find_renter_by_id e rid = Some r
    /\ Vehicle.add_rental now v p rid = ok v1
    /\ e1 = VehicleRental.store_renter
              (VehicleRental.store_vehicle e vid v1) rid
              (Renter.add_rental r vid p
                 (Float.calculate_rental_cost v p
                    (Renter.calculate_discount r p))).
Proof.
  unfold VehicleRental.rent_vehicles.
  destruct (VehicleRental._find_vehicle_by_id e vid) as [v|]; [|discriminate].
  destruct (VehicleRental._find_renter_by_id e rid) as [r|]; [|discriminate].
  destruct (negb (Renter.can_rent_vehicle r _)); [discriminate|].
  destruct (negb (Vehicle.is_available now v p)); [discriminate|].
  destruct (Vehicle.add_rental now v p rid) as [|v1] eqn:A; [discriminate|].
  intros E. injection E as <-. exists v, r, v1. auto.
Qed.

Lemma find_vehicle_after_rent (now : datetime) (e e1 : VehicleRental.t)
    (vid rid : string) (p : RentalPeriod.t) :
  VehicleRental.rent_vehicles now e vid rid p = (e1, true) ->
  exists v v1,
    VehicleRental._find_vehicle_by_id e vid = Some v
    /\ Vehicle.add_rental now v p rid = ok v1
    /\ VehicleRental._find_vehicle_by_id e1 vid = Some v1.
Proof.
  intros R.
  destruct (rent_vehicles_success _ _ _ _ _ _ R) as (v & r & v1 & Fv & _ & A & ->).
  exists v, v1. repeat split; auto.
  unfold VehicleRental._find_vehicle_by_id, VehicleRental.store_renter,
    VehicleRental.store_vehicle; simpl.
  apply (find_replace_first _ v1 v); [exact Fv|].
  destruct (add_rental_inv _ _ _ _ _ A) as [_ ->].
  unfold VehicleRental._find_vehicle_by_id in Fv.
  apply find_some in Fv. apply Fv.
Qed.

Lemma rent_vehicles_unavailable (now : datetime) (e : VehicleRental.t)
    (vid rid : string) (p : RentalPeriod.t) (v : Vehicle.t) :
  VehicleRental._find_vehicle_by_id e vid = Some v ->
  Vehicle.is_available now v p = false ->
  VehicleRental.rent_vehicles now e vid rid p = (e, false).
Proof.
  intros F A. unfold VehicleRental.rent_vehicles. rewrite F, A.
  destruct (VehicleRental._find_renter_by_id e rid); [|reflexivity].
  destruct (negb (Renter.can_rent_vehicle _ _)); reflexivity.
Qed.

(** Validity of a concrete period, by evaluation. *)
Ltac valid_by_evaluation :=
  repeat split; try reflexivity; vm_compute; discriminate.

(** Two overlapping bookings of periods made from [rental_period], the
    module vehicle.py itself imports: once the first has succeeded, the
    vehicle is not available for the second, [add_rental] raises
    [VehicleNotAvailableError] and [rent_vehicles] returns [False] and
    leaves the engine as it was. *)
Lemma overlapping_bookings_same_class (now now' : datetime)
    (p1 p2 : RentalPeriod.t) (r1 r2 : string) :
  RentalPeriod.valid p1 ->
  RentalPeriod.cls p2 = RentalPeriod.rental_period ->
  RentalPeriod.overlaps_with p1 p2 = true ->
  (forall v v1 : Vehicle.t,
      Vehicle.add_rental now v p1 r1 = ok v1 ->
      Vehicle.is_available now' v1 p2 = false
      /\ Vehicle.add_rental now' v1 p2 r2
         = raise (VehicleNotAvailableError (Vehicle.vehicle_id v1)
                    (RentalPeriod.start_date p2) (RentalPeriod.end_date p2)))
  /\ (forall (e e1 : VehicleRental.t) (vid : string),
        VehicleRental.rent_vehicles now e vid r1 p1 = (e1, true) ->
        VehicleRental.rent_vehicles now' e1 vid r2 p2 = (e1, false)).
Proof.
  intros V1 K O.
  assert (O' : RentalPeriod.overlaps_with p2 p1 = true)
    by (now rewrite overlaps_with_sym).
  split.
  - intros v v1 A.
    pose proof (booked_then_unavailable now now' v v1 p1 p2 r1 V1 K O' A) as B.
    split; [exact B | now apply add_rental_unavailable].
  - intros e e1 vid R.
    destruct (find_vehicle_after_rent _ _ _ _ _ _ R) as (v & v1 & _ & A & F).
    apply (rent_vehicles_unavailable now' e1 vid r2 p2 v1 F).
    exact (booked_then_unavailable now now' v v1 p1 p2 r1 V1 K O' A).
Qed.

(** C2, at the failing input.  The two periods are built as routes.py and
    test_integration.py build them, from the class of
    [models.rental_period]; they are valid and overlap.  [is_available]
    compares a period with periods it builds from the class of
    [rental_period]: [overlaps_with] raises [TypeError], the entry is
    skipped, and the vehicle is available for every such period.  So
    both [rent_vehicles] calls return [True] and the ledger of CAR001
    holds two active rentals that overlap.  With the same two periods
    made from [rental_period] the second call returns [False]. *)
Theorem overlapping_bookings_both_succeed :
  RentalPeriod.init_in Scenario.today RentalPeriod.models_rental_period
                       "01-01-2026" "05-01-2026" false
  = ok Scenario.routes_jan_01_05
  /\ RentalPeriod.init_in Scenario.today RentalPeriod.models_rental_period
                          "03-01-2026" "08-01-2026" false
     = ok Scenario.routes_jan_03_08
  /\ RentalPeriod.call_overlaps_with Scenario.routes_jan_01_05
                                     Scenario.routes_jan_03_08 = ok true
  /\ (forall (now : datetime) (v : Vehicle.t) (q : RentalPeriod.t),
        RentalPeriod.cls q = RentalPeriod.models_rental_period ->
        Vehicle.is_available now v q = true)
  /\ (exists (e1 e2 : VehicleRental.t) (v2 : Vehicle.t),
        VehicleRental.rent_vehicles Scenario.today Scenario.system
          "CAR001" "I001" Scenario.routes_jan_01_05 = (e1, true)
        /\ VehicleRental.rent_vehicles Scenario.today e1
             "CAR001" "C001" Scenario.routes_jan_03_08 = (e2, true)
        /\ VehicleRental._find_vehicle_by_id e2 "CAR001" = Some v2
        /\ map (fun d => (Vehicle.start_date d, Vehicle.end_date d,
                          Vehicle.renter_id d, Vehicle.status d))
               (Vehicle.rental_periods v2)
           = [("01-01-2026", "05-01-2026", "I001", "active");
              ("03-01-2026", "08-01-2026", "C001", "active")]%string)
  /\ VehicleRental.rent_vehicles Scenario.today Scenario.system
       "CAR001" "I001" Scenario.jan_01_05 = (Scenario.rented, true)
  /\ VehicleRental.rent_vehicles Scenario.today Scenario.rented
       "CAR001" "C001" Scenario.jan_03_08 = (Scenario.rented, false).
Proof.
  split; [reflexivity|]. split; [reflexivity|]. split; [reflexivity|].
  split.
  - intros now v q K.
    apply (other_class_always_available now v q EmptyString K).
  - split; [|split; reflexivity].
    do 3 eexists. repeat split; vm_compute; reflexivity.
Qed.

(** ** Renting, then returning *)

Lemma is_currently_rented_after_add (now : datetime) (v v1 : Vehicle.t)
    (p : RentalPeriod.t) (r : string) :
  Vehicle.add_rental now v p r = ok v1 ->
  Vehicle.is_currently_rented v1 = true.
Proof.
  intros A. destruct (add_rental_inv _ _ _ _ _ A) as [_ ->].
  unfold Vehicle.is_currently_rented, Vehicle.with_ledger; simpl.
  rewrite existsb_app. simpl. apply orb_true_r.
Qed.

(** Renting a vehicle that has no active rental and returning it on the
    scheduled end date: the new entry is the one completed; the vehicle
    has no active rental again; and for the periods that do not overlap
    the returned one the availability is what it was before renting. *)
Lemma rent_return_frame (now : datetime) (v v1 : Vehicle.t)
    (p : RentalPeriod.t) (r : string) :
  RentalPeriod.valid p ->
  Vehicle.is_currently_rented v = false ->
  Vehicle.add_rental now v p r = ok v1 ->
  exists v2,
    Vehicle.remove_rental v1 p None = (v2, true)
    /\ Vehicle.is_currently_rented v2 = false
    /\ (forall (now' : datetime) (q : RentalPeriod.t),
          RentalPeriod.overlaps_with q p = false ->
          Vehicle.is_available now' v2 q = Vehicle.is_available now' v q).
Proof.
  intros V N A. destruct (add_rental_inv _ _ _ _ _ A) as [_ ->].
  set (e := Vehicle.mk_rental _ _ _ _ _ _).
  unfold Vehicle.remove_rental, Vehicle.with_ledger; simpl.
  assert (M : Vehicle.entry_matches p "active" e = true).
  { unfold Vehicle.entry_matches, e, RentalPeriod.get_start_date,
      RentalPeriod.get_end_date; simpl.
    now rewrite !String.eqb_refl. }
  rewrite (update_first_app_last _ _ _ e (no_active_no_match p _ N) M).
  eexists. split; [reflexivity|]. split.
  - unfold Vehicle.is_currently_rented; simpl.
    rewrite existsb_app. unfold Vehicle.is_currently_rented in N.
    rewrite N. reflexivity.
  - intros now' q O. unfold Vehicle.is_available; simpl.
    rewrite is_available_loop_app.
    rewrite (is_available_loop_covers_free now' p q _ [] V); [|split; auto|exact O].
    simpl. apply andb_true_r.
Qed.

(** C5, amended.  Renting, then returning with the scheduled end date
    ([remove_rental] without actual return date).  For a vehicle with no
    active rental, so that the new rental is its single active one: the
    return succeeds, [is_currently_rented] is false afterwards, and for
    every valid period that does not overlap the returned interval the
    availability is what it was before renting: an entry the ledger held
    before still blocks what it blocked.  For a vehicle with an empty
    ledger the renting itself succeeds and, after the return,
    [is_available q] is true for every such period [q].  In the scenario,
    after renting and returning CAR001 for 01-01-2026..05-01-2026,
    renting it for 10-01-2026..15-01-2026 succeeds. *)
Theorem rent_then_return_restores_availability :
  (forall (now : datetime) (v v1 : Vehicle.t) (p : RentalPeriod.t)
          (r : string),
      RentalPeriod.valid p ->
      Vehicle.is_currently_rented v = false ->
      Vehicle.add_rental now v p r = ok v1 ->
      Vehicle.is_currently_rented v1 = true
      /\ exists v2,
          Vehicle.remove_rental v1 p None = (v2, true)
          /\ Vehicle.is_currently_rented v2 = false
          /\ (forall (now' : datetime) (q : RentalPeriod.t),
                RentalPeriod.valid q ->
                RentalPeriod.overlaps_with q p = false ->
                Vehicle.is_available now' v2 q
                = Vehicle.is_available now' v q))
  /\ (forall (now : datetime) (v : Vehicle.t) (p : RentalPeriod.t)
             (r : string),
      RentalPeriod.valid p ->
      Vehicle.rental_periods v = [] ->
      exists v1 v2,
        Vehicle.add_rental now v p r = ok v1
        /\ Vehicle.is_currently_rented v1 = true
        /\ Vehicle.remove_rental v1 p None = (v2, true)
        /\ Vehicle.is_currently_rented v2 = false
        /\ (forall (now' : datetime) (q : RentalPeriod.t),
              RentalPeriod.valid q ->
              RentalPeriod.overlaps_with q p = false ->
              Vehicle.is_available now' v2 q = true))
  /\ (exists e1 e2 e3 : VehicleRental.t,
        VehicleRental.rent_vehicles Scenario.today Scenario.system
          "CAR001" "I001" Scenario.jan_01_05 = (e1, true)
        /\ VehicleRental.return_vehicles Scenario.today e1
             "CAR001" "I001" Scenario.jan_01_05 = (e2, true)
        /\ VehicleRental.rent_vehicles Scenario.today e2
             "CAR001" "I001" Scenario.jan_10_15 = (e3, true)).
Proof.
  split; [|split].
  - intros now v v1 p r V N A.
    split; [eapply is_currently_rented_after_add; eassumption|].
    destruct (rent_return_frame now v v1 p r V N A) as (v2 & R & C & F).
    exists v2. repeat split; auto.
  - intros now v p r V E.
    assert (N : Vehicle.is_currently_rented v = false)
      by (unfold Vehicle.is_currently_rented; now rewrite E).
    assert (A0 : forall now' q, Vehicle.is_available now' v q = true)
      by (intros; unfold Vehicle.is_available; now rewrite E).
    destruct (add_rental_available now v p r (A0 now p)) as [v1 A].
    destruct (rent_return_frame now v v1 p r V N A) as (v2 & R & C & F).
    exists v1, v2. repeat split; auto.
    + eapply is_currently_rented_after_add; eassumption.
    + intros now' q _ O. rewrite (F now' q O). apply A0.
  - do 3 eexists. repeat split; vm_compute; reflexivity.
Qed.

Lemma rent_then_return_restores_availability_witness :
  exists v1 v2 : Vehicle.t,
    Vehicle.add_rental Scenario.today Scenario.CAR001 Scenario.jan_01_05
                       "I001" = ok v1
    /\ Vehicle.is_currently_rented v1 = true
    /\ Vehicle.remove_rental v1 Scenario.jan_01_05 None = (v2, true)
    /\ Vehicle.is_currently_rented v2 = false
    /\ Vehicle.is_available Scenario.today v2 Scenario.jan_10_15 = true.
Proof.
  assert (V1 : RentalPeriod.valid Scenario.jan_01_05) by valid_by_evaluation.
  assert (V2 : RentalPeriod.valid Scenario.jan_10_15) by valid_by_evaluation.
  destruct (proj1 (proj2 rent_then_return_restores_availability)
              Scenario.today Scenario.CAR001 Scenario.jan_01_05 "I001"
              V1 eq_refl) as (v1 & v2 & A & C1 & R & C2 & F).
  exists v1, v2. repeat split; auto.
Defined.

(** C5 as written fails.  CAR001 has been rented for
    10-01-2026..15-01-2026 and returned: its ledger holds that entry,
    completed.  It is now rented for 01-01-2026..05-01-2026, its single
    active rental, and returned with the scheduled end date.  The period
    10-01-2026..15-01-2026 is valid and does not overlap the returned
    interval, and the vehicle is not available for it: the earlier
    completed entry still blocks it. *)
Lemma earlier_completed_entry_still_blocks :
  exists v1 v2 : Vehicle.t,
    map Vehicle.status (Vehicle.rental_periods Scenario.CAR001_returned)
    = ["completed"%string]
    /\ Vehicle.add_rental Scenario.today Scenario.CAR001_returned
                          Scenario.jan_01_05 "I001" = ok v1
    /\ map Vehicle.status (Vehicle.rental_periods v1)
       = ["completed"; "active"]%string
    /\ Vehicle.remove_rental v1 Scenario.jan_01_05 None = (v2, true)
    /\ Vehicle.is_currently_rented v2 = false
    /\ RentalPeriod.valid Scenario.jan_10_15
    /\ RentalPeriod.call_overlaps_with Scenario.jan_10_15 Scenario.jan_01_05
       = ok false
    /\ Vehicle.is_available Scenario.today v2 Scenario.jan_10_15 = false.
Proof.
  do 2 eexists.
  split; [reflexivity|]. split; [reflexivity|]. split; [reflexivity|].
  split; [reflexivity|]. split; [reflexivity|].
  split; [valid_by_evaluation|]. split; reflexivity.
Qed.

(** ** Renter at capacity *)

(** C7.  When [rent_vehicles] finds the vehicle and the renter and the
    renter cannot rent another vehicle ([can_rent_vehicle] is false), the
    call returns [False] and the engine is left as it was; so the vehicle
    has the same ledger and gives the same [is_available] answer for
    every period as before the call. *)
Theorem rent_at_capacity_changes_nothing :
  forall (now : datetime) (e : VehicleRental.t) (vid rid : string)
         (p : RentalPeriod.t) (v : Vehicle.t) (r : Renter.t),
    VehicleRental._find_vehicle_by_id e vid = Some v ->
    VehicleRental._find_renter_by_id e rid = Some r ->
    Renter.can_rent_vehicle r Renter.default_max_concurrent_rentals = false ->
    VehicleRental.rent_vehicles now e vid rid p = (e, false)
    /\ (forall (e' : VehicleRental.t) (b : bool) (v' : Vehicle.t),
          VehicleRental.rent_vehicles now e vid rid p = (e', b) ->
          VehicleRental._find_vehicle_by_id e' vid = Some v' ->
          b = false
          /\ Vehicle.rental_periods v' = Vehicle.rental_periods v
          /\ (forall (now' : datetime) (q : RentalPeriod.t),
                Vehicle.is_available now' v' q
                = Vehicle.is_available now' v q)).
Proof.
  intros now e vid rid p v r Fv Fr C.
  assert (R : VehicleRental.rent_vehicles now e vid rid p = (e, false)).
  { unfold VehicleRental.rent_vehicles. now rewrite Fv, Fr, C. }
  split; [exact R|].
  intros e' b v' R' Fv'. rewrite R in R'. injection R' as <- <-.
  rewrite Fv in Fv'. injection Fv' as <-. auto.
Qed.

Lemma rent_at_capacity_changes_nothing_witness :
  VehicleRental.rent_vehicles Scenario.today Scenario.busy_system
    "CAR001" "I002" Scenario.jan_01_05 = (Scenario.busy_system, false).
Proof.
  apply (rent_at_capacity_changes_nothing Scenario.today
           Scenario.busy_system "CAR001" "I002" Scenario.jan_01_05
           Scenario.CAR001 Scenario.I002); reflexivity.
Defined.

(** ** Returning: the rollback *)

(** When the vehicle side of a return succeeds and the renter side fails,
    the rollback of [return_vehicles] books the period again with
    [add_rental].  For a period of the class of [rental_period] the entry
    just completed still covers the period, so [add_rental] raises and
    the entry stays completed. *)
Lemma return_vehicles_rollback_raises (now : datetime) (e : VehicleRental.t)
    (vid rid : string) (p : RentalPeriod.t) (v v' : Vehicle.t)
    (r : Renter.t) :
  RentalPeriod.valid p ->
  RentalPeriod.cls p = RentalPeriod.rental_period ->
  VehicleRental._find_vehicle_by_id e vid = Some v ->
  VehicleRental._find_renter_by_id e rid = Some r ->
  Vehicle.remove_rental v p None = (v', true) ->
  snd (Renter.complete_rental r vid p) = false ->
  VehicleRental.return_vehicles now e vid rid p
  = (VehicleRental.store_vehicle e vid v', false).
Proof.
  intros V K Fv Fr R C.
  destruct (remove_rental_inv _ _ _ _ R) as (l1 & d & l2 & P & M & P' & _).
  destruct (entry_matches_active _ _ M) as (S & E & A).
  assert (T : Vehicle.is_currently_rented v = true).
  { unfold Vehicle.is_currently_rented. rewrite P, existsb_app. simpl.
    rewrite A. simpl. apply orb_true_r. }
  assert (U : Vehicle.is_available now v' p = false).
  { unfold Vehicle.is_available. rewrite P'.
    apply (is_available_loop_blocked now p p); auto.
    - repeat split; simpl; auto.
    - now apply overlaps_with_refl. }
  unfold VehicleRental.return_vehicles. rewrite Fv, Fr, T, R. simpl.
  destruct (Renter.complete_rental r vid p) as [r' b]. simpl in C. subst b.
  now rewrite (add_rental_unavailable now v' p rid U).
Qed.

(** For a period of the other class the rollback books the period a
    second time: the completed entry stays completed and a new active
    entry is appended after it. *)
Lemma return_vehicles_rollback_books_again (now : datetime)
    (e : VehicleRental.t) (vid rid : string) (p : RentalPeriod.t)
    (v v' : Vehicle.t) (r : Renter.t) :
  RentalPeriod.cls p = RentalPeriod.models_rental_period ->
  VehicleRental._find_vehicle_by_id e vid = Some v ->
  VehicleRental._find_renter_by_id e rid = Some r ->
  Vehicle.is_currently_rented v = true ->
  Vehicle.remove_rental v p None = (v', true) ->
  snd (Renter.complete_rental r vid p) = false ->
  exists v'' : Vehicle.t,
    Vehicle.add_rental now v' p rid = ok v''
    /\ Vehicle.rental_periods v''
       = Vehicle.rental_periods v'
         ++ [Vehicle.mk_rental (RentalPeriod.start_date p)
               (RentalPeriod.end_date p) (RentalPeriod.calculate_duration p)
               rid "active" None]
    /\ VehicleRental.return_vehicles now e vid rid p
       = (VehicleRental.store_vehicle
            (VehicleRental.store_vehicle e vid v') vid v'', false).
Proof.
  intros K Fv Fr T R C.
  destruct (other_class_always_available now v' p rid K) as [_ [v'' A]].
  exists v''. split; [exact A|]. split.
  - destruct (add_rental_inv _ _ _ _ _ A) as [_ ->]. reflexivity.
  - unfold VehicleRental.return_vehicles. rewrite Fv, Fr, T, R. simpl.
    destruct (Renter.complete_rental r vid p) as [r' b]. simpl in C. subst b.
    now rewrite A.
Qed.

(** [restore_active_rental], the operation written for this rollback,
    does undo [remove_rental] in the scenario. *)
Lemma restore_active_rental_undoes_return :
  forall v : Vehicle.t,
    VehicleRental._find_vehicle_by_id Scenario.rented "CAR001" = Some v ->
    Vehicle.restore_active_rental
      (fst (Vehicle.remove_rental v Scenario.jan_01_05 None))
      Scenario.jan_01_05
    = (v, true).
Proof. intros v E. injection E as <-. reflexivity. Qed.

(** C1, at the failing input.  CAR001 is rented by I001 for
    01-01-2026..05-01-2026 and C001, who holds no rental, returns it: the
    vehicle-side completion succeeds, the renter-side completion fails,
    [return_vehicles] returns [False], and the ledger entry is left
    completed: [is_currently_rented], true before the call, is false
    after it. *)
Theorem return_rollback_leaves_entry_completed :
  exists (v v' : Vehicle.t) (e' : VehicleRental.t),
    VehicleRental._find_vehicle_by_id Scenario.rented "CAR001" = Some v
    /\ map Vehicle.status (Vehicle.rental_periods v) = ["active"%string]
    /\ Vehicle.is_currently_rented v = true
    /\ snd (Vehicle.remove_rental v Scenario.jan_01_05 None) = true
    /\ snd (Renter.complete_rental Scenario.C001 "CAR001"
              Scenario.jan_01_05) = false
    /\ VehicleRental.return_vehicles Scenario.today Scenario.rented
         "CAR001" "C001" Scenario.jan_01_05 = (e', false)
    /\ VehicleRental._find_vehicle_by_id e' "CAR001" = Some v'
    /\ map Vehicle.status (Vehicle.rental_periods v') = ["completed"%string]
    /\ Vehicle.is_currently_rented v' = false.
Proof. do 3 eexists. repeat split; vm_compute; reflexivity. Qed.

(** ** Rental records *)

(** [rent_vehicles] leaves the record list and the record counter alone. *)
Lemma rent_vehicles_keeps_records (now : datetime) (e : VehicleRental.t)
    (vid rid : string) (p : RentalPeriod.t) :
  VehicleRental.rental_records
    (fst (VehicleRental.rent_vehicles now e vid rid p))
  = VehicleRental.rental_records e
  /\ VehicleRental.next_record_id
       (fst (VehicleRental.rent_vehicles now e vid rid p))
     = VehicleRental.next_record_id e.
Proof.
  unfold VehicleRental.rent_vehicles.
  destruct (VehicleRental._find_vehicle_by_id e vid) as [v|]; [|now split].
  destruct (VehicleRental._find_renter_by_id e rid) as [r|]; [|now split].
  destruct (negb (Renter.can_rent_vehicle r _)); [now split|].
  destruct (negb (Vehicle.is_available now v p)); [now split|].
  destruct (Vehicle.add_rental now v p rid); now split.
Qed.

(** [add_rental_record] does append a record for the vehicle and the
    renter. *)
Lemma add_rental_record_appends (ts : string) (e : VehicleRental.t)
    (vid rid s f : string) (c d : Q) :
  exists (e' : VehicleRental.t) (rec : RentalRecord.t),
    VehicleRental.add_rental_record ts e vid rid s f c d = ok (e', rec)
    /\ VehicleRental.rental_records e'
       = VehicleRental.rental_records e ++ [rec]
    /\ RentalRecord.vehicle_id rec = vid
    /\ RentalRecord.renter_id rec = rid
    /\ RentalRecord.rental_cost rec = c
    /\ In rec (VehicleRental.get_rental_records_by_renter e' rid)
    /\ In rec (VehicleRental.get_rental_records_by_vehicle e' vid).
Proof.
  unfold VehicleRental.add_rental_record. simpl.
  do 2 eexists. split; [reflexivity|]. simpl. repeat split.
  - unfold VehicleRental.get_rental_records_by_renter. simpl.
    apply filter_In. split; [apply in_or_app; right; now left|].
    simpl. apply String.eqb_refl.
  - unfold VehicleRental.get_rental_records_by_vehicle. simpl.
    apply filter_In. split; [apply in_or_app; right; now left|].
    simpl. apply String.eqb_refl.
Qed.

(** C6, at the failing input.  The first rental of the scenario succeeds,
    and the engine holds no rental record afterwards: none at all, none
    for the renter, none for the vehicle. *)
Theorem rent_vehicles_creates_no_record :
  VehicleRental.rent_vehicles Scenario.today Scenario.system
    "CAR001" "I001" Scenario.jan_01_05 = (Scenario.rented, true)
  /\ VehicleRental.get_rental_records Scenario.rented = []
  /\ VehicleRental.get_rental_records_by_renter Scenario.rented "I001" = []
  /\ VehicleRental.get_rental_records_by_vehicle Scenario.rented "CAR001"
     = [].
Proof. repeat split. Qed.

(** ** Status and cost of a record *)

Lemma validate_status_valid (s st : string) :
  RentalRecord._validate_status s = ok st ->
  str_in st RentalRecord.VALID_STATUSES = true.
Proof.
  unfold RentalRecord._validate_status.
  destruct (str_in (strip (lower s)) RentalRecord.VALID_STATUSES) eqn:I;
    simpl; [|discriminate].
  intros E. injection E as <-. exact I.
Qed.

Lemma validate_status_accepts (s : string) :
  str_in s RentalRecord.VALID_STATUSES = true ->
  RentalRecord._validate_status s = ok s.
Proof.
  unfold str_in, RentalRecord.VALID_STATUSES. simpl.
  intros H. repeat (apply orb_true_iff in H; destruct H as [H | H]);
    try discriminate; apply String.eqb_eq in H; subst s; reflexivity.
Qed.

Lemma apply_update_valid (ts : string) (r r' : RentalRecord.t)
    (u : StatusUpdates.update) :
  StatusUpdates.apply_update ts r u = ok r' ->
  str_in (RentalRecord.status r') RentalRecord.VALID_STATUSES = true.
Proof.
  destruct u; simpl;
    unfold RentalRecord.mark_as_active, RentalRecord.mark_as_completed,
      RentalRecord.mark_as_overdue, RentalRecord.mark_as_cancelled,
      RentalRecord.set_status, bind;
    match goal with
    | |- context [RentalRecord._validate_status ?s] =>
        destruct (RentalRecord._validate_status s) as [|st] eqn:V
    end; try discriminate;
    intros E; injection E as <-; simpl;
    eapply validate_status_valid; eassumption.
Qed.

Lemma run_valid (ts : string) (us : list StatusUpdates.update) :
  forall r : RentalRecord.t,
    str_in (RentalRecord.status r) RentalRecord.VALID_STATUSES = true ->
    str_in (RentalRecord.status (StatusUpdates.run ts us r))
           RentalRecord.VALID_STATUSES = true.
Proof.
  induction us as [|u us IH]; intros r I; simpl; [exact I|].
  destruct (StatusUpdates.apply_update ts r u) as [|r'] eqn:A.
  - now apply IH.
  - apply IH. eapply apply_update_valid; eassumption.
Qed.

(** C8, amended.  A record built by the constructor keeps, through every
    sequence of [set_status] and [mark_as_*] calls, a status among
    pending, active, completed, cancelled and overdue.  The target of an
    update is validated, its source is not: from any status, [set_status]
    to a valid status succeeds and sets it, and each [mark_as_*] helper
    sets its own status. *)
Theorem status_updates_keep_status_valid :
  forall (ts0 : string) (record_id vehicle_id renter_id start_date
          end_date : string) (cost : Q) (status : string) (discount : Q)
         (r : RentalRecord.t),
    RentalRecord.init ts0 record_id vehicle_id renter_id start_date end_date
                      cost status discount = ok r ->
    (forall (ts : string) (us : list StatusUpdates.update),
        str_in (RentalRecord.status (StatusUpdates.run ts us r))
               RentalRecord.VALID_STATUSES = true)
    /\ (forall (ts : string) (us : list StatusUpdates.update) (s : string),
          str_in s RentalRecord.VALID_STATUSES = true ->
          exists r' : RentalRecord.t,
            RentalRecord.set_status ts (StatusUpdates.run ts us r) s = ok r'
            /\ RentalRecord.status r' = s)
    /\ (forall (ts : string) (us : list StatusUpdates.update),
          let x := StatusUpdates.run ts us r in
          (exists r', RentalRecord.mark_as_active ts x = ok r'
                      /\ RentalRecord.status r' = "active"%string)
          /\ (exists r', RentalRecord.mark_as_completed ts x = ok r'
                      /\ RentalRecord.status r' = "completed"%string)
          /\ (exists r', RentalRecord.mark_as_overdue ts x = ok r'
                      /\ RentalRecord.status r' = "overdue"%string)
          /\ (exists r', RentalRecord.mark_as_cancelled ts x = ok r'
                      /\ RentalRecord.status r' = "cancelled"%string)).
Proof.
  intros ts0 rid vid nid sd ed c st d r I.
  assert (V : str_in (RentalRecord.status r) RentalRecord.VALID_STATUSES
              = true).
  { unfold RentalRecord.init, bind in I.
    destruct (RentalRecord._validate_status st) as [|st'] eqn:E;
      [discriminate|].
    injection I as <-. simpl. eapply validate_status_valid; eassumption. }
  split; [|split].
  - intros ts us. now apply run_valid.
  - intros ts us s Hs. unfold RentalRecord.set_status, bind.
    rewrite (validate_status_accepts s Hs). eexists. split; reflexivity.
  - intros ts us x. repeat split; eexists; split; reflexivity.
Qed.

Lemma status_updates_keep_status_valid_witness :
  RentalRecord.status
    (StatusUpdates.run Scenario.stamp
       [StatusUpdates.MarkCompleted; StatusUpdates.SetStatus "bogus";
        StatusUpdates.MarkActive]
       Scenario.completed_record) = "active"%string
  /\ str_in (RentalRecord.status
       (StatusUpdates.run Scenario.stamp
          [StatusUpdates.MarkCompleted; StatusUpdates.SetStatus "bogus";
           StatusUpdates.MarkActive]
          Scenario.completed_record)) RentalRecord.VALID_STATUSES = true.
Proof.
  split; [reflexivity|].
  apply (proj1 (status_updates_keep_status_valid Scenario.stamp
                  "R00001" "CAR001" "I001" "01-01-2026" "05-01-2026"
                  325.0%Q "completed" 0.0%Q Scenario.completed_record
                  eq_refl)).
Defined.

(** C8 as written fails: [mark_as_active] moves a completed record back
    to active. *)
Lemma completed_record_reactivated :
  RentalRecord.init Scenario.stamp "R00001" "CAR001" "I001" "01-01-2026"
    "05-01-2026" 325.0%Q "completed" 0.0%Q = ok Scenario.completed_record
  /\ Reference.terminal (RentalRecord.status Scenario.completed_record) = true
  /\ RentalRecord.status
       (StatusUpdates.run Scenario.stamp [StatusUpdates.MarkActive]
          Scenario.completed_record) = "active"%string
  /\ ~ StatusUpdates.monotonic_as_specified Scenario.stamp
         Scenario.completed_record StatusUpdates.MarkActive.
Proof.
  repeat split.
  intros C. destruct (C _ eq_refl) as [L _]. revert L. now vm_compute.
Qed.

Lemma set_rental_cost_nonneg (ts : string) (r r' : RentalRecord.t) (c : Q) :
  RentalRecord.set_rental_cost ts r c = ok r' ->
  (0 <= c /\ 0 <= RentalRecord.get_rental_cost r')%Q.
Proof.
  unfold RentalRecord.set_rental_cost.
  destruct (Qle_bool 0 c) eqn:L; simpl; [|discriminate].
  intros E. injection E as <-. apply Qle_bool_iff in L.
  split; [exact L|]. simpl. now apply round2_nonneg.
Qed.

Lemma set_rental_cost_rejects_negative (ts : string) (r : RentalRecord.t)
    (c : Q) :
  (c < 0)%Q ->
  RentalRecord.set_rental_cost ts r c
  = raise (ValueError "Rental cost cannot be negative").
Proof.
  intros N. unfold RentalRecord.set_rental_cost.
  destruct (Qle_bool 0 c) eqn:L; [|reflexivity].
  apply Qle_bool_iff in L. lra.
Qed.

(** C9, at the failing input.  The constructor takes a rental cost of -5
    as it is: the record is built and [get_rental_cost] is negative.  The
    same happens through [add_rental_record]. *)
Theorem negative_cost_accepted_at_construction :
  (exists r : RentalRecord.t,
      RentalRecord.init Scenario.stamp "R00001" "CAR001" "I001"
        "01-01-2026" "05-01-2026" (-5)%Q "active" 0.0%Q = ok r
      /\ (RentalRecord.get_rental_cost r == -5)%Q
      /\ (RentalRecord.get_rental_cost r < 0)%Q)
  /\ (exists (e : VehicleRental.t) (r : RentalRecord.t),
      VehicleRental.add_rental_record Scenario.stamp Scenario.system
        "CAR001" "I001" "01-01-2026" "05-01-2026" (-5)%Q 0.0%Q = ok (e, r)
      /\ VehicleRental.get_rental_records e = [r]
      /\ (RentalRecord.get_rental_cost r < 0)%Q).
Proof.
  split; repeat eexists.
Qed.

(* ================================================================= *)
(** * Further properties of the code *)

(** ** Rental periods: construction, setters, overlap *)



(** X2.  What the constructor returns: a period that keeps the two
    strings it was given, whose dates are their parsed values with years
    between 2000 and 2100, that lasts at least one day, and that, unless
    past dates are allowed, does not start before today. *)
Theorem constructed_period_invariants :
  forall (now : datetime) (s e : string) (allow_past : bool)
         (p : RentalPeriod.t),
    RentalPeriod.init now s e allow_past = ok p ->
    RentalPeriod.get_start_date p = s
    /\ RentalPeriod.get_end_date p = e
    /\ RentalPeriod.valid p
    /\ 1 <= RentalPeriod.calculate_duration p
    /\ (allow_past = false ->
        toordinal now <= toordinal (RentalPeriod.start_date_obj p)
        /\ toordinal now <= toordinal (RentalPeriod.end_date_obj p)).
Proof.
  intros now s e a p I.
  pose proof (init_valid now s e a p I) as V.
  split; [|split; [|split; [exact V|split; [now apply duration_positive|]]]].
  - unfold RentalPeriod.init, RentalPeriod.init_in, bind in I.
    destruct (RentalPeriod._validate_and_parse_date now s a); [discriminate|].
    destruct (RentalPeriod._validate_and_parse_date now e a); [discriminate|].
    destruct (dt_gt _ _); [discriminate|]. injection I as <-. reflexivity.
  - unfold RentalPeriod.init, RentalPeriod.init_in, bind in I.
    destruct (RentalPeriod._validate_and_parse_date now s a); [discriminate|].
    destruct (RentalPeriod._validate_and_parse_date now e a); [discriminate|].
    destruct (dt_gt _ _); [discriminate|]. injection I as <-. reflexivity.
  - intros ->. unfold RentalPeriod.init, RentalPeriod.init_in, bind in I.
    destruct (RentalPeriod._validate_and_parse_date now s false) as [|sd] eqn:S;
      [discriminate|].
    destruct (RentalPeriod._validate_and_parse_date now e false) as [|ed] eqn:E;
      [discriminate|].
    destruct (dt_gt sd ed) eqn:G; [discriminate|]. injection I as <-. simpl.
    unfold RentalPeriod._validate_and_parse_date in S, E.
    destruct (strptime (strip s)) as [ds|]; [|discriminate].
    destruct (strptime (strip e)) as [de|]; [|discriminate].
    destruct ((year ds <? _) || _); [discriminate|].
    destruct ((year de <? _) || _); [discriminate|].
    simpl in S, E.
    destruct (dt_lt ds now) eqn:Ls; [discriminate|].
    destruct (dt_lt de now) eqn:Le; [discriminate|].
    injection S as <-. injection E as <-.
    unfold dt_lt in Ls, Le. apply Z.ltb_ge in Ls, Le. auto.
Qed.

Lemma constructed_period_invariants_witness :
  RentalPeriod.valid Scenario.jan_01_05
  /\ 1 <= RentalPeriod.calculate_duration Scenario.jan_01_05.
Proof.
  destruct (constructed_period_invariants Scenario.today "01-01-2026"
              "05-01-2026" false Scenario.jan_01_05 eq_refl)
    as (_ & _ & V & D & _).
  split; assumption.
Defined.

(** X3.  A period built from one date string for both ends lasts exactly
    one day. *)
Theorem same_day_period_lasts_one_day :
  forall (now : datetime) (s : string) (allow_past : bool)
         (p : RentalPeriod.t),
    RentalPeriod.init now s s allow_past = ok p ->
    RentalPeriod.calculate_duration p = 1.
Proof.
  intros now s a p I. unfold RentalPeriod.init, RentalPeriod.init_in, bind in I.
  destruct (RentalPeriod._validate_and_parse_date now s a) as [|d];
    [discriminate|].
  destruct (dt_gt d d); [discriminate|]. injection I as <-.
  unfold RentalPeriod.calculate_duration, days_between. simpl. lia.
Qed.

Lemma same_day_period_lasts_one_day_witness :
  RentalPeriod.calculate_duration Scenario.jan_01_01 = 1.
Proof.
  apply (same_day_period_lasts_one_day Scenario.today "01-01-2026" false).
  reflexivity.
Defined.

(** X4.  The setters keep a valid period valid: a successful
    [set_start_date] or [set_end_date] changes only its own end, and the
    new start is still not after the end. *)
Theorem setters_keep_period_valid :
  forall (now : datetime) (p p' : RentalPeriod.t) (s : string)
         (allow_past : bool),
    RentalPeriod.valid p ->
    (RentalPeriod.set_start_date now p s allow_past = ok p' ->
     RentalPeriod.valid p'
     /\ RentalPeriod.get_start_date p' = s
     /\ RentalPeriod.get_end_date p' = RentalPeriod.get_end_date p
     /\ RentalPeriod.end_date_obj p' = RentalPeriod.end_date_obj p)
    /\ (RentalPeriod.set_end_date now p s allow_past = ok p' ->
        RentalPeriod.valid p'
        /\ RentalPeriod.get_end_date p' = s
        /\ RentalPeriod.get_start_date p' = RentalPeriod.get_start_date p
        /\ RentalPeriod.start_date_obj p' = RentalPeriod.start_date_obj p).
Proof.
  intros now p p' s a (S & E & L). split.
  - unfold RentalPeriod.set_start_date, bind.
    destruct (RentalPeriod._validate_and_parse_date now s a) as [|d] eqn:V;
      [discriminate|].
    destruct (dt_gt d (RentalPeriod.end_date_obj p)) eqn:G; [discriminate|].
    intros H. injection H as <-. simpl.
    repeat split; auto;
      try (apply (validate_and_parse_date_ok now s a d V));
      try apply E.
    unfold dt_gt, dt_lt in G. now apply Z.ltb_ge in G.
  - unfold RentalPeriod.set_end_date, bind.
    destruct (RentalPeriod._validate_and_parse_date now s a) as [|d] eqn:V;
      [discriminate|].
    destruct (dt_gt (RentalPeriod.start_date_obj p) d) eqn:G; [discriminate|].
    intros H. injection H as <-. simpl.
    repeat split; auto;
      try (apply (validate_and_parse_date_ok now s a d V));
      try apply S.
    unfold dt_gt, dt_lt in G. now apply Z.ltb_ge in G.
Qed.

Lemma setters_keep_period_valid_witness :
  RentalPeriod.set_end_date Scenario.today Scenario.jan_01_05 "06-01-2026"
                            false = ok Scenario.jan_01_06
  /\ RentalPeriod.valid Scenario.jan_01_06.
Proof.
  split; [reflexivity|].
  assert (V : RentalPeriod.valid Scenario.jan_01_05) by valid_by_evaluation.
  apply (proj2 (setters_keep_period_valid Scenario.today Scenario.jan_01_05
                  Scenario.jan_01_06 "06-01-2026" false V) eq_refl).
Defined.

(** ** The ledger of a vehicle: what stays true of it *)

Lemma booked_period_cls (now : datetime) (d : Vehicle.rental_dict)
    (ex : RentalPeriod.t) :
  Vehicle.booked_period now d = Some ex ->
  RentalPeriod.cls ex = RentalPeriod.rental_period.
Proof.
  unfold Vehicle.booked_period. cbv zeta.
  destruct (RentalPeriod.init now _ _ true) as [|ex'] eqn:I; [discriminate|].
  intros E. injection E as <-. exact (init_cls now _ _ _ _ I).
Qed.

Lemma is_available_loop_spec (now : datetime) (q : RentalPeriod.t)
    (l : list Vehicle.rental_dict) :
  Vehicle.is_available_loop now q l = true
  <-> Forall (fun d => forall ex : RentalPeriod.t,
                Vehicle.booked_period now d = Some ex ->
                RentalPeriod.call_overlaps_with q ex <> ok true) l.
Proof.
  induction l as [|d l IH]; simpl.
  - split; [constructor | reflexivity].
  - rewrite Forall_cons_iff, <- IH. clear IH.
    unfold Vehicle.booked_period. cbv zeta.
    destruct (RentalPeriod.init now _ _ true) as [|ex].
    + split; [intros H; split; [intros ? ?; discriminate | exact H]|].
      intros [_ H]. exact H.
    + destruct (RentalPeriod.call_overlaps_with q ex) as [err|[|]] eqn:O.
      * split; [|intros [_ H]; exact H].
        intros H. split; [|exact H].
        intros ex' E. injection E as <-. rewrite O. discriminate.
      * split; [discriminate|]. intros [H _].
        now specialize (H ex eq_refl).
      * split; [|intros [_ H]; exact H].
        intros H. split; [|exact H].
        intros ex' E. injection E as <-. rewrite O. discriminate.
Qed.

Lemma booked_period_new_entry (now : datetime) (p : RentalPeriod.t)
    (r : string) :
  RentalPeriod.valid p ->
  RentalPeriod.cls p = RentalPeriod.rental_period ->
  Vehicle.booked_period now
    (Vehicle.mk_rental (RentalPeriod.start_date p) (RentalPeriod.end_date p)
       (RentalPeriod.calculate_duration p) r "active" None) = Some p.
Proof.
  intros V K. unfold Vehicle.booked_period. simpl.
  now rewrite (init_of_valid now p V K).
Qed.

Lemma ledger_disjoint_snoc (now : datetime) (l : list Vehicle.rental_dict)
    (e : Vehicle.rental_dict) :
  Vehicle.ledger_disjoint now l ->
  Forall (fun d => forall p1 p2 : RentalPeriod.t,
            Vehicle.booked_period now d = Some p1 ->
            Vehicle.booked_period now e = Some p2 ->
            RentalPeriod.overlaps_with p1 p2 = false) l ->
  Vehicle.ledger_disjoint now (l ++ [e]).
Proof.
  unfold Vehicle.ledger_disjoint.
  induction 1 as [|a l Ha Hl IH]; intros F; simpl.
  - constructor; constructor.
  - inversion F as [|? ? Fa Fl]; subst. constructor.
    + apply Forall_app. split; [exact Ha|]. constructor; [exact Fa|constructor].
    + now apply IH.
Qed.

Lemma ledger_disjoint_same_periods (now : datetime)
    (l l' : list Vehicle.rental_dict) :
  map (Vehicle.booked_period now) l = map (Vehicle.booked_period now) l' ->
  Vehicle.ledger_disjoint now l -> Vehicle.ledger_disjoint now l'.
Proof.
  unfold Vehicle.ledger_disjoint. intros M D. revert l' M.
  induction D as [|a l Ha Hl IH]; intros [|a' l'] M; simpl in M;
    try discriminate; [constructor|].
  injection M as Ma Ml. constructor; [|now apply IH].
  clear IH Hl. revert l' Ml.
  induction Ha as [|b l Hb Hl IH]; intros [|b' l'] Ml; simpl in Ml;
    try discriminate; constructor.
  - injection Ml as Mb _. intros p1 p2. rewrite <- Ma, <- Mb. apply Hb.
  - injection Ml as _ Ml. now apply IH.
Qed.

Lemma booked_period_mark_completed (now : datetime) (p : RentalPeriod.t)
    (d : Vehicle.rental_dict) :
  Vehicle.entry_matches p "active" d = true ->
  Vehicle.booked_period now (Vehicle.mark_completed p None d)
  = Vehicle.booked_period now d.
Proof.
  intros M. destruct (entry_matches_active p d M) as (S & E & A).
  unfold Vehicle.booked_period, Vehicle.mark_completed. simpl.
  unfold RentalPeriod.get_end_date. rewrite A, E.
  destruct (Vehicle.actual_end_date d); reflexivity.
Qed.

(** X5.  Bookings never overlap each other, as long as the periods
    booked are made from [rental_period], the module vehicle.py imports.
    If no two entries of a vehicle's ledger keep overlapping periods
    booked, this is still so after a successful [add_rental] of a valid
    period of that class, and after a [remove_rental] without actual
    return date, whatever it returns. *)
Theorem ledger_stays_disjoint :
  forall (now : datetime) (v v' : Vehicle.t) (p : RentalPeriod.t)
         (r : string) (b : bool),
    Vehicle.ledger_disjoint now (Vehicle.rental_periods v) ->
    (RentalPeriod.valid p ->
     RentalPeriod.cls p = RentalPeriod.rental_period ->
     Vehicle.add_rental now v p r = ok v' ->
     Vehicle.ledger_disjoint now (Vehicle.rental_periods v'))
    /\ (Vehicle.remove_rental v p None = (v', b) ->
        Vehicle.ledger_disjoint now (Vehicle.rental_periods v')).
Proof.
  intros now v v' p r b D. split.
  - intros V K A. destruct (add_rental_inv now v v' p r A) as [Av ->].
    unfold Vehicle.with_ledger; simpl.
    apply ledger_disjoint_snoc; [exact D|].
    unfold Vehicle.is_available in Av.
    apply is_available_loop_spec in Av.
    eapply Forall_impl; [|exact Av].
    intros d H p1 p2 E1 E2.
    rewrite (booked_period_new_entry now p r V K) in E2. injection E2 as <-.
    rewrite overlaps_with_sym. specialize (H p1 E1).
    rewrite call_overlaps_with_same in H
      by (rewrite K; exact (booked_period_cls now d p1 E1)).
    destruct (RentalPeriod.overlaps_with p p1); [now destruct H | reflexivity].
  - destruct b.
    + intros R.
      destruct (remove_rental_inv v v' p None R) as (l1 & d & l2 & P & M & P' & _).
      rewrite P'. apply (ledger_disjoint_same_periods now (l1 ++ d :: l2)).
      * rewrite !map_app. simpl.
        now rewrite (booked_period_mark_completed now p d M).
      * now rewrite <- P.
    + unfold Vehicle.remove_rental.
      destruct (Vehicle.update_first _ _ (Vehicle.rental_periods v));
        [discriminate|].
      intros E. injection E as <-. exact D.
Qed.

Lemma ledger_stays_disjoint_witness :
  exists v1 : Vehicle.t,
    Vehicle.add_rental Scenario.today Scenario.CAR001_returned
                       Scenario.jan_01_05 "I001" = ok v1
    /\ Vehicle.ledger_disjoint Scenario.today (Vehicle.rental_periods v1).
Proof.
  eexists. split; [reflexivity|].
  assert (V : RentalPeriod.valid Scenario.jan_01_05) by valid_by_evaluation.
  assert (D : Vehicle.ledger_disjoint Scenario.today
                (Vehicle.rental_periods Scenario.CAR001_returned))
    by (repeat constructor).
  exact (proj1 (ledger_stays_disjoint Scenario.today Scenario.CAR001_returned
                  _ Scenario.jan_01_05 "I001" true D) V eq_refl eq_refl).
Defined.

Lemma update_first_keeps (key : Vehicle.rental_dict -> string * string * Z * string)
    (f : Vehicle.rental_dict -> bool)
    (g : Vehicle.rental_dict -> Vehicle.rental_dict)
    (l l' : list Vehicle.rental_dict) :
  (forall d, key (g d) = key d) ->
  Vehicle.update_first f g l = Some l' ->
  map key l' = map key l.
Proof.
  intros K U.
  destruct (update_first_split f g l l' U) as (l1 & d & l2 & -> & _ & -> & _).
  rewrite !map_app. simpl. now rewrite K.
Qed.

Lemma update_first_or_same_keeps
    (f : Vehicle.rental_dict -> bool)
    (g : Vehicle.rental_dict -> Vehicle.rental_dict)
    (l : list Vehicle.rental_dict) :
  (forall d, Vehicle.booking_of (g d) = Vehicle.booking_of d) ->
  map Vehicle.booking_of
      match Vehicle.update_first f g l with Some h => h | None => l end
  = map Vehicle.booking_of l.
Proof.
  intros K. destruct (Vehicle.update_first f g l) as [h|] eqn:U;
    [|reflexivity].
  exact (update_first_keeps Vehicle.booking_of f g l h K U).
Qed.

(** X6.  Returning never deletes a booking.  Whatever [remove_rental]
    and [restore_active_rental] return, the ledger and the history of the
    vehicle list the same bookings as before, in the same order: start,
    end, duration and renter of every entry are untouched, and so are the
    identifier and the daily rate of the vehicle. *)
Theorem returning_keeps_every_booking :
  forall (v : Vehicle.t) (p : RentalPeriod.t) (a : option string),
    (let v' := fst (Vehicle.remove_rental v p a) in
     map Vehicle.booking_of (Vehicle.rental_periods v')
     = map Vehicle.booking_of (Vehicle.rental_periods v)
     /\ map Vehicle.booking_of (Vehicle.rental_history v')
        = map Vehicle.booking_of (Vehicle.rental_history v)
     /\ Vehicle.vehicle_id v' = Vehicle.vehicle_id v
     /\ Vehicle.daily_rate v' = Vehicle.daily_rate v)
    /\ (let v' := fst (Vehicle.restore_active_rental v p) in
        map Vehicle.booking_of (Vehicle.rental_periods v')
        = map Vehicle.booking_of (Vehicle.rental_periods v)
        /\ map Vehicle.booking_of (Vehicle.rental_history v')
           = map Vehicle.booking_of (Vehicle.rental_history v)
        /\ Vehicle.vehicle_id v' = Vehicle.vehicle_id v
        /\ Vehicle.daily_rate v' = Vehicle.daily_rate v).
Proof.
  intros v p a. split.
  - unfold Vehicle.remove_rental.
    destruct (Vehicle.update_first _ _ (Vehicle.rental_periods v)) as [l|] eqn:U;
      simpl; [|auto].
    repeat split.
    + eapply update_first_keeps; [|exact U]. reflexivity.
    + apply update_first_or_same_keeps. reflexivity.
  - unfold Vehicle.restore_active_rental.
    destruct (Vehicle.update_first _ _ (Vehicle.rental_periods v)) as [l|] eqn:U;
      simpl; [|auto].
    repeat split.
    + eapply update_first_keeps; [|exact U]. reflexivity.
    + apply update_first_or_same_keeps. reflexivity.
Qed.

Lemma update_first_none (f : Vehicle.rental_dict -> bool)
    (g : Vehicle.rental_dict -> Vehicle.rental_dict)
    (l : list Vehicle.rental_dict) :
  existsb f l = false -> Vehicle.update_first f g l = None.
Proof.
  induction l as [|x l IH]; simpl; [reflexivity|].
  intros H. apply orb_false_iff in H. destruct H as [Hx Hl].
  now rewrite Hx, (IH Hl).
Qed.

Lemma update_first_at (f : Vehicle.rental_dict -> bool)
    (g : Vehicle.rental_dict -> Vehicle.rental_dict)
    (l1 l2 : list Vehicle.rental_dict) (x : Vehicle.rental_dict) :
  existsb f l1 = false -> f x = true ->
  Vehicle.update_first f g (l1 ++ x :: l2) = Some (l1 ++ g x :: l2).
Proof.
  intros N F. induction l1 as [|y l1 IH]; simpl.
  - now rewrite F.
  - simpl in N. apply orb_false_iff in N. destruct N as [Ny Nl].
    now rewrite Ny, (IH Nl).
Qed.

(** An active entry without actual return date is what [mark_active]
    makes of its completed form. *)
Lemma mark_active_mark_completed (p : RentalPeriod.t) (a : option string)
    (d : Vehicle.rental_dict) :
  Vehicle.status d = "active"%string ->
  Vehicle.actual_end_date d = None ->
  Vehicle.mark_active (Vehicle.mark_completed p a d) = d.
Proof.
  destruct d; simpl. intros -> ->. reflexivity.
Qed.

Lemma completed_form_matches (p : RentalPeriod.t) (a : option string)
    (d : Vehicle.rental_dict) :
  Vehicle.entry_matches p "active" d = true ->
  Vehicle.entry_matches p "completed" (Vehicle.mark_completed p a d) = true.
Proof.
  unfold Vehicle.entry_matches. simpl. intros H.
  apply andb_true_iff in H. destruct H as [H _]. now rewrite H.
Qed.

(** The round trip on one list of entries. *)
Lemma update_first_round_trip (p : RentalPeriod.t) (a : option string)
    (l l' : list Vehicle.rental_dict) :
  existsb (Vehicle.entry_matches p "completed") l = false ->
  forallb (fun d => negb (String.eqb (Vehicle.status d) "active")
                    || match Vehicle.actual_end_date d with
                       | None => true
                       | Some _ => false
                       end) l = true ->
  Vehicle.update_first (Vehicle.entry_matches p "active")
    (Vehicle.mark_completed p a) l = Some l' ->
  Vehicle.update_first (Vehicle.entry_matches p "completed")
    Vehicle.mark_active l' = Some l.
Proof.
  intros N A U.
  destruct (update_first_split _ _ _ _ U) as (l1 & d & l2 & -> & M & -> & _).
  rewrite existsb_app in N. apply orb_false_iff in N. destruct N as [N1 _].
  rewrite (update_first_at _ _ l1 l2 _ N1 (completed_form_matches p a d M)).
  rewrite forallb_app in A. apply andb_true_iff in A. destruct A as [_ A].
  simpl in A. apply andb_true_iff in A. destruct A as [Ad _].
  destruct (entry_matches_active p d M) as (_ & _ & S).
  rewrite S in Ad. simpl in Ad.
  rewrite mark_active_mark_completed; [reflexivity | exact S |].
  destruct (Vehicle.actual_end_date d); [discriminate | reflexivity].
Qed.

(** X7.  [restore_active_rental] undoes [remove_rental].  On a vehicle
    whose ledger and history hold no completed entry with the start and
    the end of the period, and whose active entries carry no actual return
    date, a successful [remove_rental], with or without actual return
    date, followed by [restore_active_rental] gives back the vehicle as it
    was. *)
Theorem restore_undoes_remove :
  forall (v v' : Vehicle.t) (p : RentalPeriod.t) (a : option string),
    existsb (Vehicle.entry_matches p "completed") (Vehicle.rental_periods v)
    = false ->
    existsb (Vehicle.entry_matches p "completed") (Vehicle.rental_history v)
    = false ->
    forallb (fun d => negb (String.eqb (Vehicle.status d) "active")
                      || match Vehicle.actual_end_date d with
                         | None => true
                         | Some _ => false
                         end)
            (Vehicle.rental_periods v ++ Vehicle.rental_history v) = true ->
    Vehicle.remove_rental v p a = (v', true) ->
    Vehicle.restore_active_rental v' p = (v, true).
Proof.
  intros v v' p a Np Nh A R.
  rewrite forallb_app in A. apply andb_true_iff in A. destruct A as [Ap Ah].
  unfold Vehicle.remove_rental in R.
  destruct (Vehicle.update_first _ _ (Vehicle.rental_periods v)) as [l|] eqn:U;
    [|discriminate].
  injection R as <-.
  unfold Vehicle.restore_active_rental, Vehicle.with_ledger. simpl.
  rewrite (update_first_round_trip p a _ _ Np Ap U).
  destruct (Vehicle.update_first _ _ (Vehicle.rental_history v)) as [h|] eqn:H.
  - rewrite (update_first_round_trip p a _ _ Nh Ah H).
    destruct v; reflexivity.
  - rewrite (update_first_none _ _ _ Nh). destruct v; reflexivity.
Qed.

Lemma restore_undoes_remove_witness :
  exists v1 v2 : Vehicle.t,
    Vehicle.add_rental Scenario.today Scenario.CAR001 Scenario.jan_01_05
                       "I001" = ok v1
    /\ Vehicle.remove_rental v1 Scenario.jan_01_05 (Some "03-01-2026")
       = (v2, true)
    /\ Vehicle.restore_active_rental v2 Scenario.jan_01_05 = (v1, true).
Proof.
  do 2 eexists. split; [reflexivity|]. split; [reflexivity|].
  apply (restore_undoes_remove _ _ Scenario.jan_01_05 (Some "03-01-2026"%string));
    reflexivity.
Defined.

(** ** The actual return date *)

(** X8.  What a returned rental keeps booked.  A vehicle without active
    rental is rented for a valid period and returned with an actual
    return date [a] (not the empty string).  Let [q] be a period made
    from [rental_period], the module vehicle.py imports.  If the start
    of the rented period and [a] make a period [pa], the vehicle is
    afterwards available for [q] exactly when it was before the rental
    and [q] does not overlap [pa]: an early return frees the days after
    [a], a late one blocks the days up to [a].  If they make no period,
    because [a] does not parse or lies before the start, the returned
    rental blocks no day at all.  For a period made from
    [models.rental_period] the vehicle is available whatever its ledger
    holds. *)
Theorem returned_rental_blocks_up_to_actual_date :
  forall (now : datetime) (v v1 : Vehicle.t) (p : RentalPeriod.t)
         (r a : string),
    RentalPeriod.valid p ->
    Vehicle.is_currently_rented v = false ->
    Vehicle.add_rental now v p r = ok v1 ->
    a <> ""%string ->
    exists v2 : Vehicle.t,
      Vehicle.remove_rental v1 p (Some a) = (v2, true)
      /\ Vehicle.is_currently_rented v2 = false
      /\ (forall (pa q : RentalPeriod.t),
            RentalPeriod.init now (RentalPeriod.start_date p) a true = ok pa ->
            RentalPeriod.cls q = RentalPeriod.rental_period ->
            Vehicle.is_available now v2 q
            = Vehicle.is_available now v q
              && negb (RentalPeriod.overlaps_with q pa))
      /\ (forall (err : exn) (q : RentalPeriod.t),
            RentalPeriod.init now (RentalPeriod.start_date p) a true
            = raise err ->
            Vehicle.is_available now v2 q = Vehicle.is_available now v q)
      /\ (forall q : RentalPeriod.t,
            RentalPeriod.cls q = RentalPeriod.models_rental_period ->
            Vehicle.is_available now v2 q = true).
Proof.
  intros now v v1 p r a V N A Ha.
  destruct (add_rental_inv _ _ _ _ _ A) as [_ ->].
  set (e := Vehicle.mk_rental _ _ _ _ _ _).
  unfold Vehicle.remove_rental, Vehicle.with_ledger; simpl.
  assert (M : Vehicle.entry_matches p "active" e = true).
  { unfold Vehicle.entry_matches, e, RentalPeriod.get_start_date,
      RentalPeriod.get_end_date; simpl.
    now rewrite !String.eqb_refl. }
  rewrite (update_first_app_last _ _ _ e (no_active_no_match p _ N) M).
  assert (T : (a =? "")%string = false) by (now apply String.eqb_neq).
  eexists. split; [reflexivity|]. split; [|split; [|split]].
  - unfold Vehicle.is_currently_rented; simpl.
    rewrite existsb_app. unfold Vehicle.is_currently_rented in N.
    rewrite N. reflexivity.
  - intros pa q I K. unfold Vehicle.is_available; simpl.
    rewrite is_available_loop_app. f_equal. simpl. rewrite T. simpl.
    pose proof (init_cls now _ _ _ _ I) as Kpa.
    unfold ok in I. rewrite I.
    rewrite call_overlaps_with_same by (now rewrite K).
    unfold ok. destruct (RentalPeriod.overlaps_with q pa); reflexivity.
  - intros err q I. unfold Vehicle.is_available; simpl.
    rewrite is_available_loop_app. simpl. rewrite T. simpl.
    unfold raise in I. rewrite I. apply andb_true_r.
  - intros q K. apply is_available_loop_other_class. rewrite K. discriminate.
Qed.

Lemma returned_rental_blocks_up_to_actual_date_witness :
  exists v1 v2 : Vehicle.t,
    Vehicle.add_rental Scenario.today Scenario.CAR001 Scenario.jan_01_14
                       "I001" = ok v1
    /\ Vehicle.remove_rental v1 Scenario.jan_01_14 (Some "05-01-2026")
       = (v2, true)
    /\ Vehicle.is_available Scenario.today v2 Scenario.jan_10_15 = true
    /\ Vehicle.is_available Scenario.today v2 Scenario.jan_03_08 = false.
Proof.
  assert (V : RentalPeriod.valid Scenario.jan_01_14) by valid_by_evaluation.
  assert (Ha : "05-01-2026"%string <> ""%string) by discriminate.
  destruct (returned_rental_blocks_up_to_actual_date Scenario.today
              Scenario.CAR001 _ Scenario.jan_01_14 "I001" "05-01-2026"
              V eq_refl eq_refl Ha) as (v2 & R & _ & F & _).
  eexists. exists v2. split; [reflexivity|]. split; [exact R|].
  split.
  - rewrite (F Scenario.jan_01_05 Scenario.jan_10_15 eq_refl eq_refl).
    reflexivity.
  - rewrite (F Scenario.jan_01_05 Scenario.jan_03_08 eq_refl eq_refl).
    reflexivity.
Defined.

(** ** Costs: rounding error, discounts, premiums *)

Section CostBounds.

Local Open Scope Q_scope.


Lemma round_half_even_error (y : Q) :
  inject_Z (round_half_even y) - (1 # 2) <= y
  /\ y <= inject_Z (round_half_even y) + (1 # 2).
Proof.
  pose proof (Qfloor_le y) as L. pose proof (Qlt_floor y) as U.
  rewrite inject_Z_plus in U. change (inject_Z 1) with 1 in U.
  unfold round_half_even.
  destruct (Qcompare_spec (y - inject_Z (Qfloor y)) (1 # 2)) as [E | E | E].
  - destruct (Z.even (Qfloor y)); rewrite ?inject_Z_plus;
      change (inject_Z 1) with 1; split; lra.
  - split; lra.
  - rewrite inject_Z_plus. change (inject_Z 1) with 1. split; lra.
Qed.

Lemma cents_as_product (z : Z) : z # 100 == inject_Z z * (1 # 100).
Proof. unfold Qeq, Qmult, inject_Z; simpl. lia. Qed.

(** [round(x, 2)] is within half a cent of [x]. *)
Lemma round2_error (x : Q) :
  - (1 # 200) <= round2 x - x <= 1 # 200.
Proof.
  unfold round2. rewrite cents_as_product.
  pose proof (round_half_even_error (x * 100)) as [A B].
  split; lra.
Qed.












End CostBounds.

(** ** Validators *)

Section Validators.

Local Open Scope Q_scope.

(** X11.  What [_validate_daily_rate] stores.  A rate that is not
    positive is rejected.  A positive rate is accepted and stored as a
    non-negative whole number of cents within half a cent of it; a
    positive rate of at most half a cent is therefore stored as 0. *)
Theorem validated_rate_is_rounded_to_cents :
  forall r : Q,
    (r <= 0 ->
     Vehicle._validate_daily_rate r
     = raise (InvalidVehicleDataError "daily_rate"))
    /\ (0 < r ->
        exists z : Z,
          (0 <= z)%Z
          /\ Vehicle._validate_daily_rate r = ok (z # 100)
          /\ - (1 # 200) <= (z # 100) - r <= 1 # 200)
    /\ (0 < r -> r <= 1 # 200 ->
        Vehicle._validate_daily_rate r = ok (0 # 100)).
Proof.
  intros r. unfold Vehicle._validate_daily_rate. split; [|split].
  - intros L. apply Qle_bool_iff in L. now rewrite L.
  - intros P. destruct (Qle_bool r 0) eqn:L;
      [apply Qle_bool_iff in L; lra|].
    exists (round_half_even (r * 100)). split; [|split].
    + rewrite <- (round_half_even_Z 0). apply round_half_even_mono.
      change (inject_Z 0) with 0. lra.
    + reflexivity.
    + apply (round2_error r).
  - intros P U. destruct (Qle_bool r 0) eqn:L;
      [apply Qle_bool_iff in L; lra|].
    unfold round2. do 2 f_equal. apply Z.le_antisymm.
    + change 0%Z with (round_half_even (1 # 2)).
      apply round_half_even_mono. lra.
    + rewrite <- (round_half_even_Z 0) at 1. apply round_half_even_mono.
      change (inject_Z 0) with 0. lra.
Qed.

Lemma validated_rate_is_rounded_to_cents_witness :
  Vehicle._validate_daily_rate 0.004 = ok (0 # 100)
  /\ Vehicle._validate_daily_rate (-1)
     = raise (InvalidVehicleDataError "daily_rate").
Proof.
  split.
  - apply (proj2 (proj2 (validated_rate_is_rounded_to_cents 0.004)));
      [reflexivity | discriminate].
  - apply (proj1 (validated_rate_is_rounded_to_cents (-1))). discriminate.
Defined.

(** X12.  [set_rental_cost] rejects a negative cost and otherwise stores
    the cost rounded to cents: non-negative, within half a cent of the
    argument; the status, the identifiers, the dates and the creation
    time of the record stay, the update time becomes the current one. *)
Theorem set_rental_cost_stores_rounded_cost :
  forall (ts : string) (r : RentalRecord.t) (c : Q),
    (c < 0 ->
     RentalRecord.set_rental_cost ts r c
     = raise (ValueError "Rental cost cannot be negative"))
    /\ (0 <= c ->
        exists r' : RentalRecord.t,
          RentalRecord.set_rental_cost ts r c = ok r'
          /\ 0 <= RentalRecord.get_rental_cost r'
          /\ - (1 # 200) <= RentalRecord.get_rental_cost r' - c <= 1 # 200
          /\ RentalRecord.status r' = RentalRecord.status r
          /\ RentalRecord.record_id r' = RentalRecord.record_id r
          /\ RentalRecord.vehicle_id r' = RentalRecord.vehicle_id r
          /\ RentalRecord.renter_id r' = RentalRecord.renter_id r
          /\ RentalRecord.start_date r' = RentalRecord.start_date r
          /\ RentalRecord.end_date r' = RentalRecord.end_date r
          /\ RentalRecord.created_at r' = RentalRecord.created_at r
          /\ RentalRecord.updated_at r' = ts).
Proof.
  intros ts r c. split.
  - apply set_rental_cost_rejects_negative.
  - intros P. unfold RentalRecord.set_rental_cost.
    apply Qle_bool_iff in P. rewrite P. simpl. apply Qle_bool_iff in P.
    eexists. split; [reflexivity|]. simpl.
    split; [now apply round2_nonneg|].
    split; [apply round2_error|]. repeat split.
Qed.

Lemma set_rental_cost_stores_rounded_cost_witness :
  exists r' : RentalRecord.t,
    RentalRecord.set_rental_cost Scenario.stamp Scenario.completed_record
                                 68.4075 = ok r'
    /\ RentalRecord.get_rental_cost r' == 68.41.
Proof.
  destruct (proj2 (set_rental_cost_stores_rounded_cost Scenario.stamp
                     Scenario.completed_record 68.4075))
    as (r' & E & _); [discriminate|].
  exists r'. split; [exact E|].
  vm_compute in E. injection E as <-. reflexivity.
Defined.

End Validators.

Lemma id_char_not_space (c : ascii) :
  Vehicle.is_id_char c = true -> isspace c = false.
Proof.
  destruct c as [[] [] [] [] [] [] [] []]; vm_compute; congruence.
Qed.

Lemma rstrip_no_space (s : string) :
  all_chars (fun c => negb (isspace c)) s = true -> rstrip s = s.
Proof.
  induction s as [|c s IH]; simpl; [reflexivity|].
  intros H. apply andb_true_iff in H. destruct H as [Hc Hs].
  rewrite (IH Hs). apply negb_true_iff in Hc.
  destruct s; [now rewrite Hc | reflexivity].
Qed.

Lemma lstrip_no_space (s : string) :
  all_chars (fun c => negb (isspace c)) s = true -> lstrip s = s.
Proof.
  destruct s as [|c s]; simpl; [reflexivity|].
  intros H. apply andb_true_iff in H. destruct H as [Hc _].
  apply negb_true_iff in Hc. now rewrite Hc.
Qed.

Lemma all_chars_impl (f g : ascii -> bool) (s : string) :
  (forall c, f c = true -> g c = true) ->
  all_chars f s = true -> all_chars g s = true.
Proof.
  intros I. induction s as [|c s IH]; simpl; [reflexivity|].
  intros H. apply andb_true_iff in H. destruct H as [Hc Hs].
  now rewrite (I c Hc), (IH Hs).
Qed.

Lemma strip_id_chars (s : string) :
  all_chars Vehicle.is_id_char s = true -> strip s = s.
Proof.
  intros H.
  assert (N : all_chars (fun c => negb (isspace c)) s = true).
  { eapply all_chars_impl; [|exact H].
    intros c Hc. now rewrite (id_char_not_space c Hc). }
  unfold strip. now rewrite (lstrip_no_space s N), (rstrip_no_space s N).
Qed.

Lemma validate_vehicle_id_ok (s s' : string) :
  Vehicle._validate_vehicle_id s = ok s' ->
  s' = strip s
  /\ 2 <= len s' <= 20
  /\ all_chars Vehicle.is_id_char s' = true.
Proof.
  unfold Vehicle._validate_vehicle_id.
  destruct (String.eqb (strip s) "") eqn:E; [discriminate|].
  destruct ((len (strip s) <? 2) || (len (strip s) >? 20)) eqn:L;
    [discriminate|].
  destruct (all_chars Vehicle.is_id_char (strip s)) eqn:A; [|discriminate].
  simpl. intros H. injection H as <-.
  apply orb_false_iff in L. destruct L as [L1 L2].
  apply Z.ltb_ge in L1. rewrite Z.gtb_ltb in L2. apply Z.ltb_ge in L2.
  repeat split; try lia. exact A.
Qed.

Lemma validate_vehicle_id_fixed (s : string) :
  2 <= len s <= 20 ->
  all_chars Vehicle.is_id_char s = true ->
  Vehicle._validate_vehicle_id s = ok s.
Proof.
  intros B A. unfold Vehicle._validate_vehicle_id.
  rewrite (strip_id_chars _ A), A.
  assert (N : String.eqb s "" = false).
  { destruct s; [unfold len in B; simpl in B; lia | reflexivity]. }
  rewrite N.
  assert (L : (len s <? 2) || (len s >? 20) = false).
  { apply orb_false_iff. split; [apply Z.ltb_ge; lia|].
    rewrite Z.gtb_ltb. apply Z.ltb_ge. lia. }
  rewrite L. reflexivity.
Qed.

(** X13.  A vehicle identifier that [_validate_vehicle_id] accepts is
    returned stripped, has 2 to 20 characters, all of them letters,
    digits, [_] or [-], and is accepted again unchanged: validating a
    stored identifier never fails and never alters it. *)
Theorem validated_vehicle_id_is_stable :
  forall s s' : string,
    Vehicle._validate_vehicle_id s = ok s' ->
    s' = strip s
    /\ 2 <= len s' <= 20
    /\ all_chars Vehicle.is_id_char s' = true
    /\ Vehicle._validate_vehicle_id s' = ok s'.
Proof.
  intros s s' H.
  destruct (validate_vehicle_id_ok s s' H) as (E & B & A).
  repeat split; try apply B; try assumption.
  now apply validate_vehicle_id_fixed.
Qed.

Lemma validated_vehicle_id_is_stable_witness :
  Vehicle._validate_vehicle_id "  CAR001 " = ok "CAR001"%string
  /\ Vehicle._validate_vehicle_id "CAR001" = ok "CAR001"%string.
Proof.
  split; [reflexivity|].
  apply (validated_vehicle_id_is_stable "  CAR001 " "CAR001" eq_refl).
Defined.

(** X14.  A vehicle that [Vehicle.__init__] has built has an empty
    ledger: it is not rented, it is available for every period and its
    first booking of a valid period succeeds.  Its identifier is stable
    under validation, its year is between 1990 and 2030, its daily rate
    is a non-negative whole number of cents, and its image file name ends,
    in lower case, with one of the four image extensions. *)
Theorem new_vehicle_is_free_and_well_formed :
  forall (current_year : Z) (vehicle_id make model : string) (year : Z)
         (daily_rate : Q) (image : string) (k : Vehicle.kind)
         (v : Vehicle.t),
    Vehicle.init current_year vehicle_id make model year daily_rate image k
    = ok v ->
    Vehicle.rental_periods v = []
    /\ Vehicle.rental_history v = []
    /\ Vehicle.is_currently_rented v = false
    /\ (forall (now : datetime) (q : RentalPeriod.t) (r : string),
          Vehicle.is_available now v q = true
          /\ exists v1, Vehicle.add_rental now v q r = ok v1)
    /\ Vehicle._validate_vehicle_id (Vehicle.vehicle_id v)
       = ok (Vehicle.vehicle_id v)
    /\ 1990 <= Vehicle.year v <= 2030
    /\ (exists z : Z, (0 <= z)%Z /\ Vehicle.daily_rate v = z # 100)
    /\ existsb (fun ext => endswith (lower (Vehicle.image_filename v)) ext)
               [".jpg"; ".jpeg"; ".png"; ".gif"]%string = true
    /\ Vehicle.variant v = k.
Proof.
  intros cy vid mk md y r img k v. unfold Vehicle.init, bind.
  destruct (Vehicle._validate_vehicle_id vid) as [|vid'] eqn:Ei; [discriminate|].
  destruct (Vehicle._validate_make mk) as [|mk']; [discriminate|].
  destruct (Vehicle._validate_model md) as [|md']; [discriminate|].
  destruct (Vehicle._validate_year y) as [|y'] eqn:Ey; [discriminate|].
  destruct (Vehicle._validate_daily_rate r) as [|r'] eqn:Er; [discriminate|].
  destruct (Vehicle._validate_vehicle_year_vs_rate cy y' r'); [discriminate|].
  intros H. injection H as <-. simpl.
  split; [reflexivity|]. split; [reflexivity|]. split; [reflexivity|].
  split; [|split; [|split; [|split; [|split]]]].
  - intros now q rid. split; [reflexivity|].
    apply add_rental_available. reflexivity.
  - destruct (validate_vehicle_id_ok vid vid' Ei) as (_ & B & A).
    now apply validate_vehicle_id_fixed.
  - unfold Vehicle._validate_year in Ey.
    destruct ((y <? 1990) || (y >? 2030)) eqn:B; [discriminate|].
    injection Ey as <-. apply orb_false_iff in B. destruct B as [B1 B2].
    apply Z.ltb_ge in B1. rewrite Z.gtb_ltb in B2. apply Z.ltb_ge in B2. lia.
  - unfold Vehicle._validate_daily_rate in Er.
    destruct (Qle_bool r 0) eqn:L; [discriminate|]. injection Er as <-.
    exists (round_half_even (r * 100)). split; [|reflexivity].
    apply Qle_bool_false in L.
    rewrite <- (round_half_even_Z 0). apply round_half_even_mono.
    change (inject_Z 0) with 0%Q. lra.
  - unfold Vehicle._validate_image_filename.
    destruct (String.eqb (strip img) ""); [reflexivity|].
    destruct (existsb _ _) eqn:X; [exact X | reflexivity].
  - reflexivity.
Qed.

Lemma new_vehicle_is_free_and_well_formed_witness :
  Vehicle.init 2025 " CAR001" "Toyota" "Camry" 2022 65.0 "camry.PNG"
               (Vehicle.Car 4 "Petrol" "Automatic")
  = ok (Vehicle.mk "CAR001" "Toyota" "Camry" 2022 65.00 "camry.PNG" [] []
                   (Vehicle.Car 4 "Petrol" "Automatic"))
  /\ Vehicle.is_currently_rented
       (Vehicle.mk "CAR001" "Toyota" "Camry" 2022 65.00 "camry.PNG" [] []
                   (Vehicle.Car 4 "Petrol" "Automatic")) = false.
Proof.
  split; [reflexivity|].
  apply (new_vehicle_is_free_and_well_formed 2025 " CAR001" "Toyota" "Camry"
           2022 65.0%Q "camry.PNG" (Vehicle.Car 4 "Petrol" "Automatic")).
  reflexivity.
Defined.

(** X15.  Statuses are stored in a normal form.  A status that
    [_validate_status] accepts is returned lower-cased and stripped, is
    one of pending, active, completed, cancelled and overdue, and is
    accepted again unchanged; a string is accepted exactly when its
    lower-cased, stripped form is one of the five. *)
Theorem validated_status_is_normal_form :
  forall s : string,
    (forall st : string,
        RentalRecord._validate_status s = ok st ->
        st = strip (lower s)
        /\ In st RentalRecord.VALID_STATUSES
        /\ RentalRecord._validate_status st = ok st)
    /\ ((exists st, RentalRecord._validate_status s = ok st)
        <-> In (strip (lower s)) RentalRecord.VALID_STATUSES).
Proof.
  intros s.
  assert (I : forall x, str_in x RentalRecord.VALID_STATUSES = true
                        <-> In x RentalRecord.VALID_STATUSES).
  { intros x. unfold str_in. rewrite existsb_exists. split.
    - intros (y & Hy & E). apply String.eqb_eq in E. now subst.
    - intros H. exists x. split; [exact H | apply String.eqb_refl]. }
  split.
  - intros st V. pose proof (validate_status_valid s st V) as H.
    split; [|split].
    + unfold RentalRecord._validate_status in V.
      destruct (str_in (strip (lower s)) _); simpl in V; [|discriminate].
      now injection V as <-.
    + now apply I.
    + now apply validate_status_accepts.
  - unfold RentalRecord._validate_status. rewrite <- I.
    destruct (str_in (strip (lower s)) RentalRecord.VALID_STATUSES); simpl.
    + split; [reflexivity | intros _; now eexists].
    + split; [intros [st H]; discriminate | discriminate].
Qed.

Lemma validated_status_is_normal_form_witness :
  RentalRecord._validate_status "  Active " = ok "active"%string
  /\ RentalRecord._validate_status "active" = ok "active"%string.
Proof.
  split; [reflexivity|].
  apply (proj1 (validated_status_is_normal_form "  Active ") "active"%string
           eq_refl).
Defined.

(** ** The rentals of a renter *)

Lemma pop_first_length (f : Renter.rental_dict -> bool)
    (l l' : list Renter.rental_dict) :
  Renter.pop_first f l = Some l' -> List.length l = S (List.length l').
Proof.
  revert l'. induction l as [|x l IH]; intros l'; simpl; [discriminate|].
  destruct (f x).
  - intros E. now injection E as <-.
  - destruct (Renter.pop_first f l) as [l0|]; simpl; [|discriminate].
    intros E. injection E as <-. simpl. now rewrite (IH l0 eq_refl).
Qed.

Lemma pop_first_snoc (f : Renter.rental_dict -> bool)
    (l : list Renter.rental_dict) (x : Renter.rental_dict) :
  f x = true ->
  exists l', Renter.pop_first f (l ++ [x]) = Some l'
             /\ (existsb f l = false -> l' = l).
Proof.
  intros F. induction l as [|y l IH]; simpl.
  - rewrite F. now eexists.
  - destruct (f y) eqn:Y.
    + eexists. split; [reflexivity | discriminate].
    + destruct IH as (l' & -> & H). simpl. eexists. split; [reflexivity|].
      intros N. now rewrite (H N).
Qed.

Lemma complete_in_history_keeps (vid : string) (p : RentalPeriod.t)
    (l : list Renter.rental_dict) :
  List.length (Renter.complete_in_history vid p l) = List.length l
  /\ map Renter.cost (Renter.complete_in_history vid p l) = map Renter.cost l
  /\ map Renter.vehicle_id (Renter.complete_in_history vid p l)
     = map Renter.vehicle_id l.
Proof.
  induction l as [|h l (IH1 & IH2 & IH3)]; simpl; [auto|].
  destruct (Renter.rental_matches vid p h && _); simpl; [auto|].
  now rewrite IH1, IH2, IH3.
Qed.

Lemma new_rental_matches (vid : string) (p : RentalPeriod.t) (c : Q) :
  Renter.rental_matches vid p
    (Renter.mk_rental vid (RentalPeriod.get_start_date p)
       (RentalPeriod.get_end_date p) (RentalPeriod.calculate_duration p)
       c "active") = true.
Proof.
  unfold Renter.rental_matches. simpl. now rewrite !String.eqb_refl.
Qed.

Lemma complete_after_add (r : Renter.t) (vid : string) (p : RentalPeriod.t)
    (c : Q) :
  exists r2 : Renter.t,
    Renter.complete_rental (Renter.add_rental r vid p c) vid p = (r2, true)
    /\ List.length (Renter.current_rentals r2)
       = List.length (Renter.current_rentals r)
    /\ List.length (Renter.rental_history r2)
       = S (List.length (Renter.rental_history r))
    /\ (existsb (Renter.rental_matches vid p) (Renter.current_rentals r)
        = false ->
        Renter.current_rentals r2 = Renter.current_rentals r)
    /\ Renter.renter_id r2 = Renter.renter_id r.
Proof.
  unfold Renter.complete_rental, Renter.add_rental, Renter.with_rentals.
  simpl.
  destruct (pop_first_snoc (Renter.rental_matches vid p)
              (Renter.current_rentals r) _ (new_rental_matches vid p c))
    as (l' & E & S).
  rewrite E. eexists. split; [reflexivity|]. simpl.
  pose proof (pop_first_length _ _ _ E) as L.
  rewrite length_app in L. simpl in L.
  destruct (complete_in_history_keeps vid p
              (Renter.rental_history r ++
               [Renter.mk_rental vid (RentalPeriod.get_start_date p)
                  (RentalPeriod.get_end_date p)
                  (RentalPeriod.calculate_duration p) c "active"]))
    as (H & _ & _).
  rewrite H, length_app. simpl. repeat split; auto; lia.
Qed.

Lemma complete_rental_counts (r r' : Renter.t) (vid : string)
    (p : RentalPeriod.t) (b : bool) :
  Renter.complete_rental r vid p = (r', b) ->
  if b
  then List.length (Renter.current_rentals r)
       = S (List.length (Renter.current_rentals r'))
       /\ List.length (Renter.rental_history r')
          = List.length (Renter.rental_history r)
  else r' = r.
Proof.
  unfold Renter.complete_rental.
  destruct (Renter.pop_first _ (Renter.current_rentals r)) as [l|] eqn:E.
  - intros H. injection H as <- <-. simpl.
    split; [exact (pop_first_length _ _ _ E)|].
    apply complete_in_history_keeps.
  - intros H. now injection H as <- <-.
Qed.

(** X16.  Adding a rental and completing it.  After [add_rental],
    [complete_rental] for the same vehicle and period returns [True]; the
    renter then holds as many current rentals as before the rental, the
    very same ones when none of them was for that vehicle and period, and
    the history has one entry more.  In general a [complete_rental] that
    returns [True] removes exactly one current rental and keeps the
    length of the history, and one that returns [False] changes
    nothing. *)
Theorem add_then_complete_rental :
  forall (r : Renter.t) (vid : string) (p : RentalPeriod.t) (c : Q),
    (exists r2 : Renter.t,
        Renter.complete_rental (Renter.add_rental r vid p c) vid p
        = (r2, true)
        /\ List.length (Renter.current_rentals r2)
           = List.length (Renter.current_rentals r)
        /\ List.length (Renter.rental_history r2)
           = S (List.length (Renter.rental_history r))
        /\ (existsb (Renter.rental_matches vid p) (Renter.current_rentals r)
            = false ->
            Renter.current_rentals r2 = Renter.current_rentals r)
        /\ Renter.renter_id r2 = Renter.renter_id r)
    /\ (forall (r' : Renter.t) (b : bool),
          Renter.complete_rental r vid p = (r', b) ->
          if b
          then List.length (Renter.current_rentals r)
               = S (List.length (Renter.current_rentals r'))
               /\ List.length (Renter.rental_history r')
                  = List.length (Renter.rental_history r)
          else r' = r).
Proof.
  intros r vid p c. split.
  - apply complete_after_add.
  - intros r' b. apply complete_rental_counts.
Qed.

Lemma add_then_complete_rental_witness :
  exists r2 : Renter.t,
    Renter.complete_rental
      (Renter.add_rental Scenario.I001 "CAR001" Scenario.jan_01_05 325.00)
      "CAR001" Scenario.jan_01_05 = (r2, true)
    /\ Renter.current_rentals r2 = Renter.current_rentals Scenario.I001.
Proof.
  destruct (proj1 (add_then_complete_rental Scenario.I001 "CAR001"
                     Scenario.jan_01_05 325.00%Q))
    as (r2 & E & _ & _ & S & _).
  exists r2. split; [exact E | exact (S eq_refl)].
Defined.



(** ** The engine: what renting and returning change *)

Lemma replace_first_map {A B : Type} (key : A -> B) (f : A -> bool) (x : A)
    (l : list A) :
  (forall y, f y = true -> key y = key x) ->
  map key (VehicleRental.replace_first f x l) = map key l.
Proof.
  intros K. induction l as [|y l IH]; simpl; [reflexivity|].
  destruct (f y) eqn:F; simpl; [now rewrite (K y F) | now rewrite IH].
Qed.

Lemma find_replace_first_other {A : Type} (f g : A -> bool) (x : A)
    (l : list A) :
  g x = false -> (forall y, f y = true -> g y = false) ->
  find g (VehicleRental.replace_first f x l) = find g l.
Proof.
  intros X K. induction l as [|y l IH]; simpl; [reflexivity|].
  destruct (f y) eqn:F; simpl.
  - now rewrite X, (K y F).
  - now rewrite IH.
Qed.

Lemma Forall_replace_first {A : Type} (P : A -> Prop) (f : A -> bool)
    (x : A) (l : list A) :
  Forall P l -> P x -> Forall P (VehicleRental.replace_first f x l).
Proof.
  intros F X. induction F as [|y l Py Pl IH]; simpl; [constructor|].
  destruct (f y); constructor; auto.
Qed.

Lemma eqb_other (a b c : string) :
  a <> b -> String.eqb c b = true -> String.eqb c a = false.
Proof.
  intros N E. apply String.eqb_eq in E. subst c.
  apply String.eqb_neq. congruence.
Qed.

Lemma touches_only_refl (vid rid : string) (e : VehicleRental.t) :
  VehicleRental.touches_only vid rid e e.
Proof. repeat split. Qed.

Lemma touches_only_trans (vid rid : string) (e e1 e2 : VehicleRental.t) :
  VehicleRental.touches_only vid rid e e1 ->
  VehicleRental.touches_only vid rid e1 e2 ->
  VehicleRental.touches_only vid rid e e2.
Proof.
  intros (A1 & B1 & C1 & D1 & E1 & F1 & G1) (A2 & B2 & C2 & D2 & E2 & F2 & G2).
  repeat split; try congruence.
  - intros v N. now rewrite (C2 v N), (C1 v N).
  - intros r N. now rewrite (D2 r N), (D1 r N).
Qed.

Lemma touches_only_store_vehicle (vid rid : string) (e : VehicleRental.t)
    (v : Vehicle.t) :
  Vehicle.vehicle_id v = vid ->
  VehicleRental.touches_only vid rid e (VehicleRental.store_vehicle e vid v).
Proof.
  intros I.
  refine (conj _ (conj eq_refl (conj _ (conj (fun _ _ => eq_refl)
            (conj eq_refl (conj eq_refl eq_refl)))))).
  - unfold VehicleRental.store_vehicle. simpl.
    apply replace_first_map. intros y F. unfold Vehicle.get_vehicle_id in F.
    apply String.eqb_eq in F. congruence.
  - intros vid' N. unfold VehicleRental._find_vehicle_by_id. simpl.
    apply find_replace_first_other.
    + unfold Vehicle.get_vehicle_id. rewrite I. now apply String.eqb_neq.
    + intros y F. now apply (eqb_other vid' vid).
Qed.

Lemma touches_only_store_renter (vid rid : string) (e : VehicleRental.t)
    (r : Renter.t) :
  Renter.renter_id r = rid ->
  VehicleRental.touches_only vid rid e (VehicleRental.store_renter e rid r).
Proof.
  intros I.
  refine (conj eq_refl (conj _ (conj (fun _ _ => eq_refl) (conj _
            (conj eq_refl (conj eq_refl eq_refl)))))).
  - unfold VehicleRental.store_renter. simpl.
    apply replace_first_map. intros y F. unfold Renter.get_renter_id in F.
    apply String.eqb_eq in F. congruence.
  - intros rid' N. unfold VehicleRental._find_renter_by_id. simpl.
    apply find_replace_first_other.
    + unfold Renter.get_renter_id. rewrite I. now apply String.eqb_neq.
    + intros y F. now apply (eqb_other rid' rid).
Qed.

Lemma found_vehicle_id (e : VehicleRental.t) (vid : string) (v : Vehicle.t) :
  VehicleRental._find_vehicle_by_id e vid = Some v ->
  Vehicle.vehicle_id v = vid /\ In v (VehicleRental.vehicles e).
Proof.
  unfold VehicleRental._find_vehicle_by_id. intros F.
  apply find_some in F. destruct F as [I E].
  apply String.eqb_eq in E. auto.
Qed.

Lemma found_renter_id (e : VehicleRental.t) (rid : string) (r : Renter.t) :
  VehicleRental._find_renter_by_id e rid = Some r ->
  Renter.renter_id r = rid /\ In r (VehicleRental.renters e).
Proof.
  unfold VehicleRental._find_renter_by_id. intros F.
  apply find_some in F. destruct F as [I E].
  apply String.eqb_eq in E. auto.
Qed.

Lemma add_rental_keeps_id (now : datetime) (v v1 : Vehicle.t)
    (p : RentalPeriod.t) (r : string) :
  Vehicle.add_rental now v p r = ok v1 ->
  Vehicle.vehicle_id v1 = Vehicle.vehicle_id v.
Proof.
  intros A. now destruct (add_rental_inv now v v1 p r A) as [_ ->].
Qed.

Lemma remove_rental_keeps_id (v v' : Vehicle.t) (p : RentalPeriod.t)
    (a : option string) (b : bool) :
  Vehicle.remove_rental v p a = (v', b) ->
  Vehicle.vehicle_id v' = Vehicle.vehicle_id v.
Proof.
  unfold Vehicle.remove_rental.
  destruct (Vehicle.update_first _ _ (Vehicle.rental_periods v));
    intros E; now injection E as <- <-.
Qed.

Lemma complete_rental_keeps_id (r r' : Renter.t) (vid : string)
    (p : RentalPeriod.t) (b : bool) :
  Renter.complete_rental r vid p = (r', b) ->
  Renter.renter_id r' = Renter.renter_id r.
Proof.
  unfold Renter.complete_rental.
  destruct (Renter.pop_first _ _); intros E; now injection E as <- <-.
Qed.

(** The outcomes of [return_vehicles]. *)
Lemma return_vehicles_cases (now : datetime) (e : VehicleRental.t)
    (vid rid : string) (p : RentalPeriod.t) :
  VehicleRental.return_vehicles now e vid rid p = (e, false)
  \/ exists (v v' : Vehicle.t) (r : Renter.t),
      VehicleRental._find_vehicle_by_id e vid = Some v
      /\ VehicleRental._find_renter_by_id e rid = Some r
      /\ Vehicle.remove_rental v p None = (v', true)
      /\ ((exists r', Renter.complete_rental r vid p = (r', true)
                      /\ VehicleRental.return_vehicles now e vid rid p
                         = (VehicleRental.store_renter
                              (VehicleRental.store_vehicle e vid v') rid r',
                            true))
          \/ (snd (Renter.complete_rental r vid p) = false
              /\ ((exists v'', Vehicle.add_rental now v' p rid = ok v''
                     /\ VehicleRental.return_vehicles now e vid rid p
                        = (VehicleRental.store_vehicle
                             (VehicleRental.store_vehicle e vid v') vid v'',
                           false))
                  \/ VehicleRental.return_vehicles now e vid rid p
                     = (VehicleRental.store_vehicle e vid v', false)))).
Proof.
  unfold VehicleRental.return_vehicles.
  destruct (VehicleRental._find_vehicle_by_id e vid) as [v|]; [|now left].
  destruct (VehicleRental._find_renter_by_id e rid) as [r|]; [|now left].
  destruct (negb (Vehicle.is_currently_rented v)); [now left|].
  destruct (Vehicle.remove_rental v p None) as [v' [|]] eqn:R; [|now left].
  right. exists v, v', r.
  split; [reflexivity|]. split; [reflexivity|]. split; [exact R|].
  destruct (Renter.complete_rental r vid p) as [r' [|]] eqn:C; simpl.
  - left. exists r'. split; reflexivity.
  - right. split; [reflexivity|].
    destruct (Vehicle.add_rental now v' p rid) as [|v''] eqn:A.
    + right. reflexivity.
    + left. exists v''. split; reflexivity.
Qed.

Lemma rent_vehicles_false_unchanged (now : datetime) (e : VehicleRental.t)
    (vid rid : string) (p : RentalPeriod.t) :
  snd (VehicleRental.rent_vehicles now e vid rid p) = false ->
  fst (VehicleRental.rent_vehicles now e vid rid p) = e.
Proof.
  unfold VehicleRental.rent_vehicles.
  destruct (VehicleRental._find_vehicle_by_id e vid) as [v|];
    [|reflexivity].
  destruct (VehicleRental._find_renter_by_id e rid) as [r|];
    [|reflexivity].
  destruct (negb (Renter.can_rent_vehicle r _)); [reflexivity|].
  destruct (negb (Vehicle.is_available now v p)); [reflexivity|].
  destruct (Vehicle.add_rental now v p rid); [reflexivity|].
  discriminate.
Qed.

(** X18.  A rental that fails changes nothing: whenever [rent_vehicles]
    returns [False], for an unknown vehicle or renter, a renter at
    capacity or an unavailable vehicle, the engine is the one before the
    call. *)
Theorem failed_rent_changes_nothing :
  forall (now : datetime) (e e' : VehicleRental.t) (vid rid : string)
         (p : RentalPeriod.t),
    VehicleRental.rent_vehicles now e vid rid p = (e', false) -> e' = e.
Proof.
  intros now e e' vid rid p R.
  pose proof (rent_vehicles_false_unchanged now e vid rid p) as H.
  rewrite R in H. symmetry. exact (eq_sym (H eq_refl)).
Qed.

Lemma failed_rent_changes_nothing_witness :
  fst (VehicleRental.rent_vehicles Scenario.today Scenario.rented
         "CAR001" "C001" Scenario.jan_03_08) = Scenario.rented.
Proof.
  apply (failed_rent_changes_nothing Scenario.today Scenario.rented _
           "CAR001" "C001" Scenario.jan_03_08).
  reflexivity.
Defined.

(** X19.  When a rental succeeds.  [rent_vehicles] returns [True] exactly
    when the vehicle and the renter exist, the renter holds fewer than
    five current rentals and the vehicle is available for the period;
    the booking it then makes on the vehicle cannot fail. *)
Theorem rent_succeeds_iff :
  forall (now : datetime) (e : VehicleRental.t) (vid rid : string)
         (p : RentalPeriod.t),
    snd (VehicleRental.rent_vehicles now e vid rid p) = true
    <-> exists (v : Vehicle.t) (r : Renter.t),
        VehicleRental._find_vehicle_by_id e vid = Some v
        /\ VehicleRental._find_renter_by_id e rid = Some r
        /\ Z.of_nat (List.length (Renter.current_rentals r)) < 5
        /\ Vehicle.is_available now v p = true.
Proof.
  intros now e vid rid p. unfold VehicleRental.rent_vehicles.
  destruct (VehicleRental._find_vehicle_by_id e vid) as [v|].
  2:{ simpl. split; [discriminate | intros (? & ? & H & _); discriminate]. }
  destruct (VehicleRental._find_renter_by_id e rid) as [r|].
  2:{ simpl. split; [discriminate | intros (? & ? & _ & H & _); discriminate]. }
  unfold Renter.can_rent_vehicle, Renter.default_max_concurrent_rentals.
  destruct (Z.of_nat (List.length (Renter.current_rentals r)) <? 5) eqn:C;
    simpl.
  2:{ apply Z.ltb_ge in C. split; [discriminate|].
      intros (v' & r' & _ & Hr & L & _). injection Hr as <-. lia. }
  apply Z.ltb_lt in C.
  destruct (Vehicle.is_available now v p) eqn:A; simpl.
  - destruct (add_rental_available now v p rid A) as [v1 ->]. simpl.
    split; [|reflexivity]. intros _. exists v, r. auto.
  - split; [discriminate|].
    intros (v' & r' & Hv & _ & _ & A'). injection Hv as <-. congruence.
Qed.

(** X20.  Nobody goes over the limit.  If no renter of the engine holds
    more than five current rentals, this is still so after any
    [rent_vehicles] and any [return_vehicles] call, successful or not. *)
Theorem capacity_is_never_exceeded :
  forall (now : datetime) (e : VehicleRental.t) (vid rid : string)
         (p : RentalPeriod.t),
    VehicleRental.within_capacity e ->
    VehicleRental.within_capacity
      (fst (VehicleRental.rent_vehicles now e vid rid p))
    /\ VehicleRental.within_capacity
         (fst (VehicleRental.return_vehicles now e vid rid p)).
Proof.
  intros now e vid rid p W. split.
  - destruct (VehicleRental.rent_vehicles now e vid rid p) as [e1 [|]] eqn:R.
    + destruct (rent_vehicles_success _ _ _ _ _ _ R)
        as (v & r & v1 & _ & Fr & _ & ->).
      simpl. unfold VehicleRental.within_capacity, VehicleRental.store_renter,
        VehicleRental.store_vehicle. simpl.
      apply Forall_replace_first; [exact W|].
      unfold Renter.add_rental, Renter.with_rentals. simpl.
      rewrite length_app. simpl.
      unfold VehicleRental.rent_vehicles in R.
      destruct (VehicleRental._find_vehicle_by_id e vid); [|discriminate].
      rewrite Fr in R.
      destruct (Renter.can_rent_vehicle r _) eqn:C; [|discriminate].
      unfold Renter.can_rent_vehicle in C. apply Z.ltb_lt in C. lia.
    + pose proof (rent_vehicles_false_unchanged now e vid rid p) as U.
      rewrite R in U. simpl in *. now rewrite (U eq_refl).
  - destruct (return_vehicles_cases now e vid rid p)
      as [-> | (v & v' & r & _ & Fr & _ & [(r' & C & ->) | (_ & [(v'' & _ & ->) | ->])])];
      simpl; try exact W.
    unfold VehicleRental.within_capacity, VehicleRental.store_renter. simpl.
    apply Forall_replace_first; [exact W|].
    destruct (found_renter_id _ _ _ Fr) as [_ I].
    unfold VehicleRental.within_capacity in W.
    rewrite Forall_forall in W. specialize (W r I).
    destruct (complete_rental_counts r r' vid p true C) as [L _].
    lia.
Qed.

Lemma capacity_is_never_exceeded_witness :
  VehicleRental.within_capacity
    (fst (VehicleRental.rent_vehicles Scenario.today Scenario.busy_system
            "CAR001" "I002" Scenario.jan_01_05)).
Proof.
  apply (capacity_is_never_exceeded Scenario.today Scenario.busy_system
           "CAR001" "I002" Scenario.jan_01_05).
  repeat constructor. vm_compute. discriminate.
Defined.

Lemma update_first_exists (f : Vehicle.rental_dict -> bool)
    (g : Vehicle.rental_dict -> Vehicle.rental_dict)
    (l : list Vehicle.rental_dict) :
  existsb f l = true -> exists l', Vehicle.update_first f g l = Some l'.
Proof.
  induction l as [|x l IH]; simpl; [discriminate|].
  destruct (f x); [intros _; now eexists|].
  simpl. intros H. destruct (IH H) as [l' ->]. now eexists.
Qed.

Lemma find_renter_after_rent (now : datetime) (e e1 : VehicleRental.t)
    (vid rid : string) (p : RentalPeriod.t) :
  VehicleRental.rent_vehicles now e vid rid p = (e1, true) ->
  exists (v : Vehicle.t) (r : Renter.t),
    VehicleRental._find_vehicle_by_id e vid = Some v
    /\ VehicleRental._find_renter_by_id e rid = Some r
    /\ VehicleRental._find_renter_by_id e1 rid
       = Some (Renter.add_rental r vid p
                 (Float.calculate_rental_cost v p
                    (Renter.calculate_discount r p))).
Proof.
  intros R.
  destruct (rent_vehicles_success _ _ _ _ _ _ R)
    as (v & r & v1 & Fv & Fr & A & ->).
  exists v, r. split; [exact Fv|]. split; [exact Fr|].
  unfold VehicleRental._find_renter_by_id, VehicleRental.store_renter. simpl.
  apply (find_replace_first _ _ r); [exact Fr|].
  unfold Renter.get_renter_id, Renter.add_rental, Renter.with_rentals. simpl.
  destruct (found_renter_id _ _ _ Fr) as [-> _]. apply String.eqb_refl.
Qed.

(** X21.  What has been rented can be returned.  Right after a
    successful [rent_vehicles], [return_vehicles] for the same vehicle,
    renter and period returns [True], at any later time; the renter then
    holds as many current rentals as before the rental. *)
Theorem rented_vehicle_can_be_returned :
  forall (now now' : datetime) (e e1 : VehicleRental.t) (vid rid : string)
         (p : RentalPeriod.t),
    VehicleRental.rent_vehicles now e vid rid p = (e1, true) ->
    exists (e2 : VehicleRental.t) (r r2 : Renter.t),
      VehicleRental.return_vehicles now' e1 vid rid p = (e2, true)
      /\ VehicleRental._find_renter_by_id e rid = Some r
      /\ VehicleRental._find_renter_by_id e2 rid = Some r2
      /\ List.length (Renter.current_rentals r2)
         = List.length (Renter.current_rentals r).
Proof.
  intros now now' e e1 vid rid p R.
  destruct (find_vehicle_after_rent _ _ _ _ _ _ R) as (v & v1 & Fv & A & Fv1).
  destruct (find_renter_after_rent _ _ _ _ _ _ R) as (v0 & r & Fv0 & Fr & Fr1).
  rewrite Fv in Fv0. injection Fv0 as <-.
  set (c := Float.calculate_rental_cost v p (Renter.calculate_discount r p))
    in Fr1.
  destruct (complete_after_add r vid p c) as (r2 & C & L & _ & _ & I).
  pose proof (is_currently_rented_after_add _ _ _ _ _ A) as T.
  assert (X : exists v2, Vehicle.remove_rental v1 p None = (v2, true)).
  { destruct (add_rental_inv _ _ _ _ _ A) as [_ ->].
    unfold Vehicle.remove_rental, Vehicle.with_ledger. simpl.
    destruct (update_first_exists (Vehicle.entry_matches p "active")
                (Vehicle.mark_completed p None)
                (Vehicle.rental_periods v ++
                 [Vehicle.mk_rental (RentalPeriod.start_date p)
                    (RentalPeriod.end_date p)
                    (RentalPeriod.calculate_duration p) rid "active" None]))
      as [l' ->]; [|now eexists].
    rewrite existsb_app. simpl.
    unfold Vehicle.entry_matches at 2. simpl.
    unfold RentalPeriod.get_start_date, RentalPeriod.get_end_date.
    rewrite !String.eqb_refl. simpl. apply orb_true_r. }
  destruct X as [v2 Rm].
  exists (VehicleRental.store_renter
            (VehicleRental.store_vehicle e1 vid v2) rid r2), r, r2.
  split; [|split; [exact Fr|split; [|exact L]]].
  - unfold VehicleRental.return_vehicles.
    now rewrite Fv1, Fr1, T, Rm, C.
  - unfold VehicleRental._find_renter_by_id, VehicleRental.store_renter. simpl.
    apply (find_replace_first _ _ _ _ Fr1).
    unfold Renter.get_renter_id. rewrite I.
    unfold Renter.add_rental, Renter.with_rentals. simpl.
    destruct (found_renter_id _ _ _ Fr) as [-> _]. apply String.eqb_refl.
Qed.

Lemma rented_vehicle_can_be_returned_witness :
  exists e2 : VehicleRental.t,
    VehicleRental.return_vehicles Scenario.today Scenario.rented
      "CAR001" "I001" Scenario.jan_01_05 = (e2, true).
Proof.
  destruct (rented_vehicle_can_be_returned Scenario.today Scenario.today
              Scenario.system Scenario.rented "CAR001" "I001"
              Scenario.jan_01_05 eq_refl) as (e2 & _ & _ & E & _).
  now exists e2.
Defined.

(** X22.  Renting and returning touch one vehicle and one renter.
    Whatever [rent_vehicles] and [return_vehicles] return, the engine
    afterwards has the same vehicle and renter identifiers in the same
    order, finds every other vehicle and every other renter in the state
    it was in, and has the same records, data file and record counter. *)
Theorem rent_and_return_touch_only_their_parties :
  forall (now : datetime) (e : VehicleRental.t) (vid rid : string)
         (p : RentalPeriod.t),
    VehicleRental.touches_only vid rid e
      (fst (VehicleRental.rent_vehicles now e vid rid p))
    /\ VehicleRental.touches_only vid rid e
         (fst (VehicleRental.return_vehicles now e vid rid p)).
Proof.
  intros now e vid rid p. split.
  - destruct (VehicleRental.rent_vehicles now e vid rid p) as [e1 [|]] eqn:R.
    + destruct (rent_vehicles_success _ _ _ _ _ _ R)
        as (v & r & v1 & Fv & Fr & A & ->). simpl.
      eapply touches_only_trans.
      * apply (touches_only_store_vehicle vid rid e v1).
        rewrite (add_rental_keeps_id _ _ _ _ _ A).
        apply (found_vehicle_id _ _ _ Fv).
      * apply touches_only_store_renter.
        unfold Renter.add_rental, Renter.with_rentals. simpl.
        apply (found_renter_id _ _ _ Fr).
    + pose proof (rent_vehicles_false_unchanged now e vid rid p) as U.
      rewrite R in U. simpl in *. rewrite (U eq_refl).
      apply touches_only_refl.
  - destruct (return_vehicles_cases now e vid rid p)
      as [-> | (v & v' & r & Fv & Fr & Rm
                & [(r' & C & ->) | (_ & [(v'' & A & ->) | ->])])];
      simpl.
    + apply touches_only_refl.
    + eapply touches_only_trans.
      * apply (touches_only_store_vehicle vid rid e v').
        rewrite (remove_rental_keeps_id _ _ _ _ _ Rm).
        apply (found_vehicle_id _ _ _ Fv).
      * apply touches_only_store_renter.
        rewrite (complete_rental_keeps_id _ _ _ _ _ C).
        apply (found_renter_id _ _ _ Fr).
    + eapply touches_only_trans.
      * apply (touches_only_store_vehicle vid rid e v').
        rewrite (remove_rental_keeps_id _ _ _ _ _ Rm).
        apply (found_vehicle_id _ _ _ Fv).
      * apply touches_only_store_vehicle.
        rewrite (add_rental_keeps_id _ _ _ _ _ A).
        rewrite (remove_rental_keeps_id _ _ _ _ _ Rm).
        apply (found_vehicle_id _ _ _ Fv).
    + apply (touches_only_store_vehicle vid rid e v').
      rewrite (remove_rental_keeps_id _ _ _ _ _ Rm).
      apply (found_vehicle_id _ _ _ Fv).
Qed.

(** ** The engine: registering and finding *)

Lemma find_app_none {A : Type} (f : A -> bool) (l : list A) (x : A) :
  find f l = None -> find f (l ++ [x]) = (if f x then Some x else None).
Proof.
  induction l as [|y l IH]; simpl; [reflexivity|].
  destruct (f y); [discriminate | exact IH].
Qed.

Lemma find_app_some {A : Type} (f : A -> bool) (l : list A) (x y : A) :
  find f l = Some y -> find f (l ++ [x]) = Some y.
Proof.
  induction l as [|z l IH]; simpl; [discriminate|].
  destruct (f z); [auto | exact IH].
Qed.

Lemma find_app_other {A : Type} (f : A -> bool) (l : list A) (x : A) :
  f x = false -> find f (l ++ [x]) = find f l.
Proof.
  intros X. induction l as [|z l IH]; simpl; [now rewrite X|].
  destruct (f z); [reflexivity | exact IH].
Qed.

Lemma not_found_not_in (e : VehicleRental.t) (v : Vehicle.t) :
  VehicleRental._find_vehicle_by_id e (Vehicle.get_vehicle_id v) = None ->
  ~ In (Vehicle.vehicle_id v)
       (map Vehicle.vehicle_id (VehicleRental.vehicles e)).
Proof.
  unfold VehicleRental._find_vehicle_by_id. intros F I.
  apply in_map_iff in I. destruct I as (y & E & Iy).
  pose proof (find_none _ _ F y Iy) as N. simpl in N.
  unfold Vehicle.get_vehicle_id in N. rewrite E, String.eqb_refl in N.
  discriminate.
Qed.

(** X23.  Registering a vehicle.  [add_vehicles] raises
    [DuplicateVehicleError] exactly when a vehicle with that identifier
    is already registered.  Otherwise the vehicle is appended: it is
    found by its identifier, every other identifier finds what it found
    before, identifiers that were pairwise distinct stay so, and renters
    and records are untouched. *)
Theorem add_vehicles_registers_once :
  forall (e : VehicleRental.t) (v : Vehicle.t),
    (VehicleRental._find_vehicle_by_id e (Vehicle.get_vehicle_id v) <> None ->
     VehicleRental.add_vehicles e v
     = raise (DuplicateVehicleError (Vehicle.get_vehicle_id v)))
    /\ (VehicleRental._find_vehicle_by_id e (Vehicle.get_vehicle_id v) = None ->
        exists e' : VehicleRental.t,
          VehicleRental.add_vehicles e v = ok e'
          /\ VehicleRental.vehicles e' = VehicleRental.vehicles e ++ [v]
          /\ VehicleRental._find_vehicle_by_id e' (Vehicle.get_vehicle_id v)
             = Some v
          /\ (forall vid : string,
                vid <> Vehicle.get_vehicle_id v ->
                VehicleRental._find_vehicle_by_id e' vid
                = VehicleRental._find_vehicle_by_id e vid)
          /\ (NoDup (map Vehicle.vehicle_id (VehicleRental.vehicles e)) ->
              NoDup (map Vehicle.vehicle_id (VehicleRental.vehicles e')))
          /\ VehicleRental.renters e' = VehicleRental.renters e
          /\ VehicleRental.rental_records e' = VehicleRental.rental_records e).
Proof.
  intros e v. unfold VehicleRental.add_vehicles. split.
  - destruct (VehicleRental._find_vehicle_by_id e _); [reflexivity|].
    intros N. now contradiction N.
  - intros F. rewrite F. eexists. split; [reflexivity|]. simpl.
    split; [reflexivity|]. split; [|split; [|split; [|split]]];
      try reflexivity.
    + unfold VehicleRental._find_vehicle_by_id in *. simpl.
      rewrite (find_app_none _ _ v F). now rewrite String.eqb_refl.
    + intros vid N. unfold VehicleRental._find_vehicle_by_id. simpl.
      apply find_app_other. apply String.eqb_neq. congruence.
    + intros D. rewrite map_app. simpl.
      apply NoDup_app; [exact D | repeat constructor; intros [] |].
      intros x Ix [<-|[]]. now apply (not_found_not_in e v F).
Qed.

Lemma add_vehicles_registers_once_witness :
  VehicleRental.add_vehicles Scenario.system Scenario.CAR001
  = raise (DuplicateVehicleError "CAR001")
  /\ exists e' : VehicleRental.t,
      VehicleRental.add_vehicles Scenario.system Scenario.BIKE001 = ok e'
      /\ VehicleRental._find_vehicle_by_id e' "BIKE001"
         = Some Scenario.BIKE001.
Proof.
  split.
  - apply (proj1 (add_vehicles_registers_once Scenario.system
                    Scenario.CAR001)). discriminate.
  - destruct (proj2 (add_vehicles_registers_once Scenario.system
                       Scenario.BIKE001) eq_refl) as (e' & A & _ & F & _).
    exists e'. split; [exact A | exact F].
Defined.

(** X24.  Logging in.  [authenticate_user] returns a renter only if that
    renter is registered under the given identifier and the given
    password is the one it verifies; a renter just added with [add_users]
    is authenticated by its own identifier and password, and by no other
    password. *)
Theorem authenticate_user_checks_id_and_password :
  (forall (e : VehicleRental.t) (rid pw : string) (r : Renter.t),
      VehicleRental.authenticate_user e rid pw = Some r ->
      In r (VehicleRental.renters e)
      /\ Renter.renter_id r = rid
      /\ Renter.password r = pw)
  /\ (forall (e e' : VehicleRental.t) (r : Renter.t) (pw : string),
        VehicleRental.add_users e r = ok e' ->
        VehicleRental.authenticate_user e' (Renter.renter_id r)
                                        (Renter.password r) = Some r
        /\ (pw <> Renter.password r ->
            VehicleRental.authenticate_user e' (Renter.renter_id r) pw
            = None)).
Proof.
  split.
  - intros e rid pw r. unfold VehicleRental.authenticate_user.
    destruct (VehicleRental._find_renter_by_id e rid) as [r0|] eqn:F;
      [|discriminate].
    unfold Renter.verify_password.
    destruct (String.eqb (Renter.password r0) pw) eqn:P; [|discriminate].
    intros E. injection E as <-. apply String.eqb_eq in P.
    destruct (found_renter_id _ _ _ F). auto.
  - intros e e' r pw. unfold VehicleRental.add_users.
    destruct (VehicleRental._find_renter_by_id e (Renter.get_renter_id r))
      as [|] eqn:F; [discriminate|].
    intros E. injection E as <-.
    assert (X : VehicleRental._find_renter_by_id
                  (VehicleRental.mk (VehicleRental.vehicles e)
                     (VehicleRental.renters e ++ [r])
                     (VehicleRental.rental_records e)
                     (VehicleRental.data_file e)
                     (VehicleRental.next_record_id e))
                  (Renter.renter_id r) = Some r).
    { unfold VehicleRental._find_renter_by_id, Renter.get_renter_id in *.
      simpl. rewrite (find_app_none _ _ r F). now rewrite String.eqb_refl. }
    unfold VehicleRental.authenticate_user. rewrite X.
    unfold Renter.verify_password. split.
    + now rewrite String.eqb_refl.
    + intros N. apply not_eq_sym in N. apply String.eqb_neq in N.
      now rewrite N.
Qed.

Lemma authenticate_user_checks_id_and_password_witness :
  VehicleRental.authenticate_user Scenario.system "I001" "pass123"
  = Some Scenario.I001
  /\ Renter.password Scenario.I001 = "pass123"%string.
Proof.
  split; [reflexivity|].
  apply (proj1 authenticate_user_checks_id_and_password Scenario.system
           "I001" "pass123" Scenario.I001 eq_refl).
Defined.

(** ** Record identifiers *)

Lemma uint_of_zfill_aux (fuel width : nat) (s : string) (d : Decimal.uint) :
  NilEmpty.uint_of_string s = Some d ->
  exists d', NilEmpty.uint_of_string (zfill_aux fuel width s) = Some d'
             /\ N.of_uint d' = N.of_uint d.
Proof.
  revert s d. induction fuel as [|fuel IH]; intros s d E; simpl.
  - now exists d.
  - destruct (Nat.ltb (String.length s) width); [|now exists d].
    destruct (IH (String "0" s) (Decimal.D0 d)) as (d' & E' & V).
    + simpl. now rewrite E.
    + exists d'. split; [exact E'|]. rewrite V. reflexivity.
Qed.

Lemma uint_of_digits (n : N) :
  exists d, NilEmpty.uint_of_string (NilZero.string_of_uint (N.to_uint n))
            = Some d
            /\ N.of_uint d = n.
Proof.
  destruct (N.to_uint n) eqn:T.
  1:{ exists (Decimal.D0 Decimal.Nil). split; [reflexivity|].
      rewrite <- (DecimalN.Unsigned.of_to n), T. reflexivity. }
  all: eexists; split;
    [unfold NilZero.string_of_uint; apply NilEmpty.usu|];
    rewrite <- T; apply DecimalN.Unsigned.of_to.
Qed.

(** The digits of [format_05d k] read back as [k]. *)
Lemma format_05d_decodes (k : Z) :
  0 <= k ->
  exists d, NilEmpty.uint_of_string (format_05d k) = Some d
            /\ N.of_uint d = Z.to_N k.
Proof.
  intros K. unfold format_05d.
  replace (k <? 0) with false by (symmetry; apply Z.ltb_ge; lia).
  rewrite Z.abs_eq by exact K.
  destruct (uint_of_digits (Z.to_N k)) as (d & E & V).
  destruct (uint_of_zfill_aux 5 5 _ d E) as (d' & E' & V').
  exists d'. split; [exact E' | congruence].
Qed.

Lemma format_05d_inj (k1 k2 : Z) :
  0 <= k1 -> 0 <= k2 -> format_05d k1 = format_05d k2 -> k1 = k2.
Proof.
  intros K1 K2 E.
  destruct (format_05d_decodes k1 K1) as (d1 & E1 & V1).
  destruct (format_05d_decodes k2 K2) as (d2 & E2 & V2).
  rewrite E, E2 in E1. injection E1 as <-.
  rewrite V1 in V2. lia.
Qed.

(** X25.  Record identifiers are fresh.  In an engine whose records
    carry identifiers [R] followed by numbers below the record counter,
    [add_rental_record] always succeeds; the record it appends is active,
    bears an identifier that no earlier record has, and is the one
    [find_rental_record_by_id] returns for that identifier; the counter
    moves on by one, the numbering property holds again, and identifiers
    that were pairwise distinct stay so. *)
Theorem record_identifiers_are_fresh :
  forall (ts : string) (e : VehicleRental.t)
         (vid rid s f : string) (c d : Q),
    VehicleRental.well_numbered e ->
    exists (e' : VehicleRental.t) (rec : RentalRecord.t),
      VehicleRental.add_rental_record ts e vid rid s f c d = ok (e', rec)
      /\ RentalRecord.is_active rec = true
      /\ RentalRecord.record_id rec
         = String "R" (format_05d (VehicleRental.next_record_id e))
      /\ ~ In (RentalRecord.record_id rec)
              (map RentalRecord.record_id (VehicleRental.rental_records e))
      /\ VehicleRental.find_rental_record_by_id e' (RentalRecord.record_id rec)
         = Some rec
      /\ VehicleRental.next_record_id e' = VehicleRental.next_record_id e + 1
      /\ VehicleRental.well_numbered e'
      /\ (NoDup (map RentalRecord.record_id (VehicleRental.rental_records e))
          -> NoDup (map RentalRecord.record_id
                        (VehicleRental.rental_records e'))).
Proof.
  intros ts e vid rid s f c d [N W].
  unfold VehicleRental.add_rental_record. simpl.
  set (rec := RentalRecord.mk _ _ _ _ _ _ _ _ _ _).
  assert (Fresh : ~ In (RentalRecord.record_id rec)
                       (map RentalRecord.record_id
                            (VehicleRental.rental_records e))).
  { intros I. apply in_map_iff in I. destruct I as (y & E & Iy).
    rewrite Forall_forall in W. destruct (W y Iy) as (k & Hk & Ek).
    rewrite Ek in E. simpl in E. injection E as E.
    apply format_05d_inj in E; lia. }
  exists (VehicleRental.mk (VehicleRental.vehicles e)
            (VehicleRental.renters e)
            (VehicleRental.rental_records e ++ [rec])
            (VehicleRental.data_file e)
            (VehicleRental.next_record_id e + 1)), rec.
  split; [reflexivity|]. split; [reflexivity|]. split; [reflexivity|].
  split; [exact Fresh|]. split; [|split; [reflexivity|split]].
  - unfold VehicleRental.find_rental_record_by_id. simpl.
    rewrite find_app_none.
    + unfold RentalRecord.get_record_id. now rewrite String.eqb_refl.
    + destruct (find _ (VehicleRental.rental_records e)) as [y|] eqn:F;
        [|reflexivity].
      apply find_some in F. destruct F as [Iy Ey].
      apply String.eqb_eq in Ey. exfalso. apply Fresh.
      apply in_map_iff. exists y. auto.
  - split; simpl; [lia|]. apply Forall_app. split.
    + eapply Forall_impl; [|exact W].
      intros y (k & Hk & Ek). exists k. split; [lia | exact Ek].
    + constructor; [|constructor].
      exists (VehicleRental.next_record_id e). split; [lia | reflexivity].
  - intros D. simpl. rewrite map_app. simpl.
    apply NoDup_app; [exact D | repeat constructor; intros [] |].
    intros x Ix [<-|[]]. now apply Fresh.
Qed.

Lemma record_identifiers_are_fresh_witness :
  exists (e' : VehicleRental.t) (rec : RentalRecord.t),
    VehicleRental.add_rental_record Scenario.stamp Scenario.system
      "CAR001" "I001" "01-01-2026" "05-01-2026" 325.00 0.0 = ok (e', rec)
    /\ RentalRecord.record_id rec = "R00001"%string
    /\ VehicleRental.well_numbered e'.
Proof.
  assert (W : VehicleRental.well_numbered Scenario.system).
  { split; [simpl; lia | constructor]. }
  destruct (record_identifiers_are_fresh Scenario.stamp Scenario.system
              "CAR001" "I001" "01-01-2026" "05-01-2026" 325.00%Q 0.0%Q W)
    as (e' & rec & A & _ & I & _ & _ & _ & W' & _).
  exists e', rec. split; [exact A|]. split; [exact I | exact W'].
Defined.

(** ** Overdue records *)

(** X26.  [check_if_overdue] only ever turns an active record whose end
    date, as it is written, lies before the current date into an overdue
    one.  It returns [True] exactly in that case; otherwise the record
    is unchanged.  The cost is never touched, and a second call at the
    same date changes nothing and returns [False]. *)
Theorem check_if_overdue_marks_late_active_records :
  forall (today : datetime) (ts : string) (r r' : RentalRecord.t) (b : bool),
    RentalRecord.check_if_overdue today ts r = (r', b) ->
    (b = true <->
     RentalRecord.status r = "active"%string
     /\ exists e : datetime,
         strptime (RentalRecord.end_date r) = Some e
         /\ toordinal e < toordinal today)
    /\ (b = true -> RentalRecord.status r' = "overdue"%string)
    /\ (b = false -> r' = r)
    /\ RentalRecord.rental_cost r' = RentalRecord.rental_cost r
    /\ RentalRecord.record_id r' = RentalRecord.record_id r
    /\ RentalRecord.check_if_overdue today ts r' = (r', false).
Proof.
  intros today ts r r' b.
  assert (M : RentalRecord.mark_as_overdue ts r
              = ok (RentalRecord.mk (RentalRecord.record_id r)
                      (RentalRecord.vehicle_id r) (RentalRecord.renter_id r)
                      (RentalRecord.start_date r) (RentalRecord.end_date r)
                      (RentalRecord.rental_cost r) "overdue"
                      (RentalRecord.discount_applied r)
                      (RentalRecord.created_at r) ts)) by reflexivity.
  unfold RentalRecord.check_if_overdue. rewrite M. unfold ok.
  destruct (String.eqb (RentalRecord.status r) "active") eqn:A;
    cbn [negb].
  2:{ intros E. injection E as <- <-. rewrite A. cbn [negb].
      apply String.eqb_neq in A.
      repeat split; try discriminate; auto.
      intros [S _]. contradiction. }
  apply String.eqb_eq in A.
  destruct (strptime (RentalRecord.end_date r)) as [e|] eqn:P.
  2:{ intros E. injection E as <- <-. rewrite A, P. cbn.
      repeat split; try discriminate; auto.
      intros [_ (e & X & _)]. discriminate. }
  unfold dt_gt, dt_lt.
  destruct (toordinal e <? toordinal today) eqn:L.
  - intros E. injection E as <- <-. cbn.
    apply Z.ltb_lt in L.
    split; [split; [intros _; split; [exact A | exists e; auto]
                   | reflexivity]|].
    split; [reflexivity|]. split; [discriminate|]. repeat split.
  - intros E. injection E as <- <-. rewrite A, P. cbn [negb String.eqb].
    rewrite L. apply Z.ltb_ge in L.
    repeat split; try discriminate; auto.
    intros [_ (e' & X & Y)]. injection X as <-. lia.
Qed.

Lemma check_if_overdue_marks_late_active_records_witness :
  RentalRecord.check_if_overdue (mk_datetime 2026 2 1) Scenario.stamp
    (RentalRecord.mk "R00002" "CAR001" "I001" "01-01-2026" " 5-01-2026"
                     325.0 "active" 0.0 Scenario.stamp Scenario.stamp)
  = (RentalRecord.mk "R00002" "CAR001" "I001" "01-01-2026" " 5-01-2026"
                     325.0 "overdue" 0.0 Scenario.stamp Scenario.stamp, true)
  /\ exists e : datetime,
      strptime " 5-01-2026" = Some e
      /\ toordinal e < toordinal (mk_datetime 2026 2 1).
Proof.
  split; [reflexivity|].
  destruct (check_if_overdue_marks_late_active_records (mk_datetime 2026 2 1)
              Scenario.stamp
              (RentalRecord.mk "R00002" "CAR001" "I001" "01-01-2026"
                 " 5-01-2026" 325.0%Q "active" 0.0%Q Scenario.stamp
                 Scenario.stamp)
              (RentalRecord.mk "R00002" "CAR001" "I001" "01-01-2026"
                 " 5-01-2026" 325.0%Q "overdue" 0.0%Q Scenario.stamp
                 Scenario.stamp)
              true eq_refl) as ([H _] & _).
  exact (proj2 (H eq_refl)).
Defined.

(** ** Dates as they are written *)

Lemma digit_not_space (c : ascii) :
  is_digit c || Ascii.eqb c "-" = true -> negb (isspace c) = true.
Proof.
  destruct c as [[] [] [] [] [] [] [] []]; vm_compute; congruence.
Qed.

Lemma split_dash_chars (f : ascii -> bool) (s a b : string) :
  f "-"%char = true ->
  split_dash s = Some (a, b) ->
  all_chars f a = true -> all_chars f b = true -> all_chars f s = true.
Proof.
  intros D. revert a. induction s as [|c s IH]; intros a; simpl;
    [discriminate|].
  destruct (Ascii.eqb c "-") eqn:E.
  - apply Ascii.eqb_eq in E. subst c. intros H. injection H as <- <-.
    intros _ B. now rewrite D, B.
  - destruct (split_dash s) as [[a' b']|]; [|discriminate].
    intros H. injection H as <- <-. simpl.
    intros A B. apply andb_true_iff in A. destruct A as [Ac Aa].
    now rewrite Ac, (IH a' eq_refl Aa B).
Qed.

Lemma in_range_digit (lo hi : Z) (c : ascii) :
  in_range lo hi c = true -> is_digit c = true.
Proof.
  unfold in_range. intros H. apply andb_true_iff in H. destruct H as [H _].
  apply andb_true_iff in H. now destruct H.
Qed.

(** What [%d] matches: digits only, or a blank and a digit from 1 to 9. *)
Lemma match_d_cases (tok : string) (z : Z) :
  match_d tok = Some z ->
  all_chars (fun c => is_digit c || Ascii.eqb c "-") tok = true
  \/ exists b : ascii,
       tok = String " " (String b EmptyString)
       /\ in_range 1 9 b = true /\ z = digit b.
Proof.
  destruct tok as [|a [|b [|c tok]]]; simpl; try discriminate.
  - destruct (in_range 1 9 a) eqn:A; [|discriminate].
    intros _. left. now rewrite (in_range_digit _ _ _ A).
  - destruct (in_range 3 3 a && in_range 0 1 b) eqn:X.
    + apply andb_true_iff in X. destruct X as [A B]. intros _. left.
      now rewrite (in_range_digit _ _ _ A), (in_range_digit _ _ _ B).
    + destruct (in_range 1 2 a && is_digit b) eqn:Y.
      * apply andb_true_iff in Y. destruct Y as [A B]. intros _. left.
        now rewrite (in_range_digit _ _ _ A), B.
      * destruct (in_range 0 0 a && in_range 1 9 b) eqn:W.
        -- apply andb_true_iff in W. destruct W as [A B]. intros _. left.
           now rewrite (in_range_digit _ _ _ A), (in_range_digit _ _ _ B).
        -- simpl.
           destruct (Ascii.eqb a " " && in_range 1 9 b) eqn:U;
             [|discriminate].
           apply andb_true_iff in U. destruct U as [A B].
           apply Ascii.eqb_eq in A. subst a.
           intros E. injection E as <-. right. exists b. auto.
Qed.

Lemma match_m_chars (tok : string) (z : Z) :
  match_m tok = Some z ->
  all_chars (fun c => is_digit c || Ascii.eqb c "-") tok = true.
Proof.
  destruct tok as [|a [|b [|c tok]]]; simpl; try discriminate.
  - destruct (in_range 1 9 a) eqn:A; [|discriminate].
    now rewrite (in_range_digit _ _ _ A).
  - destruct (in_range 1 1 a && in_range 0 2 b) eqn:X.
    + apply andb_true_iff in X. destruct X as [A B].
      now rewrite (in_range_digit _ _ _ A), (in_range_digit _ _ _ B).
    + destruct (in_range 0 0 a && in_range 1 9 b) eqn:W; [|discriminate].
      apply andb_true_iff in W. destruct W as [A B].
      now rewrite (in_range_digit _ _ _ A), (in_range_digit _ _ _ B).
Qed.

Lemma match_Y_chars (tok : string) (z : Z) :
  match_Y tok = Some z ->
  all_chars (fun c => is_digit c || Ascii.eqb c "-") tok = true.
Proof.
  destruct tok as [|a [|b [|c [|d [|x tok]]]]]; simpl; try discriminate.
  destruct (is_digit a && is_digit b && is_digit c && is_digit d) eqn:X;
    [|discriminate].
  apply andb_true_iff in X. destruct X as [X D].
  apply andb_true_iff in X. destruct X as [X C].
  apply andb_true_iff in X. destruct X as [A B].
  now rewrite A, B, C, D.
Qed.

Lemma no_space_strip (s : string) :
  all_chars (fun c => is_digit c || Ascii.eqb c "-") s = true -> strip s = s.
Proof.
  intros A.
  assert (N : all_chars (fun c => negb (isspace c)) s = true)
    by (eapply all_chars_impl; [exact digit_not_space | exact A]).
  unfold strip. now rewrite (lstrip_no_space s N), (rstrip_no_space s N).
Qed.

(** How a string that [strptime] parses is written: its month and its
    year are digits; its day is digits, or a blank and one digit. *)
Lemma strptime_written (s : string) (d : datetime) :
  strptime s = Some d ->
  all_chars (fun c => is_digit c || Ascii.eqb c "-") s = true
  \/ exists (b : ascii) (rest : string),
       s = String " " (String b (String "-" rest))
       /\ in_range 1 9 b = true
       /\ all_chars (fun c => is_digit c || Ascii.eqb c "-") rest = true.
Proof.
  unfold strptime.
  destruct (split_dash s) as [[dtok rest]|] eqn:S1; [|discriminate].
  destruct (split_dash rest) as [[mtok ytok]|] eqn:S2; [|discriminate].
  destruct (match_d dtok) as [dd|] eqn:D; [|discriminate].
  destruct (match_m mtok) as [mm|] eqn:M; [|discriminate].
  destruct (match_Y ytok) as [yy|] eqn:Y; [|discriminate].
  intros _.
  assert (R : all_chars (fun c => is_digit c || Ascii.eqb c "-") rest = true)
    by (apply (split_dash_chars _ rest mtok ytok eq_refl S2
                 (match_m_chars _ _ M) (match_Y_chars _ _ Y))).
  destruct (match_d_cases _ _ D) as [A | (b & -> & B & _)].
  - left. exact (split_dash_chars _ s dtok rest eq_refl S1 A R).
  - right. exists b, rest. split; [|split; assumption].
    destruct s as [|c0 [|c1 [|c2 s]]]; simpl in S1; try discriminate.
    + destruct (Ascii.eqb c0 "-"); discriminate.
    + destruct (Ascii.eqb c0 "-"); [discriminate|].
      destruct (Ascii.eqb c1 "-"); discriminate.
    + destruct (Ascii.eqb c0 "-") eqn:E0; [discriminate|].
      destruct (Ascii.eqb c1 "-") eqn:E1; [discriminate|].
      destruct (Ascii.eqb c2 "-") eqn:E2.
      * apply Ascii.eqb_eq in E2. subst c2. injection S1 as -> -> ->.
        reflexivity.
      * destruct (split_dash s) as [[a' b']|]; discriminate.
Qed.

(** One blank before a day of one digit: the string parses to the date
    its stripped form parses to. *)
Lemma strptime_blank_day (b : ascii) (rest : string) :
  in_range 1 9 b = true ->
  strptime (String " " (String b (String "-" rest)))
  = strptime (String b (String "-" rest)).
Proof.
  intros B. unfold strptime. simpl.
  assert (Nb : Ascii.eqb b "-" = false).
  { destruct (Ascii.eqb b "-") eqn:E; [|reflexivity].
    apply Ascii.eqb_eq in E. subst b. discriminate. }
  rewrite Nb. simpl.
  destruct (split_dash rest) as [[mtok ytok]|]; reflexivity.
Qed.

Lemma strptime_one_digit_day (b : ascii) (rest : string) (d : datetime) :
  strptime (String b (String "-" rest)) = Some d -> in_range 1 9 b = true.
Proof.
  unfold strptime. simpl.
  destruct (Ascii.eqb b "-"); simpl.
  - destruct (split_dash rest) as [[mtok ytok]|]; discriminate.
  - destruct (split_dash rest) as [[mtok ytok]|]; [|discriminate].
    destruct (in_range 1 9 b); [reflexivity | discriminate].
Qed.

Lemma strip_blank_day (b : ascii) (rest : string) :
  in_range 1 9 b = true ->
  all_chars (fun c => is_digit c || Ascii.eqb c "-") rest = true ->
  strip (String " " (String b (String "-" rest)))
  = String b (String "-" rest).
Proof.
  intros B R.
  assert (A : all_chars (fun c => is_digit c || Ascii.eqb c "-")
                (String b (String "-" rest)) = true).
  { simpl. now rewrite (in_range_digit _ _ _ B), R. }
  exact (no_space_strip _ A).
Qed.

(** A string that [strptime] parses is written in one of the two ways,
    and parses to the same date once stripped. *)
Lemma strptime_as_written (s : string) (d : datetime) :
  strptime s = Some d ->
  written_for_strptime s /\ strptime (strip s) = Some d.
Proof.
  intros P. destruct (strptime_written s d P) as [A | (b & rest & -> & B & R)].
  - pose proof (no_space_strip s A) as S. rewrite S.
    split; [left; now symmetry | exact P].
  - unfold written_for_strptime. rewrite (strip_blank_day b rest B R).
    rewrite (strptime_blank_day b rest B) in P.
    split; [|exact P]. right. split; [reflexivity|]. now exists b, rest.
Qed.

(** Conversely, a string written in one of the two ways parses as it
    stands when its stripped form does. *)
Lemma written_strptime (s : string) (d : datetime) :
  written_for_strptime s ->
  strptime (strip s) = Some d -> strptime s = Some d.
Proof.
  intros [E | (E & b & rest & T)] P.
  - now rewrite E.
  - rewrite E, T. rewrite T in P.
    rewrite strptime_blank_day; [exact P|].
    exact (strptime_one_digit_day b rest d P).
Qed.

(** X27.  The duration of a record against the duration of its period.
    A period strips its date strings before it parses them and keeps
    them as they were given; a record parses them as they stand.  For a
    record that carries the two date strings of a valid period: when each
    string is written with nothing around it, or with one blank before a
    day of one digit, [RentalRecord.calculate_duration] is the duration
    of the period, at least one day; when one of them is written
    otherwise, the record does not parse it and its duration is 0. *)
Theorem record_duration_against_period :
  forall (rec : RentalRecord.t) (p : RentalPeriod.t),
    RentalPeriod.valid p ->
    RentalRecord.start_date rec = RentalPeriod.get_start_date p ->
    RentalRecord.end_date rec = RentalPeriod.get_end_date p ->
    (written_for_strptime (RentalPeriod.get_start_date p) ->
     written_for_strptime (RentalPeriod.get_end_date p) ->
     RentalRecord.calculate_duration rec = RentalPeriod.calculate_duration p
     /\ 1 <= RentalRecord.calculate_duration rec)
    /\ (~ (written_for_strptime (RentalPeriod.get_start_date p)
           /\ written_for_strptime (RentalPeriod.get_end_date p)) ->
        RentalRecord.calculate_duration rec = 0)
    /\ (strip (RentalPeriod.get_start_date p) = RentalPeriod.get_start_date p ->
        strip (RentalPeriod.get_end_date p) = RentalPeriod.get_end_date p ->
        RentalRecord.calculate_duration rec
        = RentalPeriod.calculate_duration p).
Proof.
  intros rec p V Es Ee. unfold RentalPeriod.get_start_date,
    RentalPeriod.get_end_date in *.
  unfold RentalRecord.calculate_duration. rewrite Es, Ee.
  destruct V as ((Ps & _) & (Pe & _) & L).
  assert (W : written_for_strptime (RentalPeriod.start_date p) ->
              written_for_strptime (RentalPeriod.end_date p) ->
              match strptime (RentalPeriod.start_date p) with
              | Some start =>
                  match strptime (RentalPeriod.end_date p) with
                  | Some e => days_between e start + 1
                  | None => 0
                  end
              | None => 0
              end = RentalPeriod.calculate_duration p).
  { intros Ws We.
    rewrite (written_strptime _ _ Ws Ps), (written_strptime _ _ We Pe).
    reflexivity. }
  split; [|split].
  - intros Ws We. rewrite (W Ws We).
    unfold RentalPeriod.calculate_duration, days_between. split; lia.
  - intros H.
    destruct (strptime (RentalPeriod.start_date p)) as [d|] eqn:Qs;
      [|reflexivity].
    destruct (strptime (RentalPeriod.end_date p)) as [d'|] eqn:Qe;
      [|reflexivity].
    exfalso. apply H. split.
    + exact (proj1 (strptime_as_written _ _ Qs)).
    + exact (proj1 (strptime_as_written _ _ Qe)).
  - intros Ss Se. apply W; left; now symmetry.
Qed.

Lemma record_duration_against_period_witness :
  RentalRecord.calculate_duration
    (RentalRecord.mk "R00002" "CAR001" "I001" " 1-01-2026" "05-01-2026"
                     325.0 "active" 0.0 Scenario.stamp Scenario.stamp) = 5
  /\ RentalRecord.calculate_duration
       (RentalRecord.mk "R00003" "CAR001" "I001" " 01-01-2026" "05-01-2026"
                        325.0 "active" 0.0 Scenario.stamp Scenario.stamp) = 0.
Proof.
  assert (V : RentalPeriod.valid
                (RentalPeriod.mk RentalPeriod.rental_period
                   " 1-01-2026" "05-01-2026"
                   (mk_datetime 2026 1 1) (mk_datetime 2026 1 5)))
    by valid_by_evaluation.
  assert (V' : RentalPeriod.valid
                 (RentalPeriod.mk RentalPeriod.rental_period
                    " 01-01-2026" "05-01-2026"
                    (mk_datetime 2026 1 1) (mk_datetime 2026 1 5)))
    by valid_by_evaluation.
  split.
  - apply (proj1 (record_duration_against_period
                    (RentalRecord.mk "R00002" "CAR001" "I001" " 1-01-2026"
                       "05-01-2026" 325.0%Q "active" 0.0%Q Scenario.stamp
                       Scenario.stamp) _ V eq_refl eq_refl)).
    + right. split; [reflexivity|]. now exists "1"%char, "01-2026"%string.
    + left. reflexivity.
  - apply (proj1 (proj2 (record_duration_against_period
                    (RentalRecord.mk "R00003" "CAR001" "I001" " 01-01-2026"
                       "05-01-2026" 325.0%Q "active" 0.0%Q Scenario.stamp
                       Scenario.stamp) _ V' eq_refl eq_refl))).
    intros [[E | (E & b & rest & T)] _]; [discriminate|].
    vm_compute in T. discriminate.
Defined.

(** ** The age of an individual user *)

(** X28.  A date of birth that [_validate_date_of_birth] accepts is
    returned stripped, is a calendar date written with two digits for the
    day and the month, and lies between 6575 days (18 years of 365.25
    days, rounded up) and 43830 days (120 years) before the current
    date. *)
Theorem accepted_birth_date_gives_adult :
  forall (today : datetime) (s s' : string),
    IndividualUser._validate_date_of_birth today s = inr s' ->
    s' = strip s
    /\ IndividualUser.dob_format s' = true
    /\ exists birth : datetime,
        strptime s' = Some birth
        /\ 6575 <= toordinal today - toordinal birth <= 43830.
Proof.
  intros today s s'. unfold IndividualUser._validate_date_of_birth.
  destruct (String.eqb (strip s) ""); [discriminate|].
  destruct (IndividualUser.dob_format (strip s)) eqn:F; [|discriminate].
  simpl.
  destruct (strptime (strip s)) as [birth|] eqn:P; [|discriminate].
  destruct (dt_gt birth today); [discriminate|].
  unfold days_between.
  set (n := toordinal today - toordinal birth).
  destruct (Qle_bool 18 (inject_Z n / 365.25)) eqn:A; [|discriminate].
  destruct (Qle_bool (inject_Z n / 365.25) 120) eqn:B; [|discriminate].
  simpl. intros E. injection E as <-.
  split; [reflexivity|]. split; [exact F|].
  exists birth. split; [exact P|].
  apply Qle_bool_iff in A, B. unfold Qle in A, B. simpl in A, B. lia.
Qed.

Lemma accepted_birth_date_gives_adult_witness :
  IndividualUser._validate_date_of_birth Scenario.today " 01-01-1990 "
  = inr "01-01-1990"%string
  /\ exists birth : datetime,
      strptime "01-01-1990" = Some birth
      /\ 6575 <= toordinal Scenario.today - toordinal birth <= 43830.
Proof.
  split; [reflexivity|].
  destruct (accepted_birth_date_gives_adult Scenario.today " 01-01-1990 "
              "01-01-1990" eq_refl) as (_ & _ & H).
  exact H.
Defined.

(** ** Returning, and the clock *)

Lemma update_first_some_iff (f : Vehicle.rental_dict -> bool)
    (g : Vehicle.rental_dict -> Vehicle.rental_dict)
    (l : list Vehicle.rental_dict) :
  (exists l', Vehicle.update_first f g l = Some l') <-> existsb f l = true.
Proof.
  split; [|apply update_first_exists].
  intros [l' U]. destruct (existsb f l) eqn:E; [reflexivity|].
  rewrite (update_first_none f g l E) in U. discriminate.
Qed.

Lemma pop_first_some_iff (f : Renter.rental_dict -> bool)
    (l : list Renter.rental_dict) :
  (exists l', Renter.pop_first f l = Some l') <-> existsb f l = true.
Proof.
  induction l as [|x l IH]; simpl.
  - split; [intros [? H]; discriminate | discriminate].
  - destruct (f x); simpl; [split; [reflexivity | now eexists]|].
    rewrite <- IH. split.
    + intros [l' H]. destruct (Renter.pop_first f l); [now eexists|].
      discriminate.
    + intros [l' ->]. now eexists.
Qed.

(** X29.  When a return succeeds.  [return_vehicles] returns [True]
    exactly when the vehicle and the renter exist, the ledger of the
    vehicle has an active entry with the start and the end of the period,
    and the renter holds a current rental for that vehicle with that
    start and end. *)
Theorem return_succeeds_iff :
  forall (now : datetime) (e : VehicleRental.t) (vid rid : string)
         (p : RentalPeriod.t),
    snd (VehicleRental.return_vehicles now e vid rid p) = true
    <-> exists (v : Vehicle.t) (r : Renter.t),
        VehicleRental._find_vehicle_by_id e vid = Some v
        /\ VehicleRental._find_renter_by_id e rid = Some r
        /\ existsb (Vehicle.entry_matches p "active")
                   (Vehicle.rental_periods v) = true
        /\ existsb (Renter.rental_matches vid p)
                   (Renter.current_rentals r) = true.
Proof.
  intros now e vid rid p. split.
  - intros S.
    destruct (return_vehicles_cases now e vid rid p)
      as [E | (v & v' & r & Fv & Fr & Rm
               & [(r' & C & E) | (_ & [(v'' & _ & E) | E])])];
      rewrite E in S; try discriminate.
    exists v, r. split; [exact Fv|]. split; [exact Fr|]. split.
    + apply (update_first_some_iff _ (Vehicle.mark_completed p None)).
      unfold Vehicle.remove_rental in Rm.
      destruct (Vehicle.update_first _ _ (Vehicle.rental_periods v));
        [now eexists | discriminate].
    + apply pop_first_some_iff.
      unfold Renter.complete_rental in C.
      destruct (Renter.pop_first _ _); [now eexists | discriminate].
  - intros (v & r & Fv & Fr & A & B).
    unfold VehicleRental.return_vehicles. rewrite Fv, Fr.
    assert (T : Vehicle.is_currently_rented v = true).
    { unfold Vehicle.is_currently_rented.
      apply existsb_exists in A. destruct A as (d & I & M).
      apply existsb_exists. exists d. split; [exact I|].
      destruct (entry_matches_active p d M) as (_ & _ & ->). reflexivity. }
    rewrite T. simpl.
    apply (update_first_some_iff _ (Vehicle.mark_completed p None)) in A.
    destruct A as [l' U].
    unfold Vehicle.remove_rental. rewrite U.
    apply pop_first_some_iff in B. destruct B as [c' P].
    unfold Renter.complete_rental. rewrite P. reflexivity.
Qed.

Lemma validate_and_parse_date_past_any_clock (now now' : datetime)
    (s : string) :
  RentalPeriod._validate_and_parse_date now s true
  = RentalPeriod._validate_and_parse_date now' s true.
Proof.
  unfold RentalPeriod._validate_and_parse_date.
  destruct (strptime (strip s)); [|reflexivity].
  destruct ((year d <? RentalPeriod.MIN_YEAR)
            || (year d >? RentalPeriod.MAX_YEAR)); reflexivity.
Qed.

Lemma init_past_any_clock (now now' : datetime) (s e : string) :
  RentalPeriod.init now s e true = RentalPeriod.init now' s e true.
Proof.
  unfold RentalPeriod.init, RentalPeriod.init_in.
  now rewrite (validate_and_parse_date_past_any_clock now now' s),
    (validate_and_parse_date_past_any_clock now now' e).
Qed.

(** X30.  Availability does not depend on today's date.  The periods of
    the ledger are rebuilt with past dates allowed, so [is_available],
    and with it the outcome of [add_rental], is the same at any two
    dates; and booking more never makes a vehicle available: a period
    that is free in a ledger is free in every initial part of it. *)
Theorem availability_ignores_the_clock :
  forall (now now' : datetime) (v : Vehicle.t) (q : RentalPeriod.t)
         (r : string),
    Vehicle.is_available now v q = Vehicle.is_available now' v q
    /\ Vehicle.add_rental now v q r = Vehicle.add_rental now' v q r
    /\ (forall l l' : list Vehicle.rental_dict,
          Vehicle.is_available_loop now q (l ++ l') = true ->
          Vehicle.is_available_loop now q l = true).
Proof.
  intros now now' v q r.
  assert (A : forall l, Vehicle.is_available_loop now q l
                        = Vehicle.is_available_loop now' q l).
  { induction l as [|d l IH]; simpl; [reflexivity|].
    rewrite (init_past_any_clock now now'), IH. reflexivity. }
  split; [apply A|]. split.
  - unfold Vehicle.add_rental, Vehicle.is_available. now rewrite A.
  - intros l l' H. rewrite is_available_loop_app in H.
    apply andb_true_iff in H. apply H.
Qed.
